(** * UF-Scheduler backend: search index and prerequisite graphs

    A shallow embedding of [server.py]: the per-term full-text index and
    its search handler ([get_courses]), the prerequisite graph builder
    ([build_graph_for_all_majors]) and the graph endpoint
    ([generate_a_list]).

    Conventions.
    - A Python [str] is a [string]; one [ascii] stands for one code point
      below 256, so the character classes of [re] and [str.strip] are
      those of Python restricted to that range.
    - A Python [dict] whose iteration order the code relies on is an
      association list in insertion order ([odict]); the database files
      on disk and the process-wide graph map are [gmap]s.
    - networkx graph objects live on a heap and are handled through
      locations, so that sharing between the global map and a request is
      visible. *)

From Stdlib Require Import ZArith QArith Ascii String Sorting.Sorted.
From stdpp Require Import base option list strings gmap.

Local Open Scope string_scope.
Local Open Scope list_scope.
Local Open Scope nat_scope.

(** ** Python strings *)

Module Py.

(** ['\n'] and ['\t'] as characters. *)
Definition LF : ascii := "010"%char.
Definition TAB : ascii := "009"%char.

(** [A-Z] of [re]: the 26 ASCII capitals. *)
Definition is_upper (c : ascii) : bool :=
  let n := nat_of_ascii c in (65 <=? n) && (n <=? 90).

(** [\d] of [re] on [str]: decimal digits; below 256 these are 0-9. *)
Definition is_digit (c : ascii) : bool :=
  let n := nat_of_ascii c in (48 <=? n) && (n <=? 57).

(** [\s] of [re] on [str], also the default set of [str.strip] and
    [str.split]: TAB, LF, VT, FF, CR, FS, GS, RS, US, SPACE, NEL, NBSP. *)
Definition is_space (c : ascii) : bool :=
  let n := nat_of_ascii c in
  ((9 <=? n) && (n <=? 13)) || ((28 <=? n) && (n <=? 32))
  || (n =? 133) || (n =? 160).

(** [c in chars]. *)
Fixpoint str_mem (c : ascii) (chars : string) : bool :=
  match chars with
  | EmptyString => false
  | String d chars' => Ascii.eqb c d || str_mem c chars'
  end.

(** [s[:n]]. *)
Fixpoint str_take (n : nat) (s : string) : string :=
  match n, s with
  | S n', String c s' => String c (str_take n' s')
  | _, _ => ""
  end.

(** [s[n:]]. *)
Fixpoint str_drop (n : nat) (s : string) : string :=
  match n, s with
  | S n', String _ s' => str_drop n' s'
  | _, _ => s
  end.

(** Removal of the longest suffix whose characters satisfy [p]. *)
Fixpoint rstrip_by (p : ascii -> bool) (s : string) : string :=
  match s with
  | EmptyString => ""
  | String c s' =>
      match rstrip_by p s' with
      | EmptyString => if p c then "" else String c ""
      | r => String c r
      end
  end.

(** Removal of the longest prefix whose characters satisfy [p]. *)
Fixpoint lstrip_by (p : ascii -> bool) (s : string) : string :=
  match s with
  | EmptyString => ""
  | String c s' => if p c then lstrip_by p s' else s
  end.

(** [s.rstrip(chars)]. *)
Definition rstrip (chars : string) (s : string) : string :=
  rstrip_by (fun c => str_mem c chars) s.

(** [s.strip()]. *)
Definition strip (s : string) : string :=
  lstrip_by is_space (rstrip_by is_space s).

(** [s.replace(c, '')] for a one-character [c]. *)
Fixpoint remove_char (c : ascii) (s : string) : string :=
  match s with
  | EmptyString => ""
  | String d s' =>
      if Ascii.eqb d c then remove_char c s' else String d (remove_char c s')
  end.

Definition cons_word (w : string) (ws : list string) : list string :=
  match w with EmptyString => ws | _ => w :: ws end.

(** One right-to-left pass of [s.split()]: the word that is still open at
    the head of [s], and the words after it. *)
Fixpoint split_go (s : string) : string * list string :=
  match s with
  | EmptyString => ("", [])
  | String c s' =>
      let '(w, ws) := split_go s' in
      if is_space c then ("", cons_word w ws) else (String c w, ws)
  end.

(** [s.split()]: maximal runs of non-whitespace characters. *)
Definition split (s : string) : list string :=
  let '(w, ws) := split_go s in cons_word w ws.

(** [sep.join(l)]. *)
Fixpoint join (sep : string) (l : list string) : string :=
  match l with
  | [] => ""
  | [x] => x
  | x :: l' => x +:+ sep +:+ join sep l'
  end.

(** [not s]: the truth value Python gives a string. *)
Definition falsy (s : string) : bool :=
  match s with EmptyString => true | _ => false end.

(** [s.split(sep)] for a one-character [sep]: the fields between the
    separators, empty ones kept; never an empty list. *)
Fixpoint split_on (sep : ascii) (s : string) : list string :=
  match s with
  | EmptyString => [""]
  | String c s' =>
      if Ascii.eqb c sep then "" :: split_on sep s'
      else match split_on sep s' with
           | w :: ws => String c w :: ws
           | [] => [String c ""]
           end
  end.

(** [os.path.basename(p)] on POSIX: what follows the last slash. *)
Definition basename (p : string) : string :=
  default "" (last (split_on "/" p)).

(** [l[-n]] for [n] at least 1; [None] stands for IndexError. *)
Definition neg_index {A} (l : list A) (n : nat) : option A :=
  match n with
  | O => None
  | S k => rev l !! k
  end.

(** [sub in s]. *)
Fixpoint contains (sub s : string) : bool :=
  String.prefix sub s
  || match s with
     | EmptyString => false
     | String _ s' => contains sub s'
     end.

(** [s.replace(old, new)] for a non-empty [old]: the occurrences are taken
    from the left and do not overlap; [skip] counts the characters of an
    occurrence still to pass. *)
Fixpoint replace_from (skip : nat) (old new s : string) : string :=
  match s with
  | EmptyString => ""
  | String c s' =>
      match skip with
      | S k => replace_from k old new s'
      | O =>
          if String.prefix old s
          then new +:+ replace_from (String.length old - 1) old new s'
          else String c (replace_from 0 old new s')
      end
  end.

Definition replace (old new s : string) : string := replace_from 0 old new s.

(** The character of code 0. *)
Definition NUL : ascii := "000"%char.

(** [len(os.fsencode(s))]: the bytes of [s] as a file name, in UTF-8; a
    code point below 128 is one byte, another one below 256 is two. *)
Fixpoint fsencode_length (s : string) : nat :=
  match s with
  | EmptyString => 0
  | String c s' =>
      (if nat_of_ascii c <? 128 then 1 else 2) + fsencode_length s'
  end.

End Py.

(** ** Insertion-ordered dictionaries *)

Section odict.
Context {V : Type}.

(** [d.get(k)]. *)
Fixpoint od_get (k : string) (d : list (string * V)) : option V :=
  match d with
  | [] => None
  | (k', v) :: d' => if String.eqb k k' then Some v else od_get k d'
  end.

(** [d[k] = v]: an existing key keeps its position, a new one goes last. *)
Fixpoint od_set (k : string) (v : V) (d : list (string * V)) : list (string * V) :=
  match d with
  | [] => [(k, v)]
  | (k', v') :: d' =>
      if String.eqb k k' then (k', v) :: d' else (k', v') :: od_set k v d'
  end.
End odict.

(** ** Course records, as loaded from the term's JSON file *)

Record Instructor := { inst_name : option string }.

Record Section_ := {
  deptName : option string;
  sec_instructors : option (list Instructor)
}.

Record Course := {
  code : string;
  codeWithSpace : option string;
  name : option string;
  description : option string;
  prerequisites : option string;
  sections : option (list Section_)
}.

(** ** Prerequisite parsing and code formatting *)

(** A match of [[A-Z]{3}\s\d{4}] at the very start of [s]. *)
Definition match_here (s : string) : option string :=
  match s with
  | String a (String b (String c (String w
      (String d1 (String d2 (String d3 (String d4 _))))))) =>
      if Py.is_upper a && Py.is_upper b && Py.is_upper c && Py.is_space w
         && Py.is_digit d1 && Py.is_digit d2 && Py.is_digit d3 && Py.is_digit d4
      then Some (String a (String b (String c (String w
                  (String d1 (String d2 (String d3 (String d4 ""))))))))
      else None
  | _ => None
  end.

(** [re.findall] for this pattern: scan from the left; after a match the
    scan resumes behind it, [skip] counting the characters still to pass. *)
Fixpoint findall_from (skip : nat) (s : string) : list string :=
  match s with
  | EmptyString => []
  | String c s' =>
      match skip with
      | S k => findall_from k s'
      | O =>
          match match_here (String c s') with
          | Some m => m :: findall_from 7 s'
          | None => findall_from 0 s'
          end
      end
  end.

Definition clean_prereq (prerequisites : string) : list string :=
  findall_from 0 prerequisites.

Definition format_course_code (course : string) : string :=
  Py.str_take 3 course +:+ String Py.LF (Py.str_drop 3 course).

(** [format_course_code(code.rstrip('ABCDEFGHIJKLMNOPQRSTUVWXYZ '))], the
    form under which a course is a graph node. *)
Definition course_fmt (code : string) : string :=
  format_course_code (Py.rstrip "ABCDEFGHIJKLMNOPQRSTUVWXYZ " code).

(** [format_course_code(prereq.replace(" ", "").rstrip(' '))], the form
    under which an extracted prerequisite is a graph node. *)
Definition pre_fmt (prereq : string) : string :=
  format_course_code (Py.rstrip " " (Py.remove_char " "%char prereq)).

(** ** Directed graphs (the part of [nx.DiGraph] the server uses)

    [succ] is networkx's [_succ]: every node, in insertion order, with its
    successors in insertion order. *)

Record DiGraph := { succ : list (string * list string) }.

Definition empty_graph : DiGraph := {| succ := [] |}.

(** [G.nodes()]. *)
Definition nodes (G : DiGraph) : list string := map fst (succ G).

(** [G.edges()]. *)
Definition edges (G : DiGraph) : list (string * string) :=
  flat_map (fun '(u, vs) => map (pair u) vs) (succ G).

Definition has_node (n : string) (G : DiGraph) : bool :=
  existsb (fun '(u, _) => String.eqb n u) (succ G).

Definition add_node (n : string) (G : DiGraph) : DiGraph :=
  if has_node n G then G else {| succ := succ G ++ [(n, [])] |}.

Definition add_succ (u v : string) (adj : list (string * list string))
  : list (string * list string) :=
  map (fun '(n, vs) =>
         if String.eqb n u
         then (n, if existsb (String.eqb v) vs then vs else vs ++ [v])
         else (n, vs)) adj.

(** [G.add_edge(u, v)]: [u], then [v], become nodes if they are not, and
    [v] becomes a successor of [u]. *)
Definition add_edge (u v : string) (G : DiGraph) : DiGraph :=
  {| succ := add_succ u v (succ (add_node v (add_node u G))) |}.

(** ** The graph builder *)

(** [sections[0].get("deptName", "") if sections else ""]. *)
Definition dept_of (course : Course) : string :=
  match default [] (sections course) with
  | [] => ""
  | s :: _ => default "" (deptName s)
  end.

(** First loop: [code_dept_map] and [code_prereq_map]. *)
Definition code_maps (all_courses : list Course)
  : list (string * string) * list (string * string) :=
  fold_left
    (fun '(code_dept_map, code_prereq_map) course =>
       (od_set (code course) (dept_of course) code_dept_map,
        od_set (code course) (default "" (prerequisites course)) code_prereq_map))
    all_courses ([], []).

(** Second loop: [major_courses_map.setdefault(dept, []).append(code)]. *)
Definition group_by_dept (code_dept_map : list (string * string))
  : list (string * list string) :=
  fold_left
    (fun major_courses_map '(code, dept) =>
       od_set dept (default [] (od_get dept major_courses_map) ++ [code])
              major_courses_map)
    code_dept_map [].

(** The body of the innermost loop. *)
Definition add_prereq_edge (course_fmt : string) (G : DiGraph) (prereq : string)
  : DiGraph :=
  let pre_fmt := pre_fmt prereq in
  if String.eqb course_fmt pre_fmt then G else add_edge pre_fmt course_fmt G.

(** The body of the loop over the codes of one department.  The lookup
    [code_prereq_map[code]] cannot miss: both maps have the same keys. *)
Definition add_course_edges (code_prereq_map : list (string * string))
  (G : DiGraph) (code : string) : DiGraph :=
  let prereq_list := clean_prereq (default "" (od_get code code_prereq_map)) in
  fold_left (add_prereq_edge (course_fmt code)) prereq_list G.

Definition graph_of_codes (code_prereq_map : list (string * string))
  (codes : list string) : DiGraph :=
  fold_left (add_course_edges code_prereq_map) codes empty_graph.

Definition build_graph_for_all_majors (all_courses : list Course)
  : list (string * DiGraph) :=
  let '(code_dept_map, code_prereq_map) := code_maps all_courses in
  let major_courses_map := group_by_dept code_dept_map in
  fold_left
    (fun graphs_for_majors '(dept, codes) =>
       od_set dept (graph_of_codes code_prereq_map codes) graphs_for_majors)
    major_courses_map [].

(** ** The term index store

    One SQLite file per term, holding the FTS5 table [courses_fts].  A file
    that [sqlite3.connect] had to create holds no table.

    The store is the working directory of the server: it holds the
    database files by name.  The directory can be written, and it has no
    subdirectory whose name begins with [courses_]; its own path is short
    enough for the 512 bytes SQLite allows a full path. *)

Record Row := {
  row_code : string;
  row_codeWithSpace : string;
  row_name : string;
  row_description : string;
  row_instructors : string;
  (** [json.dumps(course)]; [json.loads] gives the record back. *)
  row_json_data : Course
}.

Record Database := { courses_fts : option (list Row) }.

Definition empty_database : Database := {| courses_fts := None |}.

(** [f'courses_{year}_{term}.db']. *)
Definition db_name_of (year term : string) : string :=
  "courses_" +:+ year +:+ "_" +:+ term +:+ ".db".

(** The exceptions the handlers let through, each with its message.
    [Fts5Error q] is the [sqlite3.OperationalError] with which the MATCH
    operator refuses the expression [q]; its message is the engine's and
    depends on the expression ("unterminated string", "fts5: syntax error
    near ...", "no such column: ..."). *)
Inductive Exn :=
| OperationalError (msg : string)
| Fts5Error (ftsQuery : string)
| OverflowError (msg : string)
| ValueError (msg : string).

(** What [sqlite3.connect(db_name)] raises when it has to create the file
    and cannot: a name with a NUL is refused by Python; a name with a slash
    lies in a directory that does not exist; a name of more than 255 bytes
    is refused by the file system. *)
Definition connect_error (db_name : string) : option Exn :=
  if Py.str_mem Py.NUL db_name then Some (ValueError "embedded null byte")
  else if Py.str_mem "/" db_name || (255 <? Py.fsencode_length db_name)
       then Some (OperationalError "unable to open database file")
       else None.

(** [sqlite3.connect(db_name)] where it succeeds: opens the file, creating
    it when there is none. *)
Definition open_or_create (db_name : string) (files : gmap string Database)
  : Database * gmap string Database :=
  match files !! db_name with
  | Some db => (db, files)
  | None => (empty_database, <[db_name := empty_database]> files)
  end.

(** [get_connection(db_name)], that is [sqlite3.connect(db_name)]: a file
    that exists is opened; one that does not is created, or the call
    raises and leaves no file. *)
Definition get_connection (db_name : string) (files : gmap string Database)
  : Exn + Database * gmap string Database :=
  match files !! db_name, connect_error db_name with
  | None, Some e => inl e
  | _, _ => inr (open_or_create db_name files)
  end.

Definition instructor_names (course : Course) : list string :=
  flat_map
    (fun section =>
       map (fun inst => default "" (inst_name inst))
           (default [] (sec_instructors section)))
    (default [] (sections course)).

Definition row_of_course (course : Course) : Row :=
  {| row_code := code course;
     row_codeWithSpace := default "" (codeWithSpace course);
     row_name := default "" (name course);
     row_description := default "" (description course);
     row_instructors := Py.join " " (instructor_names course);
     row_json_data := course |}.

(** [init_db_for_file], after the file name has been parsed into
    [(year, term)] and the file read into [all_courses]: the table is
    created if it is missing and filled only if it has no row.  The year
    and the term are parsed from the name of a course file that has just
    been read, so the database name has no slash and no NUL and is no
    longer than that file's name ([glob_name_connects] below):
    [get_connection] does not raise here, it is [open_or_create]. *)
Definition init_db_for_file (year term : string) (all_courses : list Course)
  (files : gmap string Database) : gmap string Database :=
  let db_name := db_name_of year term in
  let '(conn, files) := open_or_create db_name files in
  let table := default [] (courses_fts conn) in
  let table :=
    if length table =? 0 then map row_of_course all_courses else table in
  <[db_name := {| courses_fts := Some table |}]> files.

(** ** The search handler *)

Record SearchRequest := {
  searchTerm : option string;
  itemsPerPage : option Z;
  startFrom : option Z;
  year : option string;
  term : option string
}.

(** What the handler hands back: a JSON list with status 200, an error
    object with status 400, or an exception nobody catches. *)
Inductive Response :=
| Ok (results : list Course)
| Error400 (msg : string)
| Uncaught (e : Exn).

(** What [sqlite3] binds as an INTEGER: a Python int of 64 bits, sign
    included; for another one [execute] raises OverflowError. *)
Definition sqlite_int (n : Z) : bool :=
  (- 2 ^ 63 <=? n)%Z && (n <? 2 ^ 63)%Z.

(** [LIMIT limit OFFSET offset] of SQLite, for integers it has been given
    (see [select]): a negative offset is no offset, a negative limit is no
    limit. *)
Definition limit_offset {A} (limit offset : Z) (rows : list A) : list A :=
  let rows := skipn (Z.to_nat offset) rows in
  if (limit <? 0)%Z then rows else firstn (Z.to_nat limit) rows.

(** SQLite's full-text engine is taken as given:
    - [fts5_match q] is the predicate the MATCH expression [q] denotes on
      rows, or [None] when [q] is not a well-formed FTS5 expression;
    - [bm25 table q row] is the score of [row] for [q], a finite double and
      hence a rational. *)
Section search.
Variable fts5_match : string -> option (Row -> bool).
Variable bm25 : list Row -> string -> Row -> Q.

(** [CASE WHEN codeWithSpace = :exactSearch OR code = :exactSearch
    THEN 0 ELSE 1 END]. *)
Definition top_sort (exactSearch : string) (row : Row) : nat :=
  if String.eqb (row_codeWithSpace row) exactSearch
     || String.eqb (row_code row) exactSearch
  then 0 else 1.

(** The order of [ORDER BY top_sort, rank] on (top_sort, rank) pairs. *)
Definition key_le (k1 k2 : nat * Q) : bool :=
  (fst k1 <? fst k2) || ((fst k1 =? fst k2) && Qle_bool (snd k1) (snd k2)).

Section order_by.
Variable key : Row -> nat * Q.

Fixpoint insert_row (r : Row) (sorted : list Row) : list Row :=
  match sorted with
  | [] => [r]
  | r' :: sorted' =>
      if key_le (key r) (key r') then r :: sorted
      else r' :: insert_row r sorted'
  end.

(** The sorter: rows with equal keys stay in table order. *)
Definition order_by (rows : list Row) : list Row :=
  foldr insert_row [] rows.
End order_by.

(** [cur.execute(query, ...)] with the SELECT statement of [get_courses]
    and its four parameters, then [fetchall()]: the statement is compiled
    (the table must exist), the parameters are bound (the integers must
    fit), and the query is run (the MATCH expression must be well
    formed). *)
Definition select (conn : Database) (exactSearch ftsQuery : string)
  (limit offset : Z) : Exn + list Row :=
  match courses_fts conn with
  | None => inl (OperationalError "no such table: courses_fts")
  | Some table =>
      if sqlite_int limit && sqlite_int offset then
        match fts5_match ftsQuery with
        | None => inl (Fts5Error ftsQuery)
        | Some matches =>
            let key row := (top_sort exactSearch row, bm25 table ftsQuery row) in
            inr (limit_offset limit offset
                   (order_by key (filter (fun row => matches row = true) table)))
        end
      else
        inl (OverflowError "Python int too large to convert to SQLite INTEGER")
  end.

Definition get_courses (files : gmap string Database) (data : SearchRequest)
  : Response * gmap string Database :=
  let searchTerm := Py.strip (default "" (searchTerm data)) in
  let itemsPerPage := default 20%Z (itemsPerPage data) in
  let startFrom := default 0%Z (startFrom data) in
  match year data, term data with
  | Some year, Some term =>
      if Py.falsy year || Py.falsy term
      then (Error400 "Missing 'year' or 'term' in request body", files)
      else
        let db_name := db_name_of year term in
        if Py.falsy searchTerm then (Ok [], files)
        else
          let terms := Py.split searchTerm in
          let prefix_terms := map (fun t => t +:+ "*") terms in
          let fts_query := Py.join " " prefix_terms in
          match get_connection db_name files with
          | inl e => (Uncaught e, files)
          | inr (conn, files) =>
              match select conn searchTerm fts_query itemsPerPage startFrom with
              | inl e => (Uncaught e, files)
              | inr rows => (Ok (map row_json_data rows), files)
              end
          end
  | _, _ => (Error400 "Missing 'year' or 'term' in request body", files)
  end.

(** The operation the service layer exposes:
    [search(term, phrase, pageSize, offset)]. *)
Definition search (files : gmap string Database) (term_key : string * string)
  (phrase : string) (pageSize offset : Z) : Response :=
  fst (get_courses files
         {| searchTerm := Some phrase;
            itemsPerPage := Some pageSize;
            startFrom := Some offset;
            year := Some (fst term_key);
            term := Some (snd term_key) |}).
End search.

(** ** The graph endpoint

    Graph objects are mutable and shared by reference: the process-wide
    [major_graph_map] holds locations, and a request works on the heap. *)

(** A location is an index into the heap. *)
Abbreviation loc := nat (only parsing).

Record ServerState := {
  heap : list DiGraph;
  major_graph_map : gmap (string * string) (gmap string loc)
}.

(** Handler code: it reads and writes the state, and is stuck ([None]) on
    a location that holds nothing. *)
Definition M (A : Type) : Type := ServerState -> option (A * ServerState).

#[export] Instance M_ret : MRet M := fun A a st => Some (a, st).
#[export] Instance M_bind : MBind M := fun A B f m st =>
  match m st with
  | Some (a, st') => f a st'
  | None => None
  end.

(** [nx.DiGraph()]. *)
Definition new_DiGraph : M loc := fun st =>
  Some (length (heap st),
        {| heap := heap st ++ [empty_graph];
           major_graph_map := major_graph_map st |}).

Definition read_graph (l : loc) : M DiGraph := fun st =>
  G ← heap st !! l; Some (G, st).

(** [G.copy()]: a new object with the nodes and edges of [G], in the same
    order. *)
Definition copy_graph (l : loc) : M loc := fun st =>
  G ← heap st !! l;
  Some (length (heap st),
        {| heap := heap st ++ [G]; major_graph_map := major_graph_map st |}).

(** [G.add_node(n)] on the object at [l]. *)
Definition add_node_at (l : loc) (n : string) : M unit := fun st =>
  G ← heap st !! l;
  Some (tt, {| heap := <[l := add_node n G]> (heap st);
               major_graph_map := major_graph_map st |}).

Definition get_major_graph_map : M (gmap (string * string) (gmap string loc)) :=
  fun st => Some (major_graph_map st, st).

Fixpoint for_each {A} (l : list A) (body : A -> M unit) : M unit :=
  match l with
  | [] => mret tt
  | x :: l' => body x ≫= fun _ => for_each l' body
  end.

Record GraphRequest := {
  selectedMajorServ : string;
  selectedCoursesServ : list string;
  graph_year : option string;
  graph_term : option string
}.

(** The JSON answer: [(id, classes)] per node, [(source, target)] per
    edge. *)
Record Rendering := {
  out_nodes : list (string * string);
  out_edges : list (string * string)
}.

Definition generate_a_list (data : GraphRequest) : M Rendering :=
  _ ← new_DiGraph;
  let selected_major := selectedMajorServ data in
  let taken_courses := selectedCoursesServ data in
  let formatted_taken_courses := map course_fmt taken_courses in
  graphs ← get_major_graph_map;
  let major_graphs :=
    match graph_year data, graph_term data with
    | Some year, Some term => default ∅ (graphs !! (year, term))
    | _, _ => ∅
    end in
  fallback ← new_DiGraph;
  let base_graph := default fallback (major_graphs !! selected_major) in
  G ← copy_graph base_graph;
  _ ← for_each formatted_taken_courses (add_node_at G);
  g ← read_graph G;
  mret {| out_nodes :=
            map (fun node =>
                   (node,
                    if existsb (String.eqb node) formatted_taken_courses
                    then "selected" else "not_selected"))
                (nodes g);
          out_edges := edges g |}.

(** The operation the service layer exposes:
    [renderGraph(term, department, completed)]. *)
Definition renderGraph (term_key : string * string) (department : string)
  (completed : list string) : M Rendering :=
  generate_a_list
    {| selectedMajorServ := department;
       selectedCoursesServ := completed;
       graph_year := Some (fst term_key);
       graph_term := Some (snd term_key) |}.

(** Start-up: the graphs of every loaded term are built and stored. *)
Definition store_graphs (graphs_for_majors : list (string * DiGraph))
  (h : list DiGraph) : gmap string loc * list DiGraph :=
  fold_left
    (fun '(m, h) '(dept, G) => (<[dept := length h]> m, h ++ [G]))
    graphs_for_majors (∅, h).

Definition startup (year_term_course_list : list ((string * string) * list Course))
  : ServerState :=
  fold_left
    (fun st '(key, all_courses) =>
       let '(m, h) :=
         store_graphs (build_graph_for_all_majors all_courses) (heap st) in
       {| heap := h; major_graph_map := <[key := m]> (major_graph_map st) |})
    year_term_course_list
    {| heap := []; major_graph_map := ∅ |}.

(** Every stored location holds a graph. *)
Definition stored_graphs_allocated (st : ServerState) : Prop :=
  forall key m dept l,
    major_graph_map st !! key = Some m -> m !! dept = Some l ->
    l < length (heap st).

(** ** File names

    [None] stands for the IndexError of a file name with fewer than three
    fields. *)
Definition parse_year_term_from_filename (filename : string)
  : option (string * string) :=
  let parts := Py.split_on "_" (Py.basename filename) in
  year ← Py.neg_index parts 3;
  term ← Py.neg_index parts 2;
  let term :=
    if Py.contains "final.json" term then Py.replace "final.json" "" term
    else term in
  Some (year, term).

(** ** Loading the course files

    [year_term_course_list] is a dictionary keyed by (year, term): an
    assignment to a key it has keeps the key's position. *)
Fixpoint year_term_set (key : string * string) (all_courses : list Course)
  (d : list ((string * string) * list Course))
  : list ((string * string) * list Course) :=
  match d with
  | [] => [(key, all_courses)]
  | (key', courses') :: d' =>
      if String.eqb (fst key) (fst key') && String.eqb (snd key) (snd key')
      then (key', all_courses) :: d'
      else (key', courses') :: year_term_set key all_courses d'
  end.

(** [init_db_for_file(json_path)] as a whole, [all_courses] being what
    [json.load] reads from the file: the name is parsed, the term's index
    built, and the courses kept under the term's key. *)
Definition init_db_for_path (json_path : string) (all_courses : list Course)
  (state : gmap string Database * list ((string * string) * list Course))
  : option (gmap string Database * list ((string * string) * list Course)) :=
  '(year, term) ← parse_year_term_from_filename json_path;
  Some (init_db_for_file year term all_courses (fst state),
        year_term_set (year, term) all_courses (snd state)).

(** [for jpath in json_files: init_db_for_file(jpath)]; an IndexError ends
    it. *)
Fixpoint load_files (json_files : list (string * list Course))
  (state : gmap string Database * list ((string * string) * list Course))
  : option (gmap string Database * list ((string * string) * list Course)) :=
  match json_files with
  | [] => Some state
  | (json_path, all_courses) :: rest =>
      state' ← init_db_for_path json_path all_courses state;
      load_files rest state'
  end.

(** What importing the module does: the files are loaded, then the graphs
    of every term are built and stored. *)
Definition boot (json_files : list (string * list Course))
  (files : gmap string Database) : option (gmap string Database * ServerState) :=
  '(files', year_term_course_list) ← load_files json_files (files, []);
  Some (files', startup year_term_course_list).

(** ** Sample data *)

Module Sample.

Definition course (c cws p d : string) : Course :=
  {| code := c; codeWithSpace := Some cws; name := Some "Programming";
     description := None; prerequisites := Some p;
     sections := Some [ {| deptName := Some d; sec_instructors := None |} ] |}.

Definition cop3502c := course "COP3502C" "COP 3502C" "" "CISE".
Definition cop3503 := course "COP3503" "COP 3503" "COP 3502 and MAC 2311" "CISE".
Definition mac2312 := course "MAC2312" "MAC 2312" "MAC 2311" "MATH".
Definition catalog : list Course := [cop3502c; cop3503; mac2312].

Definition words_of_row (r : Row) : list string :=
  Py.split (row_code r) ++ Py.split (row_codeWithSpace r)
  ++ Py.split (row_name r) ++ Py.split (row_description r)
  ++ Py.split (row_instructors r).

(** A stand-in for the full-text engine: every token of the query must be a
    prefix of a word of the row; a query holding a quote character is
    refused. *)
Definition fts5_match (q : string) : option (Row -> bool) :=
  if Py.str_mem "034"%char q then None
  else Some (fun r =>
    forallb (fun t => existsb (String.prefix (Py.rstrip "*" t)) (words_of_row r))
            (Py.split q)).

(** A stand-in for the score: shorter rows score lower (better). *)
Definition bm25 (table : list Row) (q : string) (r : Row) : Q :=
  (- (1 # Pos.of_succ_nat (length (words_of_row r))))%Q.

Definition files : gmap string Database :=
  init_db_for_file "25" "fall" catalog ∅.

Definition state : ServerState := startup [(("25", "fall"), catalog)].

(** A course whose prerequisite is written with a tab, not a space. *)
Definition tabbed_prereq : string := "COP" +:+ String Py.TAB "3502".
Definition tabbed : Course := course "COP3503" "COP 3503" tabbed_prereq "CISE".

(** Two records whose raw codes differ by a trailing space, and their
    index. *)
Definition spaced := course "COP3502 " "COP 3502" "" "CISE".
Definition plain := course "COP3502" "COP-3502" "" "CISE".
Definition spaced_files : gmap string Database :=
  init_db_for_file "25" "fall" [spaced; plain] ∅.

(** The index of the sample term. *)
Definition table : list Row := map row_of_course catalog.

(** The graph the builder makes of the department CISE. *)
Definition cise_graph : DiGraph :=
  default empty_graph (od_get "CISE" (build_graph_for_all_majors catalog)).

End Sample.

(** ** Shapes of prerequisite codes *)

(** The pattern of [clean_prereq] as a test on a whole string: three
    capitals, one whitespace character, four digits. *)
Definition pattern_shape (w : string) : bool :=
  match w with
  | String a (String b (String c (String sp
      (String d1 (String d2 (String d3 (String d4 EmptyString))))))) =>
      Py.is_upper a && Py.is_upper b && Py.is_upper c && Py.is_space sp
      && Py.is_digit d1 && Py.is_digit d2 && Py.is_digit d3 && Py.is_digit d4
  | _ => false
  end.

(** The shape the specification words: three capitals, one space, four
    digits. *)
Definition spec_shape (w : string) : bool :=
  match w with
  | String a (String b (String c (String sp
      (String d1 (String d2 (String d3 (String d4 EmptyString))))))) =>
      Py.is_upper a && Py.is_upper b && Py.is_upper c && Ascii.eqb sp " "
      && Py.is_digit d1 && Py.is_digit d2 && Py.is_digit d3 && Py.is_digit d4
  | _ => false
  end.

(** [w] is a substring of [s]. *)
Definition occurs_in (w s : string) : Prop :=
  exists pre post, s = pre +:+ w +:+ post.

(** ** Vocabulary for file names *)

(** How often [c] occurs in [s]. *)
Fixpoint count_char (c : ascii) (s : string) : nat :=
  match s with
  | EmptyString => 0
  | String d s' => (if Ascii.eqb d c then 1 else 0) + count_char c s'
  end.

(** ** Vocabulary for the search properties *)

(** The table of the term's index, if the term has one. *)
Definition index_of (files : gmap string Database) (term_key : string * string)
  : option (list Row) :=
  files !! db_name_of (fst term_key) (snd term_key) ≫= courses_fts.

(** The files a call of [get_connection] leaves. *)
Definition files_after_connect (db_name : string) (files : gmap string Database)
  : gmap string Database :=
  match get_connection db_name files with
  | inl _ => files
  | inr (_, files') => files'
  end.

(** The MATCH expression the handler makes of a phrase. *)
Definition fts_query_of (phrase : string) : string :=
  Py.join " " (map (fun t => t +:+ "*") (Py.split (Py.strip phrase))).

(** The rows a query selects from a table, best first, before paging. *)
Definition ranked (bm25 : list Row -> string -> Row -> Q) (table : list Row)
  (phrase : string) (matches : Row -> bool) : list Row :=
  order_by
    (fun row => (top_sort (Py.strip phrase) row,
                 bm25 table (fts_query_of phrase) row))
    (filter (fun row => matches row = true) table).

(** [a] may stand before [b] in the order of [ORDER BY], by their keys. *)
Definition key_before (key : Row -> nat * Q) (a b : Row) : Prop :=
  key_le (key a) (key b) = true.

(** Every character of [s] is whitespace. *)
Fixpoint all_space (s : string) : bool :=
  match s with
  | EmptyString => true
  | String c s' => Py.is_space c && all_space s'
  end.

(** The row's display code or raw code is [text]. *)
Definition exact_match (text : string) (row : Row) : Prop :=
  row_codeWithSpace row = text \/ row_code row = text.

(** ** Vocabulary for graphs *)

(** What networkx keeps true of a graph: no node twice, no edge twice, and
    both ends of every edge among the nodes. *)
Definition graph_ok (G : DiGraph) : Prop :=
  NoDup (nodes G) /\ NoDup (edges G)
  /\ forall u v, In (u, v) (edges G) -> In u (nodes G) /\ In v (nodes G).

(** The same, said of the adjacency structure entry by entry. *)
Definition adj_ok (adj : list (string * list string)) : Prop :=
  NoDup (map fst adj)
  /\ Forall (fun entry =>
               NoDup (snd entry)
               /\ forall v, In v (snd entry) -> In v (map fst adj)) adj.

(** ** Vocabulary for the graph endpoint *)

(** The stored graph a request names, if there is one. *)
Definition stored_location (st : ServerState) (term_key : string * string)
  (department : string) : option loc :=
  major_graph_map st !! term_key ≫= fun major_graphs => major_graphs !! department.

(** The answer for a base graph [G] and the courses taken, computed
    without any state. *)
Definition rendering_of (G : DiGraph) (taken_courses : list string) : Rendering :=
  let formatted_taken_courses := map course_fmt taken_courses in
  let g := fold_left (fun g course => add_node course g) formatted_taken_courses G in
  {| out_nodes :=
       map (fun node =>
              (node,
               if existsb (String.eqb node) formatted_taken_courses
               then "selected" else "not_selected"))
           (nodes g);
     out_edges := edges g |}.

(** The graph a request for [term_key] and [department] starts from: the
    stored one, or an empty one when none is stored; [None] when the stored
    location holds nothing. *)
Definition base_graph_of (st : ServerState) (term_key : string * string)
  (department : string) : option DiGraph :=
  default (Some empty_graph)
          ((fun l => heap st !! l) <$> stored_location st term_key department).

(** The working copy of a request, once the courses taken are nodes. *)
Definition with_taken (G : DiGraph) (taken_courses : list string) : DiGraph :=
  fold_left (fun g course => add_node course g) (map course_fmt taken_courses) G.

(** What start-up has stored for a term: for every department of the
    builder's result a location that holds its graph, for no other
    department anything. *)
Definition stores (st : ServerState) (key : string * string)
  (graphs : list (string * DiGraph)) : Prop :=
  exists m,
    major_graph_map st !! key = Some m
    /\ (forall dept, ~ In dept (map fst graphs) -> m !! dept = None)
    /\ (forall dept G, In (dept, G) graphs ->
          exists l, m !! dept = Some l /\ heap st !! l = Some G).
(** The states of a server that started from [year_term_course_list] and
    has answered any number of graph requests since. *)
Inductive serving (year_term_course_list : list ((string * string) * list Course))
  : ServerState -> Prop :=
| serving_start : serving year_term_course_list (startup year_term_course_list)
| serving_request st term_key department completed r st' :
    serving year_term_course_list st ->
    renderGraph term_key department completed st = Some (r, st') ->
    serving year_term_course_list st'.

(** ** Vocabulary for the loading of the files *)

(** The term [key] is loaded from [all_courses]: its index holds their rows
    and the courses kept under the key are these. *)
Definition term_built (key : string * string) (all_courses : list Course)
  (state : gmap string Database * list ((string * string) * list Course))
  : Prop :=
  index_of (fst state) key = Some (map row_of_course all_courses)
  /\ In (key, all_courses) (snd state).

(** The term's index has no rows yet, or the rows of [all_courses]. *)
Definition term_buildable (key : string * string) (all_courses : list Course)
  (state : gmap string Database * list ((string * string) * list Course))
  : Prop :=
  default [] (index_of (fst state) key) = []
  \/ index_of (fst state) key = Some (map row_of_course all_courses).

(** ** Provenance in a department's graph *)

(** Where an edge of a department's graph comes from: a prerequisite code
    found in the text of a course of the department, both formatted and
    different. *)
Definition edge_origin (all_courses : list Course) (dept : string) (e : string * string) : Prop :=
  exists course prereq,
    In course all_courses /\ dept_of course = dept
    /\ In prereq (clean_prereq (default "" (prerequisites course)))
    /\ fst e = pre_fmt prereq /\ snd e = course_fmt (code course)
    /\ fst e <> snd e.

(** Where a node of a department's graph comes from. *)
Definition node_origin (all_courses : list Course) (dept : string) (n : string) : Prop :=
  exists course,
    In course all_courses /\ dept_of course = dept
    /\ (n = course_fmt (code course)
        \/ exists prereq,
             In prereq (clean_prereq (default "" (prerequisites course)))
             /\ n = pre_fmt prereq).

(** * Properties *)

(** ** Strings *)

Section string_facts.
Implicit Types (s t : string) (c : ascii) (p : ascii -> bool).

Lemma app_String c s t : String c s +:+ t = String c (s +:+ t).
Proof. reflexivity. Qed.

Lemma str_take_drop n s : Py.str_take n s +:+ Py.str_drop n s = s.
Proof.
  revert s; induction n as [|n IH]; intros [|c s]; try reflexivity.
  cbn [Py.str_take Py.str_drop]. now rewrite app_String, IH.
Qed.

Lemma length_app_String s c t :
  String.length (s +:+ String c t) = S (String.length (s +:+ t)).
Proof. induction s as [|d s IH]; simpl; [reflexivity | now rewrite IH]. Qed.

Lemma format_course_code_length s :
  String.length (format_course_code s) = S (String.length s).
Proof.
  unfold format_course_code.
  now rewrite length_app_String, str_take_drop.
Qed.

Lemma rstrip_by_cons p c s :
  Py.rstrip_by p (String c s) =
  match Py.rstrip_by p s with
  | EmptyString => if p c then "" else String c ""
  | r => String c r
  end.
Proof. reflexivity. Qed.

Lemma rstrip_by_app p s t :
  Py.rstrip_by p (s +:+ t) =
  match Py.rstrip_by p t with
  | EmptyString => Py.rstrip_by p s
  | r => s +:+ r
  end.
Proof.
  induction s as [|c s IH].
  - change ("" +:+ t) with t. now destruct (Py.rstrip_by p t).
  - rewrite app_String, !rstrip_by_cons, IH.
    destruct (Py.rstrip_by p t) as [|d r]; [reflexivity|].
    destruct s; reflexivity.
Qed.

Lemma rstrip_by_idem p s :
  Py.rstrip_by p (Py.rstrip_by p s) = Py.rstrip_by p s.
Proof.
  induction s as [|c s IH]; [reflexivity|].
  rewrite rstrip_by_cons.
  destruct (Py.rstrip_by p s) as [|d r] eqn:E.
  - destruct (p c) eqn:Ec; [reflexivity|]. simpl. now rewrite Ec.
  - rewrite rstrip_by_cons, IH. reflexivity.
Qed.

Lemma rstrip_by_fixed_tail p c s :
  Py.rstrip_by p (String c s) = String c s -> Py.rstrip_by p s = s.
Proof.
  rewrite rstrip_by_cons.
  destruct (Py.rstrip_by p s) as [|d r]; [|congruence].
  destruct (p c); [discriminate|]. congruence.
Qed.

Lemma rstrip_by_fixed_drop p n s :
  Py.rstrip_by p s = s -> Py.rstrip_by p (Py.str_drop n s) = Py.str_drop n s.
Proof.
  revert s; induction n as [|n IH]; intros [|c s] H; simpl; try assumption.
  apply IH. eapply rstrip_by_fixed_tail, H.
Qed.

(** A string that [rstrip] leaves alone is still left alone once
    [format_course_code] has put the line feed into it. *)
Lemma rstrip_by_format p s :
  p Py.LF = false -> Py.rstrip_by p s = s ->
  Py.rstrip_by p (format_course_code s) = format_course_code s.
Proof.
  intros HLF Hs. unfold format_course_code.
  rewrite rstrip_by_app, rstrip_by_cons, (rstrip_by_fixed_drop _ _ _ Hs), HLF.
  destruct (Py.str_drop 3 s); reflexivity.
Qed.

Lemma course_fmt_fixed code :
  Py.rstrip "ABCDEFGHIJKLMNOPQRSTUVWXYZ " (course_fmt code) = course_fmt code.
Proof.
  unfold course_fmt, Py.rstrip.
  apply rstrip_by_format; [reflexivity | apply rstrip_by_idem].
Qed.
End string_facts.

(** C3, the claim as written fails: normalizing the normalized form of
    COP3502C does not give it back. *)
Lemma course_fmt_idempotent_fails :
  course_fmt "COP3502C" = "COP" +:+ String Py.LF "3502"
  /\ course_fmt (course_fmt "COP3502C")
     = "COP" +:+ String Py.LF (String Py.LF "3502")
  /\ course_fmt (course_fmt "COP3502C") <> course_fmt "COP3502C".
Proof. repeat split. vm_compute. discriminate. Qed.

(** C3, amended: normalization does not see the trailing capitals and
    spaces of a raw code, so a raw code and its stripped form normalize
    alike, and COP3502C and COP3502 both normalize to COP, line feed, 3502;
    on a code that is already normalized it is not the identity but
    [format_course_code] once more, which inserts a second line feed and
    makes the code one character longer. *)
Theorem course_fmt_normalization code :
  course_fmt "COP3502C" = course_fmt "COP3502"
  /\ course_fmt (Py.rstrip "ABCDEFGHIJKLMNOPQRSTUVWXYZ " code) = course_fmt code
  /\ course_fmt (course_fmt code) = format_course_code (course_fmt code)
  /\ String.length (course_fmt (course_fmt code))
     = S (String.length (course_fmt code))
  /\ course_fmt (course_fmt code) <> course_fmt code.
Proof.
  assert (H2 : course_fmt (course_fmt code) = format_course_code (course_fmt code)).
  { unfold course_fmt at 1. now rewrite course_fmt_fixed. }
  assert (H3 : String.length (course_fmt (course_fmt code))
               = S (String.length (course_fmt code))).
  { rewrite H2. apply format_course_code_length. }
  repeat split; try assumption.
  - unfold course_fmt, Py.rstrip. now rewrite rstrip_by_idem.
  - intros E. rewrite E in H3. lia.
Qed.

(** ** The prerequisite pattern *)

Section pattern_facts.
Implicit Types (s w m : string) (c : ascii).

Lemma upper_not_space c : Py.is_upper c = true -> Py.is_space c = true -> False.
Proof.
  unfold Py.is_upper, Py.is_space. intros H1 H2.
  rewrite andb_true_iff, !Nat.leb_le in H1.
  rewrite !orb_true_iff, !andb_true_iff, !Nat.leb_le, !Nat.eqb_eq in H2. lia.
Qed.

Lemma upper_not_digit c : Py.is_upper c = true -> Py.is_digit c = true -> False.
Proof.
  unfold Py.is_upper, Py.is_digit. intros H1 H2.
  rewrite andb_true_iff, !Nat.leb_le in H1, H2. lia.
Qed.

Lemma occurs_in_cons c w s : occurs_in w s -> occurs_in w (String c s).
Proof. intros (pre & post & ->). now exists (String c pre), post. Qed.

Lemma match_here_Some s m :
  match_here s = Some m <->
  pattern_shape m = true /\ exists post, s = m +:+ post.
Proof.
  split.
  - unfold match_here.
    do 8 (destruct s as [|? s]; [discriminate|]).
    lazymatch goal with |- (if ?b then _ else _) = _ -> _ => destruct b eqn:E end;
      [|discriminate].
    intros [= <-]. split; [exact E | now exists s].
  - intros [Hm [post ->]].
    do 8 (destruct m as [|? m]; [discriminate|]).
    destruct m; [|discriminate].
    cbn [pattern_shape] in Hm. rewrite !app_String.
    unfold match_here. now rewrite Hm.
Qed.

Lemma pattern_shape_length w : pattern_shape w = true -> String.length w = 8.
Proof.
  intros H. do 8 (destruct w as [|? w]; [discriminate|]).
  now destruct w.
Qed.

(** Two occurrences of the pattern never overlap: behind the start of
    one, the next can begin only after its eight characters. *)
Lemma pattern_no_overlap m w post1 pre post :
  pattern_shape m = true -> pattern_shape w = true ->
  m +:+ post1 = pre +:+ w +:+ post ->
  pre = "" \/ 8 <= String.length pre.
Proof.
  intros Hm Hw E.
  do 8 (destruct m as [|? m]; [discriminate|]). destruct m; [|discriminate].
  do 8 (destruct w as [|? w]; [discriminate|]). destruct w; [|discriminate].
  cbn in Hm, Hw. rewrite !andb_true_iff in Hm, Hw. destruct_and!.
  destruct pre as [|? pre]; [now left|].
  do 7 (destruct pre as [|? pre];
        [exfalso; cbn in E; simplify_eq;
         eauto using upper_not_space, upper_not_digit|]).
  right; cbn; lia.
Qed.

Lemma findall_from_sound s : forall k w,
  In w (findall_from k s) -> pattern_shape w = true /\ occurs_in w s.
Proof.
  induction s as [|c s IH]; intros k w Hin; [destruct Hin|].
  cbn [findall_from] in Hin. destruct k as [|k].
  - destruct (match_here (String c s)) as [m|] eqn:Em.
    + destruct Hin as [<-|Hin].
      * apply match_here_Some in Em as [Hm [post Hpost]].
        split; [assumption|]. exists "", post. exact Hpost.
      * destruct (IH _ _ Hin). eauto using occurs_in_cons.
    + destruct (IH _ _ Hin). eauto using occurs_in_cons.
  - destruct (IH _ _ Hin). eauto using occurs_in_cons.
Qed.

Lemma findall_from_complete s : forall k w pre post,
  pattern_shape w = true -> s = pre +:+ w +:+ post ->
  k <= String.length pre -> In w (findall_from k s).
Proof.
  induction s as [|c s IH]; intros k w pre post Hw E Hk.
  - destruct pre; [|discriminate]. destruct w; cbn in *; discriminate.
  - cbn [findall_from]. destruct k as [|k].
    + destruct (match_here (String c s)) as [m|] eqn:Em.
      * apply match_here_Some in Em as [Hm [post1 E1]].
        rewrite E1 in E.
        destruct (pattern_no_overlap _ _ _ _ _ Hm Hw E) as [-> | Hlen].
        -- left. cbn in E.
           pose proof (pattern_shape_length _ Hm).
           pose proof (pattern_shape_length _ Hw).
           do 8 (destruct m as [|? m]; [discriminate|]). destruct m; [|discriminate].
           do 8 (destruct w as [|? w]; [discriminate|]). destruct w; [|discriminate].
           cbn in E. now simplify_eq.
        -- right. destruct pre as [|c' pre]; [cbn in Hlen; lia|].
           rewrite <- E1 in E. cbn in E. injection E as -> ->.
           eapply IH; [exact Hw | reflexivity | cbn in Hlen; lia].
      * destruct pre as [|c' pre].
        -- cbn in E.
           assert (match_here (String c s) = Some w) as Hc; [|congruence].
           apply match_here_Some. split; [assumption|]. now exists post.
        -- cbn in E. injection E as -> ->.
           eapply IH; [exact Hw | reflexivity | lia].
    + destruct pre as [|c' pre]; [cbn in Hk; lia|].
      cbn in E. injection E as -> ->.
      eapply IH; [exact Hw | reflexivity | cbn in Hk; lia].
Qed.

Lemma clean_prereq_spec prerequisites w :
  In w (clean_prereq prerequisites) <->
  pattern_shape w = true /\ occurs_in w prerequisites.
Proof.
  split.
  - apply findall_from_sound.
  - intros [Hw (pre & post & E)].
    eapply findall_from_complete; [exact Hw | exact E | lia].
Qed.
End pattern_facts.

(** ** Dictionaries and loops *)

Section loop_facts.
Context {A B : Type}.

(** Invariant rule for a [for] loop written as [fold_left]. *)
Lemma fold_left_invariant (P : A -> Prop) (f : A -> B -> A) (l : list B) :
  forall a, P a -> (forall a b, In b l -> P a -> P (f a b)) ->
  P (fold_left f l a).
Proof.
  induction l as [|b l IH]; intros a Ha Hf; [exact Ha|].
  cbn. apply IH; [apply Hf; [now left | exact Ha]|].
  intros a' b' Hb'. apply Hf. now right.
Qed.
End loop_facts.

Section odict_facts.
Context {V : Type}.
Implicit Types (d : list (string * V)) (k : string) (v : V).

Lemma od_get_set k k' v d :
  od_get k (od_set k' v d) = if String.eqb k k' then Some v else od_get k d.
Proof.
  induction d as [|[k0 v0] d IH]; cbn.
  - now destruct (String.eqb_spec k k').
  - destruct (String.eqb_spec k' k0) as [->|Hne]; cbn.
    + now destruct (String.eqb_spec k k0).
    + rewrite IH. destruct (String.eqb_spec k k0) as [->|]; [|reflexivity].
      destruct (String.eqb_spec k0 k'); [congruence | reflexivity].
Qed.

Lemma od_get_In k v d : od_get k d = Some v -> In (k, v) d.
Proof.
  induction d as [|[k0 v0] d IH]; cbn; [discriminate|].
  destruct (String.eqb_spec k k0) as [->|]; [intros [= ->]; now left|].
  intros H. right. auto.
Qed.

Lemma od_set_In k v d k' v' :
  In (k', v') (od_set k v d) -> (k' = k /\ v' = v) \/ In (k', v') d.
Proof.
  induction d as [|[k0 v0] d IH]; cbn.
  - intros [[= <- <-]|[]]. now left.
  - destruct (String.eqb_spec k k0) as [->|Hne]; cbn.
    + intros [[= <- <-]|Hin]; [now left | right; now right].
    + intros [H|Hin]; [right; now left|].
      destruct (IH Hin) as [?|?]; [now left | right; now right].
Qed.

Lemma od_set_keys k v d :
  map fst (od_set k v d) =
  if existsb (String.eqb k) (map fst d) then map fst d else map fst d ++ [k].
Proof.
  induction d as [|[k0 v0] d IH]; cbn; [reflexivity|].
  destruct (String.eqb_spec k k0) as [->|Hne]; cbn; [reflexivity|].
  rewrite IH. now destruct (existsb _ _).
Qed.

Lemma existsb_eqb_In k (l : list string) :
  existsb (String.eqb k) l = true <-> In k l.
Proof.
  rewrite existsb_exists. split.
  - intros (x & Hx & E). apply String.eqb_eq in E. now subst.
  - intros H. exists k. split; [assumption | apply String.eqb_refl].
Qed.

Lemma od_set_NoDup k v d :
  NoDup (map fst d) -> NoDup (map fst (od_set k v d)).
Proof.
  intros Hd. rewrite od_set_keys.
  destruct (existsb _ _) eqn:E; [assumption|].
  apply NoDup_app. repeat split; [assumption | | apply NoDup_singleton].
  intros x Hx [->|[]]%list_elem_of_In.
  apply list_elem_of_In, existsb_eqb_In in Hx. congruence.
Qed.

(** With distinct keys, an assignment leaves no other binding of its key. *)
Lemma od_set_In_NoDup k v d k' v' :
  NoDup (map fst d) -> In (k', v') (od_set k v d) ->
  (k' = k /\ v' = v) \/ (k' <> k /\ In (k', v') d).
Proof.
  induction d as [|[k0 v0] d IH]; cbn; intros Hd.
  - intros [[= <- <-]|[]]. now left.
  - apply NoDup_cons in Hd as [Hk0 Hd].
    destruct (String.eqb_spec k k0) as [->|Hne]; cbn.
    + intros [[= <- <-]|Hin]; [now left|]. right. split; [|now right].
      intros ->. apply Hk0, list_elem_of_In, (in_map fst _ _ Hin).
    + intros [[= <- <-]|Hin]; [right; split; [congruence | now left]|].
      destruct (IH Hd Hin) as [?|[? ?]]; [now left | right; split; [|right]];
        assumption.
Qed.
End odict_facts.

(** ** Graph operations *)

Section graph_facts.
Implicit Types (G : DiGraph) (u v n : string).

Lemma nodes_add_node n x G :
  In n (nodes (add_node x G)) -> n = x \/ In n (nodes G).
Proof.
  unfold add_node, nodes. destruct (has_node x G); [now right|].
  cbn. rewrite map_app, in_app_iff. cbn. intuition.
Qed.

Lemma edges_add_node x G : edges (add_node x G) = edges G.
Proof.
  unfold add_node, edges. destruct (has_node x G); [reflexivity|].
  cbn. rewrite flat_map_app. cbn. apply app_nil_r.
Qed.

Lemma add_succ_keys u v adj : map fst (add_succ u v adj) = map fst adj.
Proof.
  unfold add_succ. rewrite map_map. apply map_ext.
  intros [n vs]. now destruct (String.eqb n u).
Qed.

Lemma add_succ_edges u v adj e :
  In e (flat_map (fun '(u, vs) => map (pair u) vs) (add_succ u v adj)) ->
  e = (u, v) \/ In e (flat_map (fun '(u, vs) => map (pair u) vs) adj).
Proof.
  induction adj as [|[n vs] adj IH]; cbn; [tauto|].
  rewrite !in_app_iff. intros [H|H].
  - destruct (String.eqb_spec n u) as [->|]; cbn in H; [|tauto].
    destruct (existsb (String.eqb v) vs); [tauto|].
    rewrite map_app, in_app_iff in H. cbn in H. intuition.
  - destruct (IH H); tauto.
Qed.

Lemma nodes_add_edge u v G n :
  In n (nodes (add_edge u v G)) -> n = u \/ n = v \/ In n (nodes G).
Proof.
  unfold add_edge, nodes at 1. cbn. rewrite add_succ_keys.
  intros [->|H]%nodes_add_node; [tauto|].
  apply nodes_add_node in H. tauto.
Qed.

Lemma edges_add_edge u v G e :
  In e (edges (add_edge u v G)) -> e = (u, v) \/ In e (edges G).
Proof.
  unfold add_edge, edges at 1. cbn. intros [?|H]%add_succ_edges; [tauto|].
  right. change (In e (edges (add_node v (add_node u G)))) in H.
  now rewrite !edges_add_node in H.
Qed.
End graph_facts.

(** ** The graph builder *)

Section builder_facts.
Variable all_courses : list Course.

Lemma code_maps_spec code_dept_map code_prereq_map :
  code_maps all_courses = (code_dept_map, code_prereq_map) ->
  forall key dept, In (key, dept) code_dept_map ->
  exists course,
    In course all_courses /\ code course = key
    /\ dept_of course = dept
    /\ od_get key code_prereq_map = Some (default "" (prerequisites course)).
Proof.
  intros E.
  set (P := fun maps : list (string * string) * list (string * string) =>
    NoDup (map fst (fst maps)) /\
    forall key dept, In (key, dept) (fst maps) ->
    exists course,
      In course all_courses /\ code course = key
      /\ dept_of course = dept
      /\ od_get key (snd maps) = Some (default "" (prerequisites course))).
  assert (HP : P (code_maps all_courses)).
  { unfold code_maps. apply (fold_left_invariant P).
    - split; [constructor | intros ? ? []].
    - intros [cdm cpm] course Hin [Hnd IH]. split; cbn.
      + now apply od_set_NoDup.
      + intros k d [[-> ->]|[Hne Hk]]%od_set_In_NoDup; [| |assumption].
        * exists course. rewrite od_get_set, String.eqb_refl. auto.
        * destruct (IH _ _ Hk) as (c & ? & ? & ? & Hc). exists c.
          rewrite od_get_set.
          destruct (String.eqb_spec k (code course)); [congruence|].
          auto. }
  rewrite E in HP. exact (proj2 HP).
Qed.

Lemma group_by_dept_spec code_dept_map dept codes code :
  In (dept, codes) (group_by_dept code_dept_map) -> In code codes ->
  In (code, dept) code_dept_map.
Proof.
  revert dept codes code. unfold group_by_dept.
  apply (fold_left_invariant
           (fun m : list (string * list string) =>
              forall dept codes code,
                In (dept, codes) m -> In code codes -> In (code, dept) code_dept_map)).
  - intros ? ? ? [].
  - intros m [code0 dept0] Hin IH dept codes code [[-> ->]|Hm]%od_set_In Hc.
    + apply in_app_iff in Hc as [Hc|[<-|[]]]; [|assumption].
      destruct (od_get dept0 m) as [old|] eqn:Eold; [|destruct Hc].
      eapply IH; [apply od_get_In, Eold | exact Hc].
    + eauto.
Qed.

Lemma add_prereq_edge_invariant dept course prereq G :
  In course all_courses -> dept_of course = dept ->
  In prereq (clean_prereq (default "" (prerequisites course))) ->
  Forall (edge_origin all_courses dept) (edges G) /\ Forall (node_origin all_courses dept) (nodes G) ->
  let G' := add_prereq_edge (course_fmt (code course)) G prereq in
  Forall (edge_origin all_courses dept) (edges G') /\ Forall (node_origin all_courses dept) (nodes G').
Proof.
  intros Hc Hd Hp [He Hn]. unfold add_prereq_edge. cbn zeta.
  destruct (String.eqb_spec (course_fmt (code course)) (pre_fmt prereq)) as [|Hne];
    [now split|].
  rewrite !List.Forall_forall in *. split.
  - intros e [->|H]%edges_add_edge; [|auto].
    exists course, prereq. cbn. repeat split; auto.
  - intros n [->|[->|H]]%nodes_add_edge; [| |auto].
    + exists course. repeat split; eauto.
    + exists course. repeat split; eauto.
Qed.

Lemma graph_of_codes_invariant dept code_dept_map code_prereq_map codes :
  code_maps all_courses = (code_dept_map, code_prereq_map) ->
  (forall code, In code codes -> In (code, dept) code_dept_map) ->
  let G := graph_of_codes code_prereq_map codes in
  Forall (edge_origin all_courses dept) (edges G) /\ Forall (node_origin all_courses dept) (nodes G).
Proof.
  intros E Hcodes. unfold graph_of_codes. cbn zeta.
  apply (fold_left_invariant
           (fun G => Forall (edge_origin all_courses dept) (edges G)
                     /\ Forall (node_origin all_courses dept) (nodes G))).
  - split; constructor.
  - intros G code Hin HG. unfold add_course_edges.
    destruct (code_maps_spec _ _ E _ _ (Hcodes _ Hin))
      as (course & Hc & <- & Hd & ->).
    cbn [default]. apply fold_left_invariant; [exact HG|].
    intros G' prereq Hp HG'. now apply add_prereq_edge_invariant.
Qed.

(** Every edge and every node of every graph the builder returns is
    accounted for by a course of that department. *)
Lemma build_graph_origin dept G :
  In (dept, G) (build_graph_for_all_majors all_courses) ->
  Forall (edge_origin all_courses dept) (edges G) /\ Forall (node_origin all_courses dept) (nodes G).
Proof.
  unfold build_graph_for_all_majors.
  destruct (code_maps all_courses) as [cdm cpm] eqn:E.
  revert dept G.
  apply (fold_left_invariant
           (fun graphs : list (string * DiGraph) =>
              forall dept G, In (dept, G) graphs ->
                Forall (edge_origin all_courses dept) (edges G)
                /\ Forall (node_origin all_courses dept) (nodes G))).
  - intros ? ? [].
  - intros graphs [dept0 codes] Hin IH dept G [[-> ->]|HG]%od_set_In; [|eauto].
    eapply graph_of_codes_invariant; [exact E|].
    intros code Hc. eapply group_by_dept_spec; eassumption.
Qed.
End builder_facts.

(** C2, the claim as written fails: the graph of CISE built from the sample
    catalog has the node MAC, line feed, 2311, a prerequisite of COP3503,
    and no course record at all normalizes to it. *)
Lemma department_graph_foreign_node :
  let node := "MAC" +:+ String Py.LF "2311" in
  In ("CISE", Sample.cise_graph) (build_graph_for_all_majors Sample.catalog)
  /\ In node (nodes Sample.cise_graph)
  /\ Forall (fun course => course_fmt (code course) <> node) Sample.catalog.
Proof.
  cbv zeta. split; [vm_compute; now left|]. split; [vm_compute; tauto|].
  repeat constructor; vm_compute; discriminate.
Qed.

(** C2, amended: every node of a department's graph is the normalized code
    of a course record of that department, or the formatted code of a
    prerequisite extracted from the prerequisites text of such a record
    (whatever department that prerequisite belongs to); every edge goes from
    such a prerequisite to the course whose text names it. *)
Theorem department_graph_nodes all_courses dept G :
  In (dept, G) (build_graph_for_all_majors all_courses) ->
  (forall n, In n (nodes G) ->
     exists course,
       In course all_courses /\ dept_of course = dept
       /\ (n = course_fmt (code course)
           \/ exists prereq,
                In prereq (clean_prereq (default "" (prerequisites course)))
                /\ n = pre_fmt prereq))
  /\ (forall u v, In (u, v) (edges G) ->
        exists course prereq,
          In course all_courses /\ dept_of course = dept
          /\ In prereq (clean_prereq (default "" (prerequisites course)))
          /\ u = pre_fmt prereq /\ v = course_fmt (code course)).
Proof.
  intros [He Hn]%build_graph_origin. rewrite List.Forall_forall in He, Hn.
  split.
  - intros n Hin. exact (Hn n Hin).
  - intros u v Hin. destruct (He _ Hin) as (course & prereq & ? & ? & ? & ? & ? & _).
    exists course, prereq. auto.
Qed.

(** C2, amended, on the sample catalog and its department CISE. *)
Lemma department_graph_nodes_sample :
  In ("CISE", Sample.cise_graph) (build_graph_for_all_majors Sample.catalog)
  /\ (forall n, In n (nodes Sample.cise_graph) ->
        exists course,
          In course Sample.catalog /\ dept_of course = "CISE"
          /\ (n = course_fmt (code course)
              \/ exists prereq,
                   In prereq (clean_prereq (default "" (prerequisites course)))
                   /\ n = pre_fmt prereq)).
Proof.
  assert (H : In ("CISE", Sample.cise_graph)
                 (build_graph_for_all_majors Sample.catalog))
    by (vm_compute; now left).
  split; [exact H|].
  exact (proj1 (department_graph_nodes Sample.catalog "CISE" Sample.cise_graph H)).
Defined.

(** C6: no graph the builder returns has a self-loop; an edge from a
    prerequisite to a course is there only if their two formatted codes
    differ. *)
Theorem department_graph_no_self_loop all_courses dept G :
  In (dept, G) (build_graph_for_all_majors all_courses) ->
  (forall n, ~ In (n, n) (edges G))
  /\ (forall u v, In (u, v) (edges G) -> u <> v).
Proof.
  intros [He _]%build_graph_origin. rewrite List.Forall_forall in He.
  assert (H : forall u v, In (u, v) (edges G) -> u <> v).
  { intros u v Hin. destruct (He _ Hin) as (? & ? & ? & ? & ? & ? & ? & Hne).
    exact Hne. }
  split; [|exact H]. intros n Hin. now apply (H n n).
Qed.

(** C6 on the sample catalog and its department CISE. *)
Lemma department_graph_no_self_loop_sample :
  In ("CISE", Sample.cise_graph) (build_graph_for_all_majors Sample.catalog)
  /\ (forall n, ~ In (n, n) (edges Sample.cise_graph)).
Proof.
  assert (H : In ("CISE", Sample.cise_graph)
                 (build_graph_for_all_majors Sample.catalog))
    by (vm_compute; now left).
  split; [exact H|].
  exact (proj1 (department_graph_no_self_loop Sample.catalog "CISE" _ H)).
Defined.

(** C4, the claim as written fails: COP, tab, 3502 is extracted although it
    is not three capitals, one space, four digits, and the text, which has
    no substring of that shape, does give the graph an edge. *)
Lemma clean_prereq_takes_tab :
  clean_prereq Sample.tabbed_prereq = [Sample.tabbed_prereq]
  /\ spec_shape Sample.tabbed_prereq = false
  /\ (forall w, spec_shape w = true -> ~ occurs_in w Sample.tabbed_prereq)
  /\ build_graph_for_all_majors [Sample.tabbed]
     = [("CISE",
         {| succ := [("COP" +:+ String Py.LF (String Py.TAB "3502"),
                      ["COP" +:+ String Py.LF "3503"]);
                     ("COP" +:+ String Py.LF "3503", [])] |})].
Proof.
  split; [reflexivity|]. split; [reflexivity|]. split; [|reflexivity].
  intros w Hw (pre & post & E).
  do 8 (destruct w as [|? w]; [discriminate|]). destruct w; [|discriminate].
  cbn [spec_shape] in Hw. rewrite !andb_true_iff in Hw. destruct_and!.
  match goal with H : Ascii.eqb _ " " = true |- _ => apply Ascii.eqb_eq in H end.
  subst. unfold Sample.tabbed_prereq in E.
  destruct pre as [|? pre]; [cbn in E; discriminate|].
  destruct pre as [|? pre]; [cbn in E; discriminate|].
  cbn in E. injection E as _ _ E.
  do 7 (destruct pre as [|? pre]; [cbn in E; discriminate|];
        cbn in E; try discriminate; try injection E as _ E).
Qed.

(** C4, amended: the candidates the graph builder extracts from a
    prerequisites text are exactly its substrings made of three capitals,
    one whitespace character (a space, a tab, a line feed, ...) and four
    digits; a text with no such substring gives no candidate, and the course
    that carries it adds nothing to its department's graph. *)
Theorem clean_prereq_extracts prerequisites :
  (forall w, In w (clean_prereq prerequisites) <->
             pattern_shape w = true /\ occurs_in w prerequisites)
  /\ ((forall w, pattern_shape w = true -> ~ occurs_in w prerequisites) ->
      clean_prereq prerequisites = []
      /\ forall code_prereq_map G key,
           od_get key code_prereq_map = Some prerequisites ->
           add_course_edges code_prereq_map G key = G).
Proof.
  split; [intros w; apply clean_prereq_spec|].
  intros Hnone.
  assert (E : clean_prereq prerequisites = []).
  { destruct (clean_prereq prerequisites) as [|w l] eqn:E; [reflexivity|].
    assert (Hin : In w (clean_prereq prerequisites)) by (rewrite E; now left).
    apply clean_prereq_spec in Hin as [Hw Hocc]. destruct (Hnone w Hw Hocc). }
  split; [exact E|].
  intros cpm G key Hget. unfold add_course_edges. rewrite Hget.
  change (default "" (Some prerequisites)) with prerequisites.
  now rewrite E.
Qed.

(** ** The search handler *)

Lemma falsy_false s : Py.falsy s = false <-> s <> "".
Proof. destruct s; cbn; split; congruence. Qed.

Lemma rstrip_by_all_space s : all_space s = true -> Py.rstrip_by Py.is_space s = "".
Proof.
  induction s as [|c s IH]; [reflexivity|]. cbn [all_space].
  intros [Hc Hs]%andb_true_iff. rewrite rstrip_by_cons, (IH Hs). now rewrite Hc.
Qed.

Lemma strip_all_space s : all_space s = true -> Py.strip s = "".
Proof. intros H. unfold Py.strip. now rewrite rstrip_by_all_space. Qed.

Lemma key_le_total k1 k2 : key_le k1 k2 = false -> key_le k2 k1 = true.
Proof.
  destruct k1 as [t1 r1], k2 as [t2 r2]. unfold key_le. cbn [fst snd].
  rewrite orb_false_iff, andb_false_iff, orb_true_iff, andb_true_iff.
  rewrite !Nat.ltb_ge, !Nat.ltb_lt, !Nat.eqb_eq, !Nat.eqb_neq.
  intros [Hlt [Hne|Hq]]; [left; lia|].
  destruct (decide (t2 = t1)) as [->|]; [right; split; [reflexivity|] | left; lia].
  apply Qle_bool_iff, Qlt_le_weak, Qnot_le_lt.
  intros Hle. apply Qle_bool_iff in Hle. congruence.
Qed.

Lemma key_le_trans k1 k2 k3 :
  key_le k1 k2 = true -> key_le k2 k3 = true -> key_le k1 k3 = true.
Proof.
  destruct k1 as [t1 r1], k2 as [t2 r2], k3 as [t3 r3]. unfold key_le.
  cbn [fst snd].
  rewrite !orb_true_iff, !andb_true_iff, !Nat.ltb_lt, !Nat.eqb_eq, !Qle_bool_iff.
  intros [H12|[-> H12]] [H23|[-> H23]]; [left; lia | left; lia | left; lia |].
  right. split; [reflexivity|]. eapply Qle_trans; eassumption.
Qed.

Section order_by_facts.
Variable key : Row -> nat * Q.

Lemma insert_row_In r sorted x :
  In x (insert_row key r sorted) <-> x = r \/ In x sorted.
Proof.
  induction sorted as [|r' sorted IH]; cbn; [intuition|].
  destruct (key_le (key r) (key r')); cbn; [intuition|].
  rewrite IH. intuition.
Qed.

Lemma insert_row_sorted r sorted :
  StronglySorted (key_before key) sorted ->
  StronglySorted (key_before key) (insert_row key r sorted).
Proof.
  induction 1 as [|r' sorted Hs IH Hall]; cbn.
  - repeat constructor.
  - destruct (key_le (key r) (key r')) eqn:E.
    + constructor; [now constructor|]. constructor; [exact E|].
      eapply Forall_impl; [exact Hall|]. intros x Hx.
      eapply key_le_trans; [exact E | exact Hx].
    + constructor; [exact IH|]. apply List.Forall_forall.
      intros x [->|Hx]%insert_row_In; [now apply key_le_total|].
      rewrite List.Forall_forall in Hall. now apply Hall.
Qed.

Lemma order_by_sorted rows : StronglySorted (key_before key) (order_by key rows).
Proof.
  induction rows as [|r rows IH]; cbn; [constructor|].
  now apply insert_row_sorted.
Qed.

Lemma order_by_In rows x : In x (order_by key rows) <-> In x rows.
Proof.
  induction rows as [|r rows IH]; cbn; [tauto|].
  rewrite insert_row_In, IH. intuition.
Qed.
End order_by_facts.

Section sorted_facts.
Context {A : Type} (R : A -> A -> Prop).

Lemma StronglySorted_drop n (l : list A) :
  StronglySorted R l -> StronglySorted R (skipn n l).
Proof.
  revert l; induction n as [|n IH]; intros l Hl; [exact Hl|].
  destruct Hl; cbn; [constructor | now apply IH].
Qed.

Lemma StronglySorted_take n (l : list A) :
  StronglySorted R l -> StronglySorted R (firstn n l).
Proof.
  intros Hl. revert n.
  induction Hl as [|x l Hs IH Hall]; intros [|m]; cbn; try constructor.
  - apply IH.
  - apply List.Forall_forall. intros y Hy%list_elem_of_In%elem_of_take.
    destruct Hy as (i & Hy & _). rewrite List.Forall_forall in Hall.
    apply Hall, list_elem_of_In. eapply list_elem_of_lookup_2, Hy.
Qed.

Lemma StronglySorted_lookup (l : list A) i j a b :
  StronglySorted R l -> i < j -> l !! i = Some a -> l !! j = Some b -> R a b.
Proof.
  intros Hl. revert i j. induction Hl as [|x l Hs IH Hall]; intros i j Hij Hi Hj.
  - discriminate.
  - destruct j as [|j]; [lia|]. cbn in Hj. destruct i as [|i].
    + cbn in Hi. injection Hi as ->. rewrite List.Forall_forall in Hall.
      apply Hall, list_elem_of_In. eapply list_elem_of_lookup_2, Hj.
    + cbn in Hi. eapply IH; [|eassumption..]. lia.
Qed.

Lemma limit_offset_sorted limit offset (l : list A) :
  StronglySorted R l -> StronglySorted R (limit_offset limit offset l).
Proof.
  intros Hl. unfold limit_offset.
  destruct (limit <? 0)%Z; [|apply StronglySorted_take]; now apply StronglySorted_drop.
Qed.
End sorted_facts.

Lemma limit_offset_pages {A} (k : nat) (l : list A) :
  limit_offset (Z.of_nat k) 0 l ++ limit_offset (Z.of_nat k) (Z.of_nat k) l
  = firstn (2 * k) (limit_offset (2 * Z.of_nat k) 0 l).
Proof.
  unfold limit_offset.
  replace (2 * Z.of_nat k)%Z with (Z.of_nat (2 * k)) by lia.
  destruct (Z.ltb_spec (Z.of_nat k) 0); [lia|].
  destruct (Z.ltb_spec (Z.of_nat (2 * k)) 0); [lia|].
  rewrite !Nat2Z.id. cbn [Z.to_nat skipn].
  rewrite take_take_drop, take_take. f_equal; lia.
Qed.

Lemma limit_offset_all {A} limit (l : list A) :
  (Z.of_nat (length l) <= limit)%Z -> limit_offset limit 0 l = l.
Proof.
  intros Hl. unfold limit_offset. cbn [Z.to_nat skipn].
  destruct (Z.ltb_spec limit 0); [reflexivity|]. apply firstn_all2. lia.
Qed.

Lemma limit_offset_beyond {A} limit offset (l : list A) :
  (Z.of_nat (length l) <= offset)%Z -> limit_offset limit offset l = [].
Proof.
  intros Hl. unfold limit_offset. rewrite skipn_all2 by lia.
  now destruct (limit <? 0)%Z; [|rewrite firstn_nil].
Qed.

Lemma sqlite_int_small n : (0 <= n < 2 ^ 63)%Z -> sqlite_int n = true.
Proof.
  intros Hn. unfold sqlite_int. rewrite andb_true_iff, Z.leb_le, Z.ltb_lt. lia.
Qed.

Section search_facts.
Variable fts5_match : string -> option (Row -> bool).
Variable bm25 : list Row -> string -> Row -> Q.
Implicit Types (files : gmap string Database) (phrase y t : string).

Lemma open_or_create_index files y t :
  courses_fts (fst (open_or_create (db_name_of y t) files))
  = index_of files (y, t).
Proof.
  unfold open_or_create, index_of. cbn [fst snd].
  now destruct (files !! db_name_of y t).
Qed.

(** A file that holds an index exists, and is opened. *)
Lemma get_connection_indexed files y t table :
  index_of files (y, t) = Some table ->
  get_connection (db_name_of y t) files
  = inr (open_or_create (db_name_of y t) files).
Proof.
  unfold index_of, get_connection. cbn [fst snd].
  now destruct (files !! db_name_of y t).
Qed.

(** A request whose year or term is empty is refused before anything else
    is looked at. *)
Lemma get_courses_missing_term files y t phrase pageSize offset :
  y = "" \/ t = "" ->
  get_courses fts5_match bm25 files
    {| searchTerm := Some phrase; itemsPerPage := Some pageSize;
       startFrom := Some offset; year := Some y; term := Some t |}
  = (Error400 "Missing 'year' or 'term' in request body", files).
Proof.
  intros H. unfold get_courses. cbn.
  destruct H as [-> | ->]; [reflexivity|]. now destruct y.
Qed.

(** A blank phrase is answered with the empty list before the index is
    opened. *)
Lemma get_courses_blank files y t phrase pageSize offset :
  y <> "" -> t <> "" -> Py.strip phrase = "" ->
  get_courses fts5_match bm25 files
    {| searchTerm := Some phrase; itemsPerPage := Some pageSize;
       startFrom := Some offset; year := Some y; term := Some t |}
  = (Ok [], files).
Proof.
  intros Hy%falsy_false Ht%falsy_false Hp. unfold get_courses.
  cbn [searchTerm itemsPerPage startFrom year term default from_option id].
  now rewrite Hy, Ht, Hp.
Qed.

(** What a search with a phrase that is not blank answers. *)
Lemma search_spec files y t phrase pageSize offset :
  y <> "" -> t <> "" -> Py.strip phrase <> "" ->
  search fts5_match bm25 files (y, t) phrase pageSize offset =
  match get_connection (db_name_of y t) files with
  | inl e => Uncaught e
  | inr _ =>
      match index_of files (y, t) with
      | None => Uncaught (OperationalError "no such table: courses_fts")
      | Some table =>
          if sqlite_int pageSize && sqlite_int offset then
            match fts5_match (fts_query_of phrase) with
            | None => Uncaught (Fts5Error (fts_query_of phrase))
            | Some matches =>
                Ok (map row_json_data
                      (limit_offset pageSize offset
                         (ranked bm25 table phrase matches)))
            end
          else
            Uncaught
              (OverflowError
                 "Python int too large to convert to SQLite INTEGER")
      end
  end.
Proof.
  intros Hy%falsy_false Ht%falsy_false Hp%falsy_false.
  unfold search, get_courses.
  cbn [searchTerm itemsPerPage startFrom year term default from_option id fst snd].
  rewrite Hy, Ht, Hp. cbn [orb].
  pose proof (open_or_create_index files y t) as Hc.
  unfold get_connection.
  destruct (files !! db_name_of y t) as [db|] eqn:Ef;
    [|destruct (connect_error (db_name_of y t)) as [e|]; [reflexivity|]];
    destruct (open_or_create (db_name_of y t) files) as [conn files'];
    cbn [fst] in Hc; unfold select; rewrite Hc;
    (destruct (index_of files (y, t)) as [table|]; [|reflexivity]);
    fold (fts_query_of phrase);
    (destruct (sqlite_int pageSize && sqlite_int offset); [|reflexivity]);
    now destruct (fts5_match (fts_query_of phrase)).
Qed.

(** The same for a term that has an index. *)
Lemma search_indexed files y t table phrase pageSize offset :
  y <> "" -> t <> "" -> Py.strip phrase <> "" ->
  index_of files (y, t) = Some table ->
  search fts5_match bm25 files (y, t) phrase pageSize offset =
  if sqlite_int pageSize && sqlite_int offset then
    match fts5_match (fts_query_of phrase) with
    | None => Uncaught (Fts5Error (fts_query_of phrase))
    | Some matches =>
        Ok (map row_json_data
              (limit_offset pageSize offset (ranked bm25 table phrase matches)))
    end
  else
    Uncaught (OverflowError "Python int too large to convert to SQLite INTEGER").
Proof.
  intros Hy Ht Hp Hi. rewrite search_spec by assumption.
  now rewrite (get_connection_indexed _ _ _ _ Hi), Hi.
Qed.
End search_facts.

Lemma top_sort_exact text row : top_sort text row = 0 <-> exact_match text row.
Proof.
  unfold top_sort, exact_match.
  destruct (String.eqb_spec (row_codeWithSpace row) text);
    destruct (String.eqb_spec (row_code row) text); cbn; intuition discriminate.
Qed.


(** C1, the claim as written fails in a second way: what the search looks
    at is the database file, not what start-up built.  The file of the term
    24/fall holds an index from an earlier run; start-up loads the file of
    25/fall only, and the search of 24/fall succeeds. *)
Example search_stale_index_succeeds :
  exists files' st,
    boot [("courses/UF_Feb-21-2025_25_fall_final.json", Sample.catalog)]
      (init_db_for_file "24" "fall" Sample.catalog ∅)
    = Some (files', st)
    /\ major_graph_map st !! ("24", "fall") = None
    /\ search Sample.fts5_match Sample.bm25 files' ("24", "fall") "COP" 20 0
       = Ok [Sample.cop3502c; Sample.cop3503].
Proof.
  eexists _, _. split; [reflexivity|]. split; vm_compute; reflexivity.
Qed.



(** C1, amended, where the file cannot be created: the year a/b puts the
    database into a directory that does not exist. *)
Example search_unbuilt_term_unopenable :
  search Sample.fts5_match Sample.bm25 Sample.files ("a/b", "fall") "COP" 20 0
  = Uncaught (OperationalError "unable to open database file")
  /\ search Sample.fts5_match Sample.bm25 Sample.files
       (String Py.NUL "", "fall") "COP" 20 0
     = Uncaught (ValueError "embedded null byte").
Proof. split; vm_compute; reflexivity. Qed.

(** C9, the claim as written fails: for the term of year 25 and empty term
    name the empty phrase is answered with the 400 error, not with the empty
    list. *)
Lemma search_empty_phrase_refused :
  search Sample.fts5_match Sample.bm25 Sample.files ("25", "") "" 20 0
  = Error400 "Missing 'year' or 'term' in request body".
Proof. reflexivity. Qed.

(** C9, amended: for every term whose year and term name are both not
    empty, every page size and every offset, a search with the empty phrase
    returns the empty list, not an error, whatever the index of the term
    holds, if there is one; the files are left as they were. *)
Theorem search_empty_phrase fts5_match bm25 files y t pageSize offset :
  y <> "" -> t <> "" ->
  search fts5_match bm25 files (y, t) "" pageSize offset = Ok []
  /\ get_courses fts5_match bm25 files
       {| searchTerm := Some ""; itemsPerPage := Some pageSize;
          startFrom := Some offset; year := Some y; term := Some t |}
     = (Ok [], files).
Proof.
  intros Hy Ht.
  assert (H := get_courses_blank fts5_match bm25 files y t "" pageSize offset
                 Hy Ht eq_refl).
  split; [|exact H]. unfold search. cbn [fst snd]. now rewrite H.
Qed.

(** C9, amended, for the term 25/fall of the sample. *)
Lemma search_empty_phrase_sample :
  "25" <> "" /\ "fall" <> ""
  /\ search Sample.fts5_match Sample.bm25 Sample.files ("25", "fall") "" 20 0
     = Ok [].
Proof.
  assert (H1 : "25" <> "") by discriminate.
  assert (H2 : "fall" <> "") by discriminate.
  refine (conj H1 (conj H2 _)).
  exact (proj1 (search_empty_phrase Sample.fts5_match Sample.bm25 Sample.files
                  "25" "fall" 20 0 H1 H2)).
Defined.

(** C10, the claim as written fails: the phrase of two spaces, for the
    year/term pair with an empty year, is answered with the 400 error. *)
Lemma search_blank_phrase_refused :
  all_space "  " = true
  /\ search Sample.fts5_match Sample.bm25 Sample.files ("", "fall") "  " 20 0
     = Error400 "Missing 'year' or 'term' in request body".
Proof. split; reflexivity. Qed.

(** C10, amended: the handler strips the phrase, then refuses a request
    whose year or term is empty, then checks the phrase for emptiness, and
    only then opens the index; so for every phrase made of whitespace only
    (the empty one too) and every year/term pair whose year and term are
    both not empty, also one no index was ever built for, the search returns
    the empty list, raises nothing and leaves the files as they were. *)
Theorem search_blank_phrase fts5_match bm25 files y t phrase pageSize offset :
  y <> "" -> t <> "" -> all_space phrase = true ->
  search fts5_match bm25 files (y, t) phrase pageSize offset = Ok []
  /\ get_courses fts5_match bm25 files
       {| searchTerm := Some phrase; itemsPerPage := Some pageSize;
          startFrom := Some offset; year := Some y; term := Some t |}
     = (Ok [], files).
Proof.
  intros Hy Ht Hp%strip_all_space.
  assert (H := get_courses_blank fts5_match bm25 files y t phrase pageSize offset
                 Hy Ht Hp).
  split; [|exact H]. unfold search. cbn [fst snd]. now rewrite H.
Qed.

(** C10, amended, for a tab and a space as phrase and the term 25/spring,
    which has no index. *)
Lemma search_blank_phrase_sample :
  "25" <> "" /\ "spring" <> ""
  /\ all_space (String Py.TAB " ") = true
  /\ index_of Sample.files ("25", "spring") = None
  /\ search Sample.fts5_match Sample.bm25 Sample.files ("25", "spring")
       (String Py.TAB " ") 20 0 = Ok [].
Proof.
  assert (H1 : "25" <> "") by discriminate.
  assert (H2 : "spring" <> "") by discriminate.
  assert (H3 : all_space (String Py.TAB " ") = true) by reflexivity.
  assert (H4 : index_of Sample.files ("25", "spring") = None)
    by (vm_compute; reflexivity).
  refine (conj H1 (conj H2 (conj H3 (conj H4 _)))).
  exact (proj1 (search_blank_phrase Sample.fts5_match Sample.bm25 Sample.files
                  "25" "spring" (String Py.TAB " ") 20 0 H1 H2 H3)).
Defined.

(** C5, the claim as written fails: the phrase is COP3502 followed by a
    space; the record whose raw code is exactly that phrase comes second,
    behind a record neither of whose codes is the phrase, because the
    handler compares the codes with the stripped phrase. *)
Lemma search_exact_match_of_raw_phrase_not_first :
  index_of Sample.spaced_files ("25", "fall")
  = Some [row_of_course Sample.spaced; row_of_course Sample.plain]
  /\ search Sample.fts5_match Sample.bm25 Sample.spaced_files ("25", "fall")
       "COP3502 " 20 0 = Ok [Sample.plain; Sample.spaced]
  /\ exact_match "COP3502 " (row_of_course Sample.spaced)
  /\ ~ exact_match "COP3502 " (row_of_course Sample.plain).
Proof.
  split; [vm_compute; reflexivity|]. split; [vm_compute; reflexivity|].
  split; [now right|]. intros [H|H]; discriminate H.
Qed.

(** C5, amended: for a term with a built index and a phrase that is not
    blank, the search either fails because the full-text engine refuses the
    query (or, before that, because the page size or the offset is no
    64-bit integer), or returns the documents of rows of the index in this
    order: a row whose display code or raw code equals the phrase with its
    leading and trailing whitespace stripped (tier 0) comes before every row
    with no such match (tier 1), and within a tier the relevance score
    ascends. *)
Theorem search_ranking fts5_match bm25 files y t table phrase pageSize offset :
  y <> "" -> t <> "" -> index_of files (y, t) = Some table ->
  Py.strip phrase <> "" ->
  (fts5_match (fts_query_of phrase) = None
   /\ search fts5_match bm25 files (y, t) phrase pageSize offset
      = Uncaught (Fts5Error (fts_query_of phrase)))
  \/ (sqlite_int pageSize && sqlite_int offset = false
      /\ search fts5_match bm25 files (y, t) phrase pageSize offset
         = Uncaught
             (OverflowError "Python int too large to convert to SQLite INTEGER"))
  \/ exists rows,
       search fts5_match bm25 files (y, t) phrase pageSize offset
       = Ok (map row_json_data rows)
       /\ (forall row, In row rows -> In row table)
       /\ forall i j a b,
            i < j -> rows !! i = Some a -> rows !! j = Some b ->
            (exact_match (Py.strip phrase) b -> exact_match (Py.strip phrase) a)
            /\ ((exact_match (Py.strip phrase) a
                 <-> exact_match (Py.strip phrase) b) ->
                (bm25 table (fts_query_of phrase) a
                 <= bm25 table (fts_query_of phrase) b)%Q).
Proof.
  intros Hy Ht Hi Hp. rewrite (search_indexed _ _ _ _ _ _ _ _ _ Hy Ht Hp Hi).
  destruct (sqlite_int pageSize && sqlite_int offset); [|right; now left].
  destruct (fts5_match (fts_query_of phrase)) as [matches|];
    [right; right | now left].
  eexists. split; [reflexivity|]. split.
  - intros row Hin. unfold limit_offset in Hin.
    assert (Hr : In row (ranked bm25 table phrase matches)).
    { destruct (pageSize <? 0)%Z.
      - apply list_elem_of_In in Hin. apply list_elem_of_In.
        eapply (subseteq_drop _ _ _ Hin).
      - apply list_elem_of_In in Hin. apply list_elem_of_In.
        eapply subseteq_drop, subseteq_take, Hin. }
    unfold ranked in Hr. apply order_by_In, list_elem_of_In in Hr.
    apply list_elem_of_In. now apply list_elem_of_filter in Hr as [_ ?].
  - intros i j a b Hij Ha Hb.
    pose proof (order_by_sorted
                  (fun row => (top_sort (Py.strip phrase) row,
                               bm25 table (fts_query_of phrase) row))
                  (filter (fun row => matches row = true) table)) as Hs.
    apply (limit_offset_sorted _ pageSize offset) in Hs.
    pose proof (StronglySorted_lookup _ _ _ _ _ _ Hs Hij Ha Hb) as Hab.
    unfold key_before, key_le in Hab. cbn [fst snd] in Hab.
    rewrite orb_true_iff, andb_true_iff, Nat.ltb_lt, Nat.eqb_eq, Qle_bool_iff
      in Hab.
    rewrite <- !top_sort_exact. split.
    + intros Hb0. destruct Hab as [Hlt|[E _]]; lia.
    + intros Hiff. destruct Hab as [Hlt|[_ Hq]]; [|exact Hq].
      exfalso. unfold top_sort in *.
      destruct (_ || _) in Hlt, Hiff |- *; destruct (_ || _) in Hlt, Hiff |- *;
        lia.
Qed.

(** C5, amended, for the phrase COP and the term 25/fall of the sample. *)
Lemma search_ranking_sample :
  "25" <> "" /\ "fall" <> ""
  /\ index_of Sample.files ("25", "fall") = Some Sample.table
  /\ Py.strip "COP" <> ""
  /\ ((Sample.fts5_match (fts_query_of "COP") = None
       /\ search Sample.fts5_match Sample.bm25 Sample.files ("25", "fall") "COP" 20 0
          = Uncaught (Fts5Error (fts_query_of "COP")))
      \/ (sqlite_int 20 && sqlite_int 0 = false
          /\ search Sample.fts5_match Sample.bm25 Sample.files ("25", "fall")
               "COP" 20 0
             = Uncaught
                 (OverflowError
                    "Python int too large to convert to SQLite INTEGER"))
      \/ exists rows,
           search Sample.fts5_match Sample.bm25 Sample.files ("25", "fall") "COP" 20 0
           = Ok (map row_json_data rows)
           /\ (forall row, In row rows -> In row Sample.table)
           /\ forall i j a b,
                i < j -> rows !! i = Some a -> rows !! j = Some b ->
                (exact_match (Py.strip "COP") b -> exact_match (Py.strip "COP") a)
                /\ ((exact_match (Py.strip "COP") a
                     <-> exact_match (Py.strip "COP") b) ->
                    (Sample.bm25 Sample.table (fts_query_of "COP") a
                     <= Sample.bm25 Sample.table (fts_query_of "COP") b)%Q)).
Proof.
  assert (H1 : "25" <> "") by discriminate.
  assert (H2 : "fall" <> "") by discriminate.
  assert (H3 : index_of Sample.files ("25", "fall") = Some Sample.table)
    by (vm_compute; reflexivity).
  assert (H4 : Py.strip "COP" <> "") by (vm_compute; discriminate).
  refine (conj H1 (conj H2 (conj H3 (conj H4 _)))).
  exact (search_ranking Sample.fts5_match Sample.bm25 Sample.files
           "25" "fall" Sample.table "COP" 20 0 H1 H2 H3 H4).
Defined.

(** C8, the claim as written fails: SQLite binds 64-bit integers.  For
    the page size 2^62 the pages at offset 0 and at offset 2^62 are
    answered, and the search with the doubled page size raises
    OverflowError. *)
Lemma search_pages_overflow :
  index_of Sample.files ("25", "fall") = Some Sample.table
  /\ search Sample.fts5_match Sample.bm25 Sample.files ("25", "fall") "COP"
       4611686018427387904 0
     = Ok [Sample.cop3502c; Sample.cop3503]
  /\ search Sample.fts5_match Sample.bm25 Sample.files ("25", "fall") "COP"
       4611686018427387904 4611686018427387904
     = Ok []
  /\ search Sample.fts5_match Sample.bm25 Sample.files ("25", "fall") "COP"
       (2 * 4611686018427387904) 0
     = Uncaught
         (OverflowError "Python int too large to convert to SQLite INTEGER").
Proof.
  assert (Hi : index_of Sample.files ("25", "fall") = Some Sample.table)
    by (vm_compute; reflexivity).
  assert (Hy : "25" <> "") by discriminate.
  assert (Ht : "fall" <> "") by discriminate.
  assert (Hp : Py.strip "COP" <> "") by (vm_compute; discriminate).
  split; [exact Hi|].
  rewrite !(search_indexed _ _ _ _ _ _ _ _ _ Hy Ht Hp Hi).
  destruct (Sample.fts5_match (fts_query_of "COP")) as [matches|] eqn:Em;
    [|vm_compute in Em; discriminate].
  assert (Hr : ranked Sample.bm25 Sample.table "COP" matches
               = [row_of_course Sample.cop3502c; row_of_course Sample.cop3503]).
  { vm_compute in Em. injection Em as <-. vm_compute. reflexivity. }
  rewrite Hr.
  change (sqlite_int 4611686018427387904 && sqlite_int 0) with true.
  change (sqlite_int 4611686018427387904 && sqlite_int 4611686018427387904)
    with true.
  change (sqlite_int (2 * 4611686018427387904) && sqlite_int 0) with false.
  cbv iota.
  rewrite limit_offset_all by (cbn [length]; lia).
  rewrite limit_offset_beyond by (cbn [length]; lia).
  repeat split; reflexivity.
Qed.

(** C8, amended: for a term with a built index, a phrase and a page size k
    whose double is below 2^63, the three searches either all succeed, and
    then the page at offset 0 followed by the page at offset k is the first
    2k results of the search with page size 2k at offset 0, or all three
    fail alike: with the error of the full-text engine when it refuses the
    query of the phrase, with the 400 response when the year or the name of
    the term is empty. *)
Theorem search_pages fts5_match bm25 files y t table phrase (k : nat) :
  index_of files (y, t) = Some table ->
  (2 * Z.of_nat k < 2 ^ 63)%Z ->
  (exists page1 page2 both,
     search fts5_match bm25 files (y, t) phrase (Z.of_nat k) 0 = Ok page1
     /\ search fts5_match bm25 files (y, t) phrase (Z.of_nat k) (Z.of_nat k)
        = Ok page2
     /\ search fts5_match bm25 files (y, t) phrase (2 * Z.of_nat k) 0 = Ok both
     /\ page1 ++ page2 = firstn (2 * k) both)
  \/ exists failure,
       (failure = Uncaught (Fts5Error (fts_query_of phrase))
        /\ fts5_match (fts_query_of phrase) = None
        \/ failure = Error400 "Missing 'year' or 'term' in request body"
           /\ (y = "" \/ t = ""))
       /\ search fts5_match bm25 files (y, t) phrase (Z.of_nat k) 0 = failure
       /\ search fts5_match bm25 files (y, t) phrase (Z.of_nat k) (Z.of_nat k)
          = failure
       /\ search fts5_match bm25 files (y, t) phrase (2 * Z.of_nat k) 0
          = failure.
Proof.
  intros Hi Hk.
  destruct (decide (y = "" \/ t = "")) as [Hyt|Hyt].
  { right. eexists. split; [right; split; [reflexivity|exact Hyt]|].
    unfold search. cbn [fst snd].
    now rewrite !(get_courses_missing_term _ _ _ _ _ _ _ _ Hyt). }
  assert (Hy : y <> "") by tauto. assert (Ht : t <> "") by tauto.
  destruct (decide (Py.strip phrase = "")) as [Hp|Hp].
  - left. exists [], [], [].
    assert (H : forall pageSize offset,
               search fts5_match bm25 files (y, t) phrase pageSize offset = Ok []).
    { intros pageSize offset. unfold search. cbn [fst snd].
      now rewrite (get_courses_blank _ _ _ _ _ _ _ _ Hy Ht Hp). }
    rewrite !H. now destruct k.
  - rewrite !(search_indexed _ _ _ _ _ _ _ _ _ Hy Ht Hp Hi).
    rewrite !sqlite_int_small by lia. cbn [andb].
    destruct (fts5_match (fts_query_of phrase)) as [matches|] eqn:Em.
    + left. do 3 eexists. repeat (split; [reflexivity|]).
      rewrite <- map_app, limit_offset_pages. symmetry. apply firstn_map.
    + right. eexists. split; [left; split; reflexivity|]. repeat split.
Qed.

(** C8, amended, for the phrase COP, the term 25/fall of the sample and
    pages of one. *)
Lemma search_pages_sample :
  index_of Sample.files ("25", "fall") = Some Sample.table
  /\ (2 * Z.of_nat 1 < 2 ^ 63)%Z
  /\ exists page1 page2 both,
       search Sample.fts5_match Sample.bm25 Sample.files ("25", "fall") "COP"
         (Z.of_nat 1) 0 = Ok page1
       /\ search Sample.fts5_match Sample.bm25 Sample.files ("25", "fall") "COP"
            (Z.of_nat 1) (Z.of_nat 1) = Ok page2
       /\ search Sample.fts5_match Sample.bm25 Sample.files ("25", "fall") "COP"
            (2 * Z.of_nat 1) 0 = Ok both
       /\ page1 ++ page2 = firstn (2 * 1) both.
Proof.
  assert (H1 : index_of Sample.files ("25", "fall") = Some Sample.table)
    by (vm_compute; reflexivity).
  assert (H2 : (2 * Z.of_nat 1 < 2 ^ 63)%Z) by reflexivity.
  refine (conj H1 (conj H2 _)).
  destruct (search_pages Sample.fts5_match Sample.bm25 Sample.files
              "25" "fall" Sample.table "COP" 1 H1 H2)
    as [Hpages|(failure & [[_ Hm]|[_ [Hyt|Hyt]]] & _)];
    [exact Hpages|discriminate Hm|discriminate Hyt|discriminate Hyt].
Defined.

(** The pages of the sample search, computed. *)
Example search_pages_computed :
  search Sample.fts5_match Sample.bm25 Sample.files ("25", "fall") "COP" 1 0
  = Ok [Sample.cop3502c]
  /\ search Sample.fts5_match Sample.bm25 Sample.files ("25", "fall") "COP" 1 1
     = Ok [Sample.cop3503]
  /\ search Sample.fts5_match Sample.bm25 Sample.files ("25", "fall") "COP" 2 0
     = Ok [Sample.cop3502c; Sample.cop3503].
Proof. repeat split; vm_compute; reflexivity. Qed.

(** ** The graph endpoint *)

Section graph_endpoint_facts.
Implicit Types (st : ServerState) (h : list DiGraph) (G : DiGraph).

Lemma for_each_add_node h G graphs courses :
  for_each courses (add_node_at (length h))
    {| heap := h ++ [G]; major_graph_map := graphs |}
  = Some (tt, {| heap := h ++ [fold_left (fun g course => add_node course g) courses G];
                 major_graph_map := graphs |}).
Proof.
  revert G. induction courses as [|c courses IH]; intros G; [reflexivity|].
  cbn [for_each fold_left]. unfold mbind, M_bind, add_node_at at 1. cbn [heap].
  rewrite list_lookup_middle by reflexivity. cbn.
  rewrite insert_app_r_alt, Nat.sub_diag by lia. apply IH.
Qed.

(** The last step of a request: the working copy is read and rendered. *)
Ltac finish_request :=
  unfold mbind, M_bind, mret, M_ret, read_graph; cbn [heap];
  rewrite list_lookup_middle by reflexivity; cbn;
  split; [reflexivity|]; split; [reflexivity|];
  eexists; rewrite <- !app_assoc; reflexivity.

(** One request: it answers from the value of the stored graph, leaves
    every object that was on the heap as it was, and leaves the map as it
    was. *)
Lemma renderGraph_spec st term_key department completed :
  stored_graphs_allocated st ->
  exists G st',
    default (Some empty_graph)
            ((fun l => heap st !! l) <$> stored_location st term_key department)
    = Some G
    /\ renderGraph term_key department completed st
       = Some (rendering_of G completed, st')
    /\ major_graph_map st' = major_graph_map st
    /\ exists more, heap st' = heap st ++ more.
Proof.
  intros Hwf. destruct term_key as [y t].
  unfold renderGraph, generate_a_list, stored_location.
  cbn [selectedMajorServ selectedCoursesServ graph_year graph_term fst snd].
  unfold mbind at 1 2 3 4 5 6, M_bind, new_DiGraph at 1, get_major_graph_map.
  cbn [heap major_graph_map].
  unfold new_DiGraph. cbn [heap major_graph_map].
  destruct (major_graph_map st !! (y, t)) as [major_graphs|] eqn:Em; cbn.
  - destruct (major_graphs !! department) as [l|] eqn:El; cbn.
    + pose proof (Hwf _ _ _ _ Em El) as Hl.
      destruct (lookup_lt_is_Some_2 (heap st) l Hl) as [G HG].
      exists G. eexists. split; [exact HG|].
      unfold copy_graph. cbn [heap major_graph_map].
      rewrite !lookup_app_l by (rewrite ?length_app; cbn; lia). rewrite HG. cbn.
      rewrite for_each_add_node. finish_request.
    + exists empty_graph. eexists. split; [reflexivity|].
      unfold copy_graph. cbn [heap major_graph_map].
      rewrite list_lookup_middle by reflexivity. cbn.
      rewrite for_each_add_node. finish_request.
  - exists empty_graph. eexists. split; [reflexivity|].
    rewrite lookup_empty. cbn.
    unfold copy_graph. cbn [heap major_graph_map].
    rewrite list_lookup_middle by reflexivity. cbn.
    rewrite for_each_add_node. finish_request.
Qed.

Lemma renderGraph_keeps_allocated st term_key department completed r st' :
  stored_graphs_allocated st ->
  renderGraph term_key department completed st = Some (r, st') ->
  stored_graphs_allocated st'
  /\ major_graph_map st' = major_graph_map st
  /\ length (heap st) <= length (heap st')
  /\ forall l, l < length (heap st) -> heap st' !! l = heap st !! l.
Proof.
  intros Hwf Hrun.
  destruct (renderGraph_spec st term_key department completed Hwf)
    as (G & st0 & _ & Hrun0 & Hmap & more & Hheap).
  rewrite Hrun in Hrun0. injection Hrun0 as _ <-. repeat split.
  - intros key m dept l Hm Hl. rewrite Hmap in Hm.
    pose proof (Hwf _ _ _ _ Hm Hl). rewrite Hheap, length_app. lia.
  - exact Hmap.
  - rewrite Hheap, length_app. lia.
  - intros l Hl. rewrite Hheap. now apply lookup_app_l.
Qed.

Lemma store_graphs_allocated graphs h :
  let '(m, h') := store_graphs graphs h in
  length h <= length h'
  /\ forall dept l, (m : gmap string loc) !! dept = Some l -> l < length h'.
Proof.
  unfold store_graphs.
  apply (fold_left_invariant
           (fun acc : gmap string loc * list DiGraph =>
              let '(m, h') := acc in
              length h <= length h'
              /\ forall dept l, m !! dept = Some l -> l < length h')).
  - split; [lia|]. intros dept l. now rewrite lookup_empty.
  - intros [m h'] [dept G] _ [Hlen Hm]. split; [rewrite length_app; lia|].
    intros dept' l. rewrite length_app, lookup_insert. cbn.
    case_decide; [intros [= <-]; lia|]. intros Hl. specialize (Hm _ _ Hl). lia.
Qed.

(** The state the server starts from keeps every stored graph on the
    heap. *)
Lemma startup_allocated year_term_course_list :
  stored_graphs_allocated (startup year_term_course_list).
Proof.
  unfold startup. apply fold_left_invariant.
  - intros key m dept l. cbn. now rewrite lookup_empty.
  - intros st [key all_courses] _ Hwf.
    pose proof (store_graphs_allocated
                  (build_graph_for_all_majors all_courses) (heap st)) as Hs.
    destruct (store_graphs _ _) as [m h']. destruct Hs as [Hlen Hm].
    intros key' m' dept l. cbn [major_graph_map heap]. rewrite lookup_insert.
    case_decide; [intros [= <-]; apply Hm|].
    intros Hk Hl. specialize (Hwf _ _ _ _ Hk Hl). lia.
Qed.
End graph_endpoint_facts.

(** C7: the graph endpoint never changes a stored graph.  From a state in
    which every stored graph is on the heap, a request with the courses c1,
    then one with c2, then one with c1 again, for the same term and
    department, all succeed; the third answers as the first did; and
    afterwards the graph map is as it was and every object that was on the
    heap, the stored graph of that department among them, is as it was. *)
Theorem renderGraph_does_not_mutate st term_key department c1 c2 :
  stored_graphs_allocated st ->
  exists r1 r2 st1 st2 st3,
    renderGraph term_key department c1 st = Some (r1, st1)
    /\ renderGraph term_key department c2 st1 = Some (r2, st2)
    /\ renderGraph term_key department c1 st2 = Some (r1, st3)
    /\ major_graph_map st3 = major_graph_map st
    /\ (forall l, l < length (heap st) -> heap st3 !! l = heap st !! l)
    /\ (forall l, stored_location st term_key department = Some l ->
          is_Some (heap st !! l) /\ heap st3 !! l = heap st !! l).
Proof.
  intros Hwf.
  destruct (renderGraph_spec st term_key department c1 Hwf)
    as (G1 & st1 & HG1 & Hrun1 & _).
  destruct (renderGraph_keeps_allocated _ _ _ _ _ _ Hwf Hrun1)
    as (Hwf1 & Hmap1 & Hlen1 & Hheap1).
  destruct (renderGraph_spec st1 term_key department c2 Hwf1)
    as (G2 & st2 & _ & Hrun2 & _).
  destruct (renderGraph_keeps_allocated _ _ _ _ _ _ Hwf1 Hrun2)
    as (Hwf2 & Hmap2 & Hlen2 & Hheap2).
  destruct (renderGraph_spec st2 term_key department c1 Hwf2)
    as (G3 & st3 & HG3 & Hrun3 & _).
  destruct (renderGraph_keeps_allocated _ _ _ _ _ _ Hwf2 Hrun3)
    as (Hwf3 & Hmap3 & Hlen3 & Hheap3).
  assert (Hframe : forall l, l < length (heap st) -> heap st3 !! l = heap st !! l).
  { intros l Hl. rewrite Hheap3, Hheap2, Hheap1 by lia. reflexivity. }
  assert (Hframe2 : forall l, l < length (heap st) -> heap st2 !! l = heap st !! l).
  { intros l Hl. rewrite Hheap2, Hheap1 by lia. reflexivity. }
  assert (Hloc : stored_location st2 term_key department
                 = stored_location st term_key department).
  { unfold stored_location. now rewrite Hmap2, Hmap1. }
  assert (HG : G3 = G1).
  { rewrite Hloc in HG3.
    destruct (stored_location st term_key department) as [l|] eqn:El;
      cbn [default from_option fmap option_fmap option_map id] in HG1, HG3;
      [|congruence].
    assert (Hl : l < length (heap st)).
    { unfold stored_location in El.
      destruct (major_graph_map st !! term_key) as [m|] eqn:Em; [|discriminate].
      exact (Hwf _ _ _ _ Em El). }
    rewrite (Hframe2 l Hl) in HG3. congruence. }
  subst G3.
  exists (rendering_of G1 c1), (rendering_of G2 c2), st1, st2, st3.
  repeat (split; [assumption|]).
  split; [congruence|]. split; [exact Hframe|].
  intros l El.
  assert (Hl : l < length (heap st)).
  { unfold stored_location in El.
    destruct (major_graph_map st !! term_key) as [m|] eqn:Em; [|discriminate].
    exact (Hwf _ _ _ _ Em El). }
  split; [now apply lookup_lt_is_Some_2 | now apply Hframe].
Qed.

(** C7 from the start-up state of the sample. *)
Lemma renderGraph_does_not_mutate_sample :
  stored_graphs_allocated Sample.state
  /\ exists r1 r2 st1 st2 st3,
       renderGraph ("25", "fall") "CISE" ["MAC2311"] Sample.state = Some (r1, st1)
       /\ renderGraph ("25", "fall") "CISE" ["COP3502C"; "XYZ1000"] st1
          = Some (r2, st2)
       /\ renderGraph ("25", "fall") "CISE" ["MAC2311"] st2 = Some (r1, st3)
       /\ major_graph_map st3 = major_graph_map Sample.state
       /\ (forall l, l < length (heap Sample.state) ->
             heap st3 !! l = heap Sample.state !! l)
       /\ (forall l, stored_location Sample.state ("25", "fall") "CISE" = Some l ->
             is_Some (heap Sample.state !! l)
             /\ heap st3 !! l = heap Sample.state !! l).
Proof.
  assert (H : stored_graphs_allocated Sample.state) by apply startup_allocated.
  refine (conj H _).
  exact (renderGraph_does_not_mutate Sample.state ("25", "fall") "CISE"
           ["MAC2311"] ["COP3502C"; "XYZ1000"] H).
Defined.

(** The three requests of the sample, computed: the second marks other
    nodes and adds one, the third answers as the first. *)
Example renderGraph_sample_computed :
  let run completed st := renderGraph ("25", "fall") "CISE" completed st in
  (fst <$> run ["MAC2311"] Sample.state)
  = Some {| out_nodes :=
              [("COP" +:+ String Py.LF "3502", "not_selected");
               ("COP" +:+ String Py.LF "3503", "not_selected");
               ("MAC" +:+ String Py.LF "2311", "selected")];
            out_edges :=
              [("COP" +:+ String Py.LF "3502", "COP" +:+ String Py.LF "3503");
               ("MAC" +:+ String Py.LF "2311", "COP" +:+ String Py.LF "3503")] |}
  /\ (fst <$> (run ["MAC2311"] Sample.state ≫= fun '(_, st1) =>
               run ["COP3502C"; "XYZ1000"] st1 ≫= fun '(_, st2) =>
               run ["MAC2311"] st2))
     = (fst <$> run ["MAC2311"] Sample.state).
Proof. split; vm_compute; reflexivity. Qed.


(** * Further properties *)

(** ** File names *)

Section filename_facts.
Implicit Types (s t w : string) (c sep : ascii).

Lemma str_mem_app c s t :
  Py.str_mem c (s +:+ t) = Py.str_mem c s || Py.str_mem c t.
Proof.
  induction s as [|d s IH]; [reflexivity|].
  rewrite app_String. cbn [Py.str_mem]. rewrite IH. apply orb_assoc.
Qed.

Lemma str_mem_cons_false c d s :
  Py.str_mem c (String d s) = false <-> d <> c /\ Py.str_mem c s = false.
Proof.
  cbn [Py.str_mem]. rewrite orb_false_iff.
  destruct (Ascii.eqb_spec c d); intuition congruence.
Qed.

Lemma split_on_not_nil sep s : Py.split_on sep s <> [].
Proof.
  destruct s as [|c s]; cbn; [discriminate|].
  destruct (Ascii.eqb c sep); [discriminate|].
  destruct (Py.split_on sep s); discriminate.
Qed.

Lemma split_on_app sep s t :
  Py.split_on sep (s +:+ String sep t) = Py.split_on sep s ++ Py.split_on sep t.
Proof.
  induction s as [|c s IH].
  - change ("" +:+ String sep t) with (String sep t).
    cbn [Py.split_on]. now rewrite Ascii.eqb_refl.
  - rewrite app_String. cbn [Py.split_on]. rewrite IH.
    destruct (Ascii.eqb c sep); [reflexivity|].
    pose proof (split_on_not_nil sep s).
    destruct (Py.split_on sep s); [congruence | reflexivity].
Qed.

Lemma split_on_whole sep s : Py.str_mem sep s = false -> Py.split_on sep s = [s].
Proof.
  induction s as [|c s IH]; [reflexivity|].
  intros [Hc Hs]%str_mem_cons_false. cbn [Py.split_on].
  destruct (Ascii.eqb_spec c sep); [congruence|]. now rewrite (IH Hs).
Qed.

Lemma split_on_length sep s :
  length (Py.split_on sep s) = S (count_char sep s).
Proof.
  induction s as [|c s IH]; [reflexivity|]. cbn [Py.split_on count_char].
  destruct (Ascii.eqb c sep); cbn; [now rewrite IH|].
  pose proof (split_on_not_nil sep s).
  destruct (Py.split_on sep s); [congruence | exact IH].
Qed.

(** A field holds no separator, and no character its string does not
    hold. *)
Lemma split_on_fields sep s w :
  In w (Py.split_on sep s) ->
  Py.str_mem sep w = false
  /\ forall c, Py.str_mem c s = false -> Py.str_mem c w = false.
Proof.
  revert w. induction s as [|d s IH]; intros w.
  - intros [<-|[]]. now split.
  - cbn [Py.split_on]. destruct (Ascii.eqb_spec d sep) as [->|Hd].
    + intros [<-|Hin]; [now split|]. destruct (IH _ Hin) as [H1 H2].
      split; [exact H1|]. intros c [_ Hc]%str_mem_cons_false. auto.
    + pose proof (split_on_not_nil sep s).
      destruct (Py.split_on sep s) as [|w0 ws]; [congruence|].
      intros [<-|Hin].
      * destruct (IH w0 (or_introl eq_refl)) as [H1 H2]. split.
        -- now apply str_mem_cons_false.
        -- intros c [Hc1 Hc2]%str_mem_cons_false. apply str_mem_cons_false. auto.
      * destruct (IH w (or_intror Hin)) as [H1 H2]. split; [exact H1|].
        intros c [_ Hc]%str_mem_cons_false. auto.
Qed.

Lemma basename_of_path dir base :
  Py.str_mem "/" base = false ->
  Py.basename (dir +:+ String "/" base) = base.
Proof.
  intros Hb. unfold Py.basename.
  now rewrite split_on_app, (split_on_whole _ _ Hb), last_snoc.
Qed.

Lemma basename_no_slash p : Py.str_mem "/" (Py.basename p) = false.
Proof.
  unfold Py.basename. destruct (last (Py.split_on "/" p)) as [w|] eqn:E;
    [|reflexivity].
  apply last_Some in E as [l E].
  assert (Hin : In w (Py.split_on "/" p)).
  { rewrite E. apply in_app_iff. right. now left. }
  exact (proj1 (split_on_fields "/" p w Hin)).
Qed.

Lemma neg_index_In {A} (l : list A) n x : Py.neg_index l n = Some x -> In x l.
Proof.
  destruct n as [|k]; [discriminate|]. cbn.
  intros H%list_elem_of_lookup_2%list_elem_of_In. now apply in_rev.
Qed.

Lemma neg_index_None {A} (l : list A) n :
  Py.neg_index l n = None <-> n = 0 \/ length l < n.
Proof.
  destruct n as [|k]; cbn; [intuition|].
  rewrite lookup_ge_None, length_rev. lia.
Qed.

Lemma replace_from_keeps_absent c k old s :
  Py.str_mem c s = false -> Py.str_mem c (Py.replace_from k old "" s) = false.
Proof.
  revert k. induction s as [|d s IH]; intros k; [reflexivity|].
  intros [Hd Hs]%str_mem_cons_false. cbn [Py.replace_from].
  destruct k as [|k]; [|auto].
  destruct (String.prefix old (String d s)).
  - change ("" +:+ ?x) with x. auto.
  - apply str_mem_cons_false. auto.
Qed.
End filename_facts.

Section filename_key_facts.
Implicit Types (s t u y : string) (c : ascii).

Lemma replace_from_absent old new s :
  Py.contains old s = false -> Py.replace_from 0 old new s = s.
Proof.
  induction s as [|c s IH]; [reflexivity|].
  cbn [Py.contains Py.replace_from]. intros [Hp Hs]%orb_false_iff.
  now rewrite Hp, (IH Hs).
Qed.

Lemma field_split c y y' r r' :
  Py.str_mem c y = false -> Py.str_mem c y' = false ->
  y +:+ String c r = y' +:+ String c r' -> y = y' /\ r = r'.
Proof.
  revert y'. induction y as [|d y IH]; intros [|d' y'] Hy Hy' E.
  - change ("" +:+ ?x) with x in E. injection E as ->. now split.
  - apply str_mem_cons_false in Hy' as [Hd _].
    rewrite app_String in E. change ("" +:+ ?x) with x in E.
    injection E as E _. congruence.
  - apply str_mem_cons_false in Hy as [Hd _].
    rewrite app_String in E. change ("" +:+ ?x) with x in E.
    injection E as E _. congruence.
  - apply str_mem_cons_false in Hy as [_ Hy].
    apply str_mem_cons_false in Hy' as [_ Hy'].
    rewrite !app_String in E. injection E as -> E.
    destruct (IH _ Hy Hy' E) as [-> ->]. now split.
Qed.

Lemma str_length_app s t :
  String.length (s +:+ t) = String.length s + String.length t.
Proof.
  induction s as [|c s IH]; [reflexivity|].
  rewrite app_String. cbn [String.length]. now rewrite IH.
Qed.

Lemma str_app_inv_tail s t u : s +:+ u = t +:+ u -> s = t.
Proof.
  intros E.
  assert (Hlen : String.length s = String.length t).
  { apply (f_equal String.length) in E. rewrite !str_length_app in E. lia. }
  revert t E Hlen. induction s as [|c s IH]; intros [|d t] E Hlen;
    try discriminate; [reflexivity|].
  rewrite !app_String in E. injection E as -> E. cbn in Hlen.
  f_equal. apply IH; [exact E | lia].
Qed.

Lemma db_name_of_inj y t y' t' :
  Py.str_mem "_" y = false -> Py.str_mem "_" y' = false ->
  db_name_of y t = db_name_of y' t' -> y = y' /\ t = t'.
Proof.
  intros Hy Hy' E. unfold db_name_of in E.
  apply (inj (String.app "courses_")) in E.
  change ("_" +:+ ?x) with (String "_" x) in E.
  apply field_split in E as [-> E]; [|assumption..].
  split; [reflexivity|]. eapply str_app_inv_tail, E.
Qed.

Lemma parse_year_term_fields filename y t :
  parse_year_term_from_filename filename = Some (y, t) ->
  exists raw_term,
    In y (Py.split_on "_" (Py.basename filename))
    /\ In raw_term (Py.split_on "_" (Py.basename filename))
    /\ t = if Py.contains "final.json" raw_term
           then Py.replace "final.json" "" raw_term else raw_term.
Proof.
  unfold parse_year_term_from_filename.
  destruct (Py.neg_index _ 3) as [y0|] eqn:E3; [|discriminate].
  destruct (Py.neg_index _ 2) as [t0|] eqn:E2; [|discriminate].
  cbn. intros [= <- <-]. exists t0.
  split; [eapply neg_index_In, E3|]. split; [eapply neg_index_In, E2|reflexivity].
Qed.

Lemma parse_year_term_chars filename y t c :
  c = "_"%char \/ c = "/"%char ->
  parse_year_term_from_filename filename = Some (y, t) ->
  Py.str_mem c y = false /\ Py.str_mem c t = false.
Proof.
  intros Hc (raw & Hy & Hraw & ->)%parse_year_term_fields.
  destruct (split_on_fields _ _ _ Hy) as [Hy1 Hy2].
  destruct (split_on_fields _ _ _ Hraw) as [Hr1 Hr2].
  pose proof (basename_no_slash filename) as Hb.
  assert (Py.str_mem c y = false /\ Py.str_mem c raw = false) as [H1 H2].
  { destruct Hc as [-> | ->]; auto. }
  split; [exact H1|].
  destruct (Py.contains "final.json" raw); [|exact H2].
  now apply replace_from_keeps_absent.
Qed.
End filename_key_facts.

(** X1: a path made of a directory, a slash and a base name of the form
    prefix_year_term_last, where the base holds no slash and year, term and
    last hold no underscore, parses to the year and the term with every
    "final.json" removed from it, hence to (year, term) itself when the
    term holds no "final.json". *)
Theorem parse_year_term_of_name dir pre y t last_field :
  Py.str_mem "/" (pre +:+ "_" +:+ y +:+ "_" +:+ t +:+ "_" +:+ last_field) = false ->
  Py.str_mem "_" y = false -> Py.str_mem "_" t = false ->
  Py.str_mem "_" last_field = false ->
  parse_year_term_from_filename
    (dir +:+ "/" +:+ pre +:+ "_" +:+ y +:+ "_" +:+ t +:+ "_" +:+ last_field)
  = Some (y, Py.replace "final.json" "" t)
  /\ (Py.contains "final.json" t = false ->
      parse_year_term_from_filename
        (dir +:+ "/" +:+ pre +:+ "_" +:+ y +:+ "_" +:+ t +:+ "_" +:+ last_field)
      = Some (y, t)).
Proof.
  intros Hbase Hy Ht Hl.
  assert (E : parse_year_term_from_filename
                (dir +:+ "/" +:+ pre +:+ "_" +:+ y +:+ "_" +:+ t +:+ "_" +:+ last_field)
              = Some (y, if Py.contains "final.json" t
                         then Py.replace "final.json" "" t else t)).
  { unfold parse_year_term_from_filename.
    change (dir +:+ "/" +:+ pre +:+ "_" +:+ y +:+ "_" +:+ t +:+ "_" +:+ last_field)
      with (dir +:+ String "/"
              (pre +:+ String "_" (y +:+ String "_" (t +:+ String "_" last_field)))).
    change (pre +:+ "_" +:+ y +:+ "_" +:+ t +:+ "_" +:+ last_field)
      with (pre +:+ String "_" (y +:+ String "_" (t +:+ String "_" last_field)))
      in Hbase.
    rewrite (basename_of_path _ _ Hbase).
    rewrite !split_on_app, (split_on_whole _ _ Hy), (split_on_whole _ _ Ht),
      (split_on_whole _ _ Hl).
    unfold Py.neg_index. rewrite !rev_app_distr. reflexivity. }
  split.
  - rewrite E. destruct (Py.contains "final.json" t) eqn:Ec; [reflexivity|].
    unfold Py.replace. now rewrite replace_from_absent.
  - intros Hc. now rewrite E, Hc.
Qed.

(** X1 on the example of the docstring, read from the directory courses. *)
Lemma parse_year_term_of_name_docstring :
  Py.str_mem "/" ("UF_Feb-21-2025" +:+ "_" +:+ "25" +:+ "_" +:+ "fall" +:+ "_"
                  +:+ "final.json") = false
  /\ Py.str_mem "_" "25" = false /\ Py.str_mem "_" "fall" = false
  /\ Py.str_mem "_" "final.json" = false
  /\ parse_year_term_from_filename "courses/UF_Feb-21-2025_25_fall_final.json"
     = Some ("25", "fall").
Proof.
  refine (conj eq_refl (conj eq_refl (conj eq_refl (conj eq_refl _)))).
  exact (proj2 (parse_year_term_of_name "courses" "UF_Feb-21-2025" "25" "fall"
                  "final.json" eq_refl eq_refl eq_refl eq_refl) eq_refl).
Defined.

(** X2: parsing a file name fails (IndexError) exactly when its base name
    holds fewer than two underscores, whatever its directory is called. *)
Theorem parse_year_term_index_error filename :
  parse_year_term_from_filename filename = None
  <-> count_char "_" (Py.basename filename) < 2.
Proof.
  unfold parse_year_term_from_filename.
  pose proof (split_on_length "_" (Py.basename filename)) as Hlen.
  destruct (Py.neg_index _ 3) as [y|] eqn:E3.
  - assert (H3 : ~ (3 = 0 \/ length (Py.split_on "_" (Py.basename filename)) < 3)).
    { intros H%neg_index_None. congruence. }
    destruct (Py.neg_index _ 2) as [t|] eqn:E2.
    + cbn. split; [discriminate | lia].
    + apply neg_index_None in E2. lia.
  - apply neg_index_None in E3. cbn. split; [lia | reflexivity].
Qed.

(** X3: the year and term parsed from a file name hold neither an
    underscore nor a slash, and two file names that parse to different
    (year, term) keys get different database files. *)
Theorem parsed_keys_have_own_database f1 f2 y1 t1 y2 t2 :
  parse_year_term_from_filename f1 = Some (y1, t1) ->
  parse_year_term_from_filename f2 = Some (y2, t2) ->
  (Py.str_mem "_" y1 = false /\ Py.str_mem "_" t1 = false
   /\ Py.str_mem "/" (db_name_of y1 t1) = false)
  /\ (db_name_of y1 t1 = db_name_of y2 t2 -> (y1, t1) = (y2, t2)).
Proof.
  intros H1 H2.
  destruct (parse_year_term_chars f1 y1 t1 "_" (or_introl eq_refl) H1) as [Hy1 Ht1].
  destruct (parse_year_term_chars f1 y1 t1 "/" (or_intror eq_refl) H1) as [Hy1' Ht1'].
  destruct (parse_year_term_chars f2 y2 t2 "_" (or_introl eq_refl) H2) as [Hy2 _].
  split; [split; [exact Hy1|split; [exact Ht1|]]|].
  - unfold db_name_of. rewrite !str_mem_app, Hy1', Ht1'. reflexivity.
  - intros E. destruct (db_name_of_inj _ _ _ _ Hy1 Hy2 E) as [-> ->]. reflexivity.
Qed.

(** X3 on two file names of the same term and on their database. *)
Lemma parsed_keys_have_own_database_sample :
  parse_year_term_from_filename "courses/UF_Feb-21-2025_25_fall_final.json"
  = Some ("25", "fall")
  /\ parse_year_term_from_filename "courses/UF_Mar-01-2025_25_fall_final.json"
     = Some ("25", "fall")
  /\ (db_name_of "25" "fall" = db_name_of "25" "fall"
      -> ("25", "fall") = ("25", "fall")).
Proof.
  refine (conj eq_refl (conj eq_refl _)).
  exact (proj2 (parsed_keys_have_own_database
                  "courses/UF_Feb-21-2025_25_fall_final.json"
                  "courses/UF_Mar-01-2025_25_fall_final.json"
                  "25" "fall" "25" "fall" eq_refl eq_refl)).
Defined.

(** ** The index store *)

Section index_store_facts.
Implicit Types (files : gmap string Database) (y t : string).

Lemma init_db_index files y t all_courses :
  index_of (init_db_for_file y t all_courses files) (y, t)
  = Some (match default [] (index_of files (y, t)) with
          | [] => map row_of_course all_courses
          | table => table
          end).
Proof.
  unfold init_db_for_file, index_of, open_or_create. cbn [fst snd].
  destruct (files !! db_name_of y t) as [[[table|]]|] eqn:E;
    rewrite lookup_insert_eq; cbn; try reflexivity.
  now destruct table.
Qed.

Lemma init_db_other files y t all_courses db_name :
  db_name <> db_name_of y t ->
  init_db_for_file y t all_courses files !! db_name = files !! db_name.
Proof.
  intros Hne. unfold init_db_for_file, open_or_create.
  destruct (files !! db_name_of y t) as [db|] eqn:E;
    rewrite !lookup_insert_ne by congruence; reflexivity.
Qed.

Lemma row_json_data_of_course courses :
  map row_json_data (map row_of_course courses) = courses.
Proof. rewrite map_map. apply map_id. Qed.
End index_store_facts.



(** X5: an index that already holds rows is reused as it is: building the
    term again, from whatever course records, leaves its table unchanged;
    so after a first build from a non-empty list a second build from
    another list changes nothing. *)
Theorem init_db_reuses_index files y t row table all_courses :
  index_of files (y, t) = Some (row :: table) ->
  index_of (init_db_for_file y t all_courses files) (y, t) = Some (row :: table)
  /\ forall more_courses,
       index_of (init_db_for_file y t more_courses
                   (init_db_for_file y t all_courses files)) (y, t)
       = Some (row :: table).
Proof.
  intros Hi.
  assert (H : forall courses files',
             index_of files' (y, t) = Some (row :: table) ->
             index_of (init_db_for_file y t courses files') (y, t)
             = Some (row :: table)).
  { intros courses files' Hf. now rewrite init_db_index, Hf. }
  split; [now apply H|]. intros more. now apply H, H.
Qed.

(** X5 for the index of the sample and a second build from one record. *)
Lemma init_db_reuses_index_sample :
  index_of Sample.files ("25", "fall")
  = Some (row_of_course Sample.cop3502c
          :: [row_of_course Sample.cop3503; row_of_course Sample.mac2312])
  /\ index_of (init_db_for_file "25" "fall" [Sample.tabbed] Sample.files)
       ("25", "fall")
     = Some (row_of_course Sample.cop3502c
             :: [row_of_course Sample.cop3503; row_of_course Sample.mac2312]).
Proof.
  assert (H : index_of Sample.files ("25", "fall")
              = Some (row_of_course Sample.cop3502c
                      :: [row_of_course Sample.cop3503;
                          row_of_course Sample.mac2312]))
    by (vm_compute; reflexivity).
  refine (conj H _).
  exact (proj1 (init_db_reuses_index Sample.files "25" "fall" _ _
                  [Sample.tabbed] H)).
Defined.

(** ** More on the search handler *)

Section more_search_facts.
Variable fts5_match : string -> option (Row -> bool).
Variable bm25 : list Row -> string -> Row -> Q.
Implicit Types (files : gmap string Database) (data : SearchRequest).

Lemma files_after_connect_cases files db_name :
  files_after_connect db_name files = files
  \/ files !! db_name = None
     /\ files_after_connect db_name files = <[db_name := empty_database]> files.
Proof.
  unfold files_after_connect, get_connection, open_or_create.
  destruct (files !! db_name) eqn:E; [now left|].
  destruct (connect_error db_name); [now left | now right].
Qed.

Lemma get_connection_tables files db_name db :
  files_after_connect db_name files !! db ≫= courses_fts
  = files !! db ≫= courses_fts.
Proof.
  destruct (files_after_connect_cases files db_name) as [->|[E ->]];
    [reflexivity|].
  destruct (decide (db_name = db)) as [<-|Hne].
  - now rewrite lookup_insert_eq, E.
  - now rewrite lookup_insert_ne.
Qed.

Lemma insert_row_perm key r sorted : insert_row key r sorted ≡ₚ r :: sorted.
Proof.
  induction sorted as [|r' sorted IH]; cbn; [reflexivity|].
  destruct (key_le (key r) (key r')); [reflexivity|].
  rewrite IH. apply Permutation_swap.
Qed.

Lemma order_by_perm key rows : order_by key rows ≡ₚ rows.
Proof.
  induction rows as [|r rows IH]; cbn; [reflexivity|].
  now rewrite insert_row_perm, IH.
Qed.

Lemma limit_offset_submseteq {A} limit offset (l : list A) :
  limit_offset limit offset l ⊆+ l.
Proof.
  unfold limit_offset. destruct (limit <? 0)%Z.
  - apply submseteq_drop.
  - etrans; [apply submseteq_take | apply submseteq_drop].
Qed.

Lemma limit_offset_length {A} limit offset (l : list A) :
  (0 <= limit)%Z -> length (limit_offset limit offset l) <= Z.to_nat limit.
Proof.
  intros Hl. unfold limit_offset. destruct (Z.ltb_spec limit 0); [lia|].
  rewrite length_take. lia.
Qed.

(** What the handler can answer, case by case. *)
Lemma get_courses_cases files data :
  (exists msg, get_courses fts5_match bm25 files data = (Error400 msg, files)
               /\ (year data = None \/ year data = Some ""
                   \/ term data = None \/ term data = Some ""))
  \/ exists y t,
       year data = Some y /\ term data = Some t /\ y <> "" /\ t <> ""
       /\ ((Py.strip (default "" (searchTerm data)) = ""
            /\ get_courses fts5_match bm25 files data = (Ok [], files))
           \/ (Py.strip (default "" (searchTerm data)) <> ""
               /\ exists answer,
                    get_courses fts5_match bm25 files data
                    = (answer, files_after_connect (db_name_of y t) files)
                    /\ answer
                       = match get_connection (db_name_of y t) files with
                         | inl e => Uncaught e
                         | inr _ =>
                         match index_of files (y, t) with
                         | None =>
                             Uncaught
                               (OperationalError "no such table: courses_fts")
                         | Some table =>
                             if sqlite_int (default 20%Z (itemsPerPage data))
                                && sqlite_int (default 0%Z (startFrom data))
                             then
                             match
                               fts5_match
                                 (fts_query_of (default "" (searchTerm data)))
                             with
                             | None =>
                                 Uncaught
                                   (Fts5Error
                                      (fts_query_of
                                         (default "" (searchTerm data))))
                             | Some matches =>
                                 Ok (map row_json_data
                                       (limit_offset
                                          (default 20%Z (itemsPerPage data))
                                          (default 0%Z (startFrom data))
                                          (ranked bm25 table
                                             (default "" (searchTerm data))
                                             matches)))
                             end
                             else
                               Uncaught
                                 (OverflowError
                                    "Python int too large to convert to SQLite INTEGER")
                         end
                         end)).
Proof.
  unfold get_courses.
  destruct (year data) as [y|] eqn:Ey; [|left; eexists; split; [reflexivity|tauto]].
  destruct (term data) as [t|] eqn:Et; [|left; eexists; split; [reflexivity|tauto]].
  destruct (Py.falsy y) eqn:Hy.
  { left. eexists. split; [reflexivity|]. destruct y; [tauto | discriminate]. }
  destruct (Py.falsy t) eqn:Ht.
  { left. eexists. split; [reflexivity|]. destruct t; [tauto | discriminate]. }
  apply falsy_false in Hy, Ht. right. exists y, t. repeat (split; [assumption||reflexivity|]).
  cbn [orb].
  destruct (Py.falsy (Py.strip (default "" (searchTerm data)))) eqn:Hp.
  { left. split; [|reflexivity].
    now destruct (Py.strip (default "" (searchTerm data))). }
  apply falsy_false in Hp. right. split; [exact Hp|].
  pose proof (open_or_create_index files y t) as Hc.
  unfold files_after_connect.
  destruct (get_connection (db_name_of y t) files) as [e|[conn files']] eqn:Eg;
    [eexists; split; reflexivity|].
  assert (Ho : open_or_create (db_name_of y t) files = (conn, files')).
  { unfold get_connection in Eg.
    destruct (files !! db_name_of y t); [congruence|].
    destruct (connect_error (db_name_of y t)); congruence. }
  rewrite Ho in Hc. cbn [fst snd] in Hc |- *. unfold select. rewrite Hc.
  fold (fts_query_of (default "" (searchTerm data))).
  destruct (index_of files (y, t)) as [table|]; [|eexists; split; reflexivity].
  destruct (sqlite_int _ && sqlite_int _); [|eexists; split; reflexivity].
  destruct (fts5_match _); eexists; split; reflexivity.
Qed.
End more_search_facts.

(** X6: a request is answered with the 400 error exactly when its year or
    its term is missing or empty, whatever its phrase; such a request
    touches no file, and it is the only way to get that answer. *)
Theorem get_courses_refuses_exactly fts5_match bm25 files data :
  ((year data = None \/ year data = Some ""
    \/ term data = None \/ term data = Some "")
   <-> exists msg, fst (get_courses fts5_match bm25 files data) = Error400 msg)
  /\ ((exists msg, fst (get_courses fts5_match bm25 files data) = Error400 msg)
      -> get_courses fts5_match bm25 files data
         = (Error400 "Missing 'year' or 'term' in request body", files)).
Proof.
  assert (H1 : (year data = None \/ year data = Some ""
                \/ term data = None \/ term data = Some "") ->
               get_courses fts5_match bm25 files data
               = (Error400 "Missing 'year' or 'term' in request body", files)).
  { unfold get_courses. intros [-> | [-> | [-> | ->]]]; try reflexivity.
    - now destruct (term data).
    - now destruct (year data).
    - destruct (year data) as [y|]; [|reflexivity]. now destruct y. }
  assert (H2 : (exists msg, fst (get_courses fts5_match bm25 files data)
                            = Error400 msg) ->
               year data = None \/ year data = Some ""
               \/ term data = None \/ term data = Some "").
  { intros [msg Hmsg].
    destruct (get_courses_cases fts5_match bm25 files data)
      as [(? & _ & H)|(y & t & _ & _ & _ & _ & [[_ E]|(_ & answer & E & Ha)])];
      [exact H | rewrite E in Hmsg; discriminate |].
    rewrite E in Hmsg. cbn in Hmsg. subst answer.
    destruct (get_connection _ _); [discriminate|].
    destruct (index_of files (y, t)); [|discriminate].
    destruct (sqlite_int _ && sqlite_int _); [|discriminate].
    destruct (fts5_match _); discriminate. }
  split; [split|]; [|exact H2|auto].
  intros H. rewrite (H1 H). now eexists.
Qed.

(** X7: a search never changes the table of any database file and never
    removes or replaces a file: all it may do to the files is to create
    one that holds no table. *)
Theorem get_courses_reads_only fts5_match bm25 files data :
  (forall db_name,
     snd (get_courses fts5_match bm25 files data) !! db_name ≫= courses_fts
     = files !! db_name ≫= courses_fts)
  /\ (forall db_name db,
        files !! db_name = Some db ->
        snd (get_courses fts5_match bm25 files data) !! db_name = Some db).
Proof.
  assert (H : snd (get_courses fts5_match bm25 files data) = files
              \/ exists y t,
                   snd (get_courses fts5_match bm25 files data)
                   = files_after_connect (db_name_of y t) files).
  { destruct (get_courses_cases fts5_match bm25 files data)
      as [(? & E & _)|(y & t & _ & _ & _ & _ & [[_ E]|(_ & answer & E & _)])];
      rewrite E; [now left | now left | right; now exists y, t]. }
  destruct H as [->|(y & t & ->)]; [now split|]. split.
  - intros db. apply get_connection_tables.
  - intros db d Hd.
    destruct (files_after_connect_cases files (db_name_of y t)) as [->|[E ->]];
      [exact Hd|].
    rewrite lookup_insert_ne; [exact Hd | congruence].
Qed.



Section strip_facts.
Implicit Types (s : string) (p : ascii -> bool).

Lemma lstrip_by_drop p s : exists k, Py.lstrip_by p s = Py.str_drop k s.
Proof.
  induction s as [|c s [k IH]]; [now exists 0|]. cbn [Py.lstrip_by].
  destruct (p c); [exists (S k); exact IH | now exists 0].
Qed.

Lemma lstrip_by_idem p s :
  Py.lstrip_by p (Py.lstrip_by p s) = Py.lstrip_by p s.
Proof.
  induction s as [|c s IH]; [reflexivity|]. cbn [Py.lstrip_by].
  destruct (p c) eqn:E; [exact IH|]. cbn [Py.lstrip_by]. now rewrite E.
Qed.

Lemma strip_idem s : Py.strip (Py.strip s) = Py.strip s.
Proof.
  unfold Py.strip.
  destruct (lstrip_by_drop Py.is_space (Py.rstrip_by Py.is_space s)) as [k Hk].
  rewrite Hk at 1.
  rewrite rstrip_by_fixed_drop by apply rstrip_by_idem.
  rewrite <- Hk. apply lstrip_by_idem.
Qed.
End strip_facts.

(** What a successful search returns. *)
Lemma get_courses_results fts5_match bm25 files data results files' :
  get_courses fts5_match bm25 files data = (Ok results, files') ->
  ((0 <= default 20 (itemsPerPage data))%Z ->
   length results <= Z.to_nat (default 20%Z (itemsPerPage data)))
  /\ (results = []
      \/ exists y t table matches,
           year data = Some y /\ term data = Some t
           /\ index_of files (y, t) = Some table
           /\ fts5_match (fts_query_of (default "" (searchTerm data)))
              = Some matches
           /\ results
              ⊆+ map row_json_data (filter (fun row => matches row = true) table)).
Proof.
  intros E.
  destruct (get_courses_cases fts5_match bm25 files data)
    as [(? & E' & _)|(y & t & Ey & Et & _ & _ & [[_ E']|(_ & answer & E' & Ha)])];
    rewrite E' in E; [discriminate | |].
  - injection E as <- _. split; [cbn; lia | now left].
  - injection E as -> _.
    destruct (get_connection _ _); [discriminate|].
    destruct (index_of files (y, t)) as [table|] eqn:Ei; [|discriminate].
    destruct (sqlite_int _ && sqlite_int _); [|discriminate].
    destruct (fts5_match _) as [matches|] eqn:Em; [|discriminate].
    injection Ha as ->. split.
    + intros Hl. rewrite length_map. now apply limit_offset_length.
    + right. exists y, t, table, matches.
      split; [exact Ey|]. split; [exact Et|]. split; [exact Ei|].
      split; [reflexivity|].
      apply (fmap_submseteq row_json_data).
      etrans; [apply limit_offset_submseteq|].
      apply Permutation_submseteq, order_by_perm.
Qed.



(** X10: from an index built out of a list of course records (the term
    having had no rows before), a search returns only records of that list,
    none more often than the list holds it. *)
Theorem search_returns_ingested fts5_match bm25 files y t all_courses phrase
    pageSize offset results :
  default [] (index_of files (y, t)) = [] ->
  search fts5_match bm25 (init_db_for_file y t all_courses files) (y, t)
    phrase pageSize offset = Ok results ->
  results ⊆+ all_courses /\ forall course, In course results -> In course all_courses.
Proof.
  intros Hfresh Hs.
  assert (Hsub : results ⊆+ all_courses).
  { unfold search in Hs.
    destruct (get_courses _ _ _ _) as [answer files'] eqn:E. cbn in Hs. subst answer.
    destruct (get_courses_results _ _ _ _ _ _ E)
      as [_ [->|(y' & t' & table & matches & Ey & Et & Hi & _ & Hsub)]];
      [apply submseteq_nil_l|].
    cbn in Ey, Et. injection Ey as <-. injection Et as <-.
    rewrite init_db_index, Hfresh in Hi. injection Hi as <-.
    etrans; [exact Hsub|]. rewrite <- (row_json_data_of_course all_courses) at 2.
    apply fmap_submseteq, sublist_submseteq, sublist_filter. }
  split; [exact Hsub|]. intros course Hin%list_elem_of_In. apply list_elem_of_In.
  eapply elem_of_submseteq; eassumption.
Qed.

(** X10 for the sample catalog. *)
Lemma search_returns_ingested_sample :
  default [] (index_of ∅ ("25", "fall")) = []
  /\ search Sample.fts5_match Sample.bm25
       (init_db_for_file "25" "fall" Sample.catalog ∅) ("25", "fall") "COP" 20 0
     = Ok [Sample.cop3502c; Sample.cop3503]
  /\ [Sample.cop3502c; Sample.cop3503] ⊆+ Sample.catalog.
Proof.
  assert (H1 : default [] (index_of ∅ ("25", "fall")) = []) by reflexivity.
  assert (H2 : search Sample.fts5_match Sample.bm25
                 (init_db_for_file "25" "fall" Sample.catalog ∅) ("25", "fall")
                 "COP" 20 0 = Ok [Sample.cop3502c; Sample.cop3503])
    by (vm_compute; reflexivity).
  refine (conj H1 (conj H2 _)).
  exact (proj1 (search_returns_ingested Sample.fts5_match Sample.bm25 ∅
                  "25" "fall" Sample.catalog "COP" 20 0 _ H1 H2)).
Defined.



(** X12: leading and trailing whitespace of the phrase changes nothing: a
    request answers as the request with the stripped phrase does, and
    leaves the same files. *)
Theorem get_courses_ignores_outer_whitespace fts5_match bm25 files phrase
    page start y t :
  get_courses fts5_match bm25 files
    {| searchTerm := Some phrase; itemsPerPage := page; startFrom := start;
       year := y; term := t |}
  = get_courses fts5_match bm25 files
      {| searchTerm := Some (Py.strip phrase); itemsPerPage := page;
         startFrom := start; year := y; term := t |}.
Proof.
  unfold get_courses.
  cbn [searchTerm itemsPerPage startFrom year term default from_option id].
  now rewrite strip_idem.
Qed.

(** ** More on graphs *)

Section more_graph_facts.
Implicit Types (G : DiGraph) (u v n : string) (adj : list (string * list string)).

Lemma has_node_In n G : has_node n G = true <-> In n (nodes G).
Proof.
  unfold has_node, nodes. rewrite existsb_exists, in_map_iff. split.
  - intros ([k vs] & Hin & ->%String.eqb_eq). now exists (k, vs).
  - intros ([k vs] & <- & Hin). exists (k, vs). split; [exact Hin|].
    apply String.eqb_refl.
Qed.

Lemma nodes_add_node_iff n x G :
  In n (nodes (add_node x G)) <-> n = x \/ In n (nodes G).
Proof.
  split; [apply nodes_add_node|]. unfold add_node.
  destruct (has_node x G) eqn:E.
  - intros [->|H]; [now apply has_node_In | exact H].
  - unfold nodes. cbn. rewrite map_app, in_app_iff. cbn. intuition.
Qed.

Lemma adj_edges_fst adj a b :
  In (a, b) (flat_map (fun '(u, vs) => map (pair u) vs) adj) -> In a (map fst adj).
Proof.
  rewrite in_flat_map. intros ([k vs] & Hin & Hp).
  apply in_map_iff in Hp as (w & [= <- <-] & _).
  apply in_map_iff. now exists (k, vs).
Qed.

Lemma add_succ_edges_iff u v adj e :
  In u (map fst adj) ->
  In e (flat_map (fun '(u, vs) => map (pair u) vs) (add_succ u v adj))
  <-> e = (u, v) \/ In e (flat_map (fun '(u, vs) => map (pair u) vs) adj).
Proof.
  intros Hu. split; [apply add_succ_edges|].
  induction adj as [|[k vs] adj IH]; [destruct Hu|].
  cbn [add_succ map flat_map]. rewrite !in_app_iff.
  assert (Hhead : k = u ->
                  In (u, v) (map (pair k)
                               (if existsb (String.eqb v) vs then vs else vs ++ [v]))).
  { intros ->. apply in_map.
    destruct (existsb (String.eqb v) vs) eqn:E.
    - now apply existsb_eqb_In in E.
    - apply in_app_iff. right. now left. }
  intros [->|[H|H]].
  - destruct (String.eqb_spec k u) as [Hk|Hk].
    + left. cbn. auto.
    + right. apply IH; [|now left]. destruct Hu as [Hu|Hu]; [cbn in Hu; congruence|].
      exact Hu.
  - left. destruct (String.eqb_spec k u) as [Hk|Hk]; cbn; [|exact H].
    destruct (existsb (String.eqb v) vs); [exact H|].
    rewrite map_app, in_app_iff. now left.
  - destruct (in_dec String.string_dec u (map fst adj)) as [Hin|Hnot].
    + right. apply IH; [exact Hin | now right].
    + right. clear IH Hhead Hu.
      assert (Hsame : add_succ u v adj = adj).
      { clear H. induction adj as [|[k' vs'] adj IH']; [reflexivity|].
        cbn in Hnot |- *. destruct (String.eqb_spec k' u); [tauto|].
        f_equal. apply IH'. tauto. }
      fold (add_succ u v adj). now rewrite Hsame.
Qed.

Lemma edges_add_edge_iff u v G e :
  In e (edges (add_edge u v G)) <-> e = (u, v) \/ In e (edges G).
Proof.
  split; [apply edges_add_edge|]. intros H.
  unfold add_edge, edges at 1. cbn [succ].
  apply add_succ_edges_iff.
  - change (In u (nodes (add_node v (add_node u G)))).
    rewrite !nodes_add_node_iff. tauto.
  - destruct H as [->|H]; [now left|]. right.
    change (In e (edges (add_node v (add_node u G)))).
    now rewrite !edges_add_node.
Qed.

Lemma nodes_add_edge_iff u v G n :
  In n (nodes (add_edge u v G)) <-> n = u \/ n = v \/ In n (nodes G).
Proof.
  unfold add_edge, nodes at 1. cbn [succ]. rewrite add_succ_keys.
  change (In n (nodes (add_node v (add_node u G))) <-> n = u \/ n = v \/ In n (nodes G)).
  rewrite !nodes_add_node_iff. tauto.
Qed.

Lemma adj_ok_add_node x G : adj_ok (succ G) -> adj_ok (succ (add_node x G)).
Proof.
  intros [Hk He]. unfold add_node. destruct (has_node x G) eqn:E; [now split|].
  cbn [succ]. split.
  - rewrite map_app. apply NoDup_app. split; [exact Hk|]. split.
    + intros y Hy Hx. apply list_elem_of_In in Hy, Hx. cbn in Hx.
      destruct Hx as [<-|[]]. apply (has_node_In _ G) in Hy. congruence.
    + apply NoDup_singleton.
  - apply Forall_app. split.
    + eapply Forall_impl; [exact He|]. intros [k vs] [H1 H2]. split; [exact H1|].
      intros w Hw. rewrite map_app, in_app_iff. left. now apply H2.
    + constructor; [|constructor]. cbn. split; [constructor | intros ? []].
Qed.

Lemma adj_ok_add_succ u v adj :
  In v (map fst adj) -> adj_ok adj -> adj_ok (add_succ u v adj).
Proof.
  intros Hv [Hk He]. split; [now rewrite add_succ_keys|].
  rewrite add_succ_keys. unfold add_succ. apply Forall_fmap.
  eapply Forall_impl; [exact He|]. intros [k vs] [H1 H2]. cbn.
  destruct (String.eqb k u); cbn; [|now split].
  destruct (existsb (String.eqb v) vs) eqn:E; [now split|]. split.
  - apply NoDup_app. split; [exact H1|]. split; [|apply NoDup_singleton].
    intros y Hy Hx. apply list_elem_of_In in Hy, Hx. destruct Hx as [<-|[]].
    apply existsb_eqb_In in Hy. congruence.
  - intros w [Hw|[<-|[]]]%in_app_iff; auto.
Qed.

Lemma adj_ok_add_edge u v G : adj_ok (succ G) -> adj_ok (succ (add_edge u v G)).
Proof.
  intros H. unfold add_edge. cbn [succ]. apply adj_ok_add_succ.
  - change (In v (nodes (add_node v (add_node u G)))).
    apply nodes_add_node_iff. now left.
  - now apply adj_ok_add_node, adj_ok_add_node.
Qed.

Lemma adj_ok_edges_NoDup adj :
  adj_ok adj -> NoDup (flat_map (fun '(u, vs) => map (pair u) vs) adj).
Proof.
  intros [Hk He]. clear -Hk He.
  assert (Hvs : Forall (fun entry => NoDup (snd entry)) adj).
  { eapply Forall_impl; [exact He|]. now intros ? [? _]. }
  clear He. induction adj as [|[k vs] adj IH]; [constructor|].
  cbn in Hk |- *. apply NoDup_cons in Hk as [Hk1 Hk2].
  apply Forall_cons in Hvs as [Hv1 Hv2]. apply NoDup_app. split; [|split].
  - apply NoDup_fmap_2; [intros ? ? [= ->]; reflexivity | exact Hv1].
  - intros [a b] Ha%list_elem_of_In Hb%list_elem_of_In.
    apply in_map_iff in Ha as (w & [= <- <-] & _).
    apply adj_edges_fst in Hb. apply Hk1, list_elem_of_In, Hb.
  - now apply IH.
Qed.

Lemma adj_ok_graph_ok G : adj_ok (succ G) -> graph_ok G.
Proof.
  intros H. split; [exact (proj1 H)|]. split; [now apply adj_ok_edges_NoDup|].
  intros u v Hin. split; [eapply adj_edges_fst, Hin|].
  destruct H as [_ He]. unfold edges in Hin.
  apply in_flat_map in Hin as ([k vs] & Hentry & Hp).
  apply in_map_iff in Hp as (w & [= <- <-] & Hw).
  rewrite List.Forall_forall in He. exact (proj2 (He _ Hentry) _ Hw).
Qed.
End more_graph_facts.

(** ** More on the graph builder *)

Section more_loop_facts.
Context {A B : Type}.

(** A loop establishes what its step for [x] establishes, if no step
    destroys it. *)
Lemma fold_left_establish (Q : A -> Prop) (f : A -> B -> A) (l : list B) x :
  In x l -> (forall a, Q (f a x)) ->
  (forall a b, In b l -> Q a -> Q (f a b)) ->
  forall a, Q (fold_left f l a).
Proof.
  induction l as [|b l IH]; intros Hin Hx Hkeep a; [destruct Hin|].
  cbn [fold_left]. destruct Hin as [->|Hin].
  - apply fold_left_invariant; [apply Hx|].
    intros a' b' Hb'. apply Hkeep. now right.
  - apply IH; [exact Hin | exact Hx |]. intros a' b' Hb'. apply Hkeep. now right.
Qed.

Lemma NoDup_map_In_inj (f : B -> A) (l : list B) x y :
  NoDup (map f l) -> In x l -> In y l -> f x = f y -> x = y.
Proof.
  induction l as [|b l IH]; [intros _ []|]. cbn [map].
  intros [Hb Hl]%NoDup_cons [->|Hx] [->|Hy] E; [reflexivity | | |auto].
  - exfalso. apply Hb, list_elem_of_In. rewrite E. now apply in_map.
  - exfalso. apply Hb, list_elem_of_In. rewrite <- E. now apply in_map.
Qed.
End more_loop_facts.

Section more_odict_facts.
Context {V : Type}.
Implicit Types (d : list (string * V)) (k : string) (v : V).

Lemma od_set_In_same k v d : In (k, v) (od_set k v d).
Proof.
  induction d as [|[k0 v0] d IH]; cbn; [now left|].
  destruct (String.eqb_spec k k0) as [->|]; [now left | now right].
Qed.

Lemma od_set_In_other k v d k' v' :
  k' <> k -> In (k', v') d -> In (k', v') (od_set k v d).
Proof.
  intros Hne. induction d as [|[k0 v0] d IH]; cbn; [tauto|].
  destruct (String.eqb_spec k k0) as [->|].
  - intros [[= -> ->]|H]; [congruence | now right].
  - intros [H|H]; [now left | right; auto].
Qed.

Lemma od_In_get k v d : NoDup (map fst d) -> In (k, v) d -> od_get k d = Some v.
Proof.
  induction d as [|[k0 v0] d IH]; [intros _ []|]. cbn.
  intros [Hk Hd]%NoDup_cons [[= -> ->]|Hin].
  - now rewrite String.eqb_refl.
  - destruct (String.eqb_spec k k0) as [->|]; [|auto].
    exfalso. apply Hk, list_elem_of_In. apply in_map_iff. now exists (k0, v).
Qed.
End more_odict_facts.

Section more_builder_facts.
Variable all_courses : list Course.
Hypothesis codes_differ : NoDup (map code all_courses).

Lemma code_maps_complete course :
  In course all_courses ->
  In (code course, dept_of course) (fst (code_maps all_courses))
  /\ od_get (code course) (snd (code_maps all_courses))
     = Some (default "" (prerequisites course)).
Proof.
  intros Hin. unfold code_maps.
  apply (fold_left_establish
           (fun maps : list (string * string) * list (string * string) =>
              In (code course, dept_of course) (fst maps)
              /\ od_get (code course) (snd maps)
                 = Some (default "" (prerequisites course)))
           _ all_courses course Hin).
  - intros [cdm cpm]. cbn. split; [apply od_set_In_same|].
    now rewrite od_get_set, String.eqb_refl.
  - intros [cdm cpm] b Hb [H1 H2]. cbn.
    destruct (String.eqb_spec (code course) (code b)) as [E|Hne].
    + assert (course = b) as <-
        by (eapply NoDup_map_In_inj; [exact codes_differ|..]; assumption).
      split; [apply od_set_In_same|]. now rewrite od_get_set, String.eqb_refl.
    + split; [now apply od_set_In_other|]. rewrite od_get_set.
      destruct (String.eqb_spec (code course) (code b)); [congruence | exact H2].
Qed.
End more_builder_facts.

Section more_builder_facts2.
Implicit Types (G : DiGraph).

Lemma group_by_dept_keys code_dept_map :
  NoDup (map fst (group_by_dept code_dept_map)).
Proof.
  unfold group_by_dept. apply fold_left_invariant; [constructor|].
  intros m [key dept] _ Hm. now apply od_set_NoDup.
Qed.

Lemma group_by_dept_complete code_dept_map key dept :
  In (key, dept) code_dept_map ->
  exists codes,
    od_get dept (group_by_dept code_dept_map) = Some codes /\ In key codes.
Proof.
  intros Hin. unfold group_by_dept.
  apply (fold_left_establish
           (fun m : list (string * list string) =>
              exists codes, od_get dept m = Some codes /\ In key codes)
           _ code_dept_map (key, dept) Hin).
  - intros m. eexists. rewrite od_get_set, String.eqb_refl. split; [reflexivity|].
    apply in_app_iff. right. now left.
  - intros m [key' dept'] _ (codes & Hget & Hkey). rewrite od_get_set.
    destruct (String.eqb_spec dept dept') as [<-|]; [|now exists codes].
    eexists. split; [reflexivity|]. rewrite Hget. cbn. apply in_app_iff. now left.
Qed.

Lemma add_prereq_edge_keeps course_fmt G prereq e :
  In e (edges G) -> In e (edges (add_prereq_edge course_fmt G prereq)).
Proof.
  intros H. unfold add_prereq_edge. destruct (String.eqb _ _); [exact H|].
  apply edges_add_edge_iff. now right.
Qed.

Lemma add_course_edges_keeps code_prereq_map G key e :
  In e (edges G) -> In e (edges (add_course_edges code_prereq_map G key)).
Proof.
  intros H. unfold add_course_edges. apply fold_left_invariant; [exact H|].
  intros G' prereq _. apply add_prereq_edge_keeps.
Qed.

Lemma graph_of_codes_complete code_prereq_map codes key text prereq :
  In key codes -> od_get key code_prereq_map = Some text ->
  In prereq (clean_prereq text) -> pre_fmt prereq <> course_fmt key ->
  In (pre_fmt prereq, course_fmt key) (edges (graph_of_codes code_prereq_map codes)).
Proof.
  intros Hkey Htext Hp Hne. unfold graph_of_codes.
  apply (fold_left_establish
           (fun G => In (pre_fmt prereq, course_fmt key) (edges G))
           _ codes key Hkey).
  - intros G. unfold add_course_edges. rewrite Htext.
    change (default "" (Some text)) with text.
    apply (fold_left_establish
             (fun G => In (pre_fmt prereq, course_fmt key) (edges G))
             _ (clean_prereq text) prereq Hp).
    + intros G'. unfold add_prereq_edge.
      destruct (String.eqb_spec (course_fmt key) (pre_fmt prereq)); [congruence|].
      apply edges_add_edge_iff. now left.
    + intros G' p _. apply add_prereq_edge_keeps.
  - intros G k _. apply add_course_edges_keeps.
Qed.

Lemma graph_of_codes_adj_ok code_prereq_map codes :
  adj_ok (succ (graph_of_codes code_prereq_map codes)).
Proof.
  unfold graph_of_codes. apply fold_left_invariant.
  - split; constructor.
  - intros G key _ HG. unfold add_course_edges.
    apply fold_left_invariant; [exact HG|].
    intros G' prereq _ HG'. unfold add_prereq_edge.
    destruct (String.eqb _ _); [exact HG' | now apply adj_ok_add_edge].
Qed.

(** The graphs the builder returns are those of the groups of codes, one
    per department, under distinct keys. *)
Lemma build_graph_groups all_courses :
  NoDup (map fst (build_graph_for_all_majors all_courses))
  /\ (forall dept G,
        In (dept, G) (build_graph_for_all_majors all_courses) ->
        exists codes,
          G = graph_of_codes (snd (code_maps all_courses)) codes)
  /\ (forall dept codes,
        od_get dept (group_by_dept (fst (code_maps all_courses))) = Some codes ->
        od_get dept (build_graph_for_all_majors all_courses)
        = Some (graph_of_codes (snd (code_maps all_courses)) codes)).
Proof.
  unfold build_graph_for_all_majors.
  destruct (code_maps all_courses) as [cdm cpm]. cbn [fst snd].
  split; [|split].
  - apply fold_left_invariant; [constructor|].
    intros g [dept codes] _ Hg. now apply od_set_NoDup.
  - apply (fold_left_invariant
             (fun g : list (string * DiGraph) =>
                forall dept G, In (dept, G) g ->
                  exists codes, G = graph_of_codes cpm codes)).
    + intros ? ? [].
    + intros g [dept0 codes] _ IH dept G [[-> ->]|H]%od_set_In; [|eauto].
      now exists codes.
  - intros dept codes Hget.
    pose proof (group_by_dept_keys cdm) as Hnd.
    apply (fold_left_establish
             (fun g : list (string * DiGraph) =>
                od_get dept g = Some (graph_of_codes cpm codes))
             _ (group_by_dept cdm) (dept, codes) (od_get_In _ _ _ Hget)).
    + intros g. now rewrite od_get_set, String.eqb_refl.
    + intros g [dept' codes'] Hin Hg. rewrite od_get_set.
      destruct (String.eqb_spec dept dept') as [<-|]; [|exact Hg].
      rewrite (od_In_get _ _ _ Hnd Hin) in Hget. now injection Hget as ->.
Qed.

Lemma group_by_dept_not_empty code_dept_map dept codes :
  In (dept, codes) (group_by_dept code_dept_map) -> codes <> [].
Proof.
  revert dept codes. unfold group_by_dept.
  apply (fold_left_invariant
           (fun m : list (string * list string) =>
              forall dept codes, In (dept, codes) m -> codes <> [])).
  - intros ? ? [].
  - intros m [key dept0] _ IH dept codes [[-> ->]|H]%od_set_In; [|eauto].
    now destruct (default [] (od_get dept0 m)).
Qed.

Lemma build_graph_keys all_courses dept G :
  In (dept, G) (build_graph_for_all_majors all_courses) ->
  exists codes,
    In (dept, codes) (group_by_dept (fst (code_maps all_courses))).
Proof.
  unfold build_graph_for_all_majors.
  destruct (code_maps all_courses) as [cdm cpm]. cbn [fst snd]. revert dept G.
  apply (fold_left_invariant
           (fun g : list (string * DiGraph) =>
              forall dept G, In (dept, G) g ->
                exists codes, In (dept, codes) (group_by_dept cdm))).
  - intros ? ? [].
  - intros g [dept0 codes] Hin IH dept G [[-> ->]|H]%od_set_In; [|eauto].
    now exists codes.
Qed.
End more_builder_facts2.

(** X13: the builder gives every department one graph only, and each of
    its graphs has no node twice, no edge twice, and both ends of every
    edge among its nodes. *)
Theorem department_graphs_well_formed all_courses :
  NoDup (map fst (build_graph_for_all_majors all_courses))
  /\ Forall (fun entry => graph_ok (snd entry))
            (build_graph_for_all_majors all_courses).
Proof.
  destruct (build_graph_groups all_courses) as (Hkeys & Hgraphs & _).
  split; [exact Hkeys|]. apply List.Forall_forall. intros [dept G] Hin.
  destruct (Hgraphs _ _ Hin) as [codes ->]. cbn [snd].
  apply adj_ok_graph_ok, graph_of_codes_adj_ok.
Qed.

(** X14: when no two course records share a code, every prerequisite code
    found in the text of a course, unless it formats to the code of the
    course itself, is an edge to that course in the graph of the course's
    department. *)
Theorem department_graph_has_edge all_courses course prereq :
  NoDup (map code all_courses) ->
  In course all_courses ->
  In prereq (clean_prereq (default "" (prerequisites course))) ->
  pre_fmt prereq <> course_fmt (code course) ->
  exists G,
    od_get (dept_of course) (build_graph_for_all_majors all_courses) = Some G
    /\ In (pre_fmt prereq, course_fmt (code course)) (edges G).
Proof.
  intros Hnd Hin Hp Hne.
  destruct (code_maps_complete all_courses Hnd course Hin) as [Hdept Htext].
  destruct (group_by_dept_complete _ _ _ Hdept) as (codes & Hcodes & Hkey).
  destruct (build_graph_groups all_courses) as (_ & _ & Hget).
  eexists. split; [apply Hget, Hcodes|].
  eapply graph_of_codes_complete; eassumption.
Qed.

(** X14 on the sample catalog: MAC 2311 in the text of COP3503. *)
Lemma department_graph_has_edge_sample :
  NoDup (map code Sample.catalog)
  /\ In Sample.cop3503 Sample.catalog
  /\ In "MAC 2311" (clean_prereq (default "" (prerequisites Sample.cop3503)))
  /\ pre_fmt "MAC 2311" <> course_fmt (code Sample.cop3503)
  /\ exists G,
       od_get (dept_of Sample.cop3503) (build_graph_for_all_majors Sample.catalog)
       = Some G
       /\ In (pre_fmt "MAC 2311", course_fmt (code Sample.cop3503)) (edges G).
Proof.
  assert (H1 : NoDup (map code Sample.catalog)).
  { repeat constructor; rewrite ?list_elem_of_In; cbn; intuition discriminate. }
  assert (H2 : In Sample.cop3503 Sample.catalog) by (right; now left).
  assert (H3 : In "MAC 2311"
                  (clean_prereq (default "" (prerequisites Sample.cop3503))))
    by (vm_compute; tauto).
  assert (H4 : pre_fmt "MAC 2311" <> course_fmt (code Sample.cop3503))
    by (vm_compute; discriminate).
  refine (conj H1 (conj H2 (conj H3 (conj H4 _)))).
  exact (department_graph_has_edge Sample.catalog Sample.cop3503 "MAC 2311"
           H1 H2 H3 H4).
Defined.

(** X15: when no two course records share a code, the department of every
    course record (the empty name for a record without sections) has a
    graph, also when the course has no prerequisite; and whatever the
    codes, every graph the builder returns is that of the department of
    some course record. *)
Theorem department_graphs_cover all_courses :
  (NoDup (map code all_courses) ->
   forall course, In course all_courses ->
     is_Some (od_get (dept_of course) (build_graph_for_all_majors all_courses)))
  /\ Forall (fun entry =>
               exists course, In course all_courses /\ dept_of course = fst entry)
            (build_graph_for_all_majors all_courses).
Proof.
  split.
  - intros Hnd course Hin.
    destruct (code_maps_complete all_courses Hnd course Hin) as [Hdept _].
    destruct (group_by_dept_complete _ _ _ Hdept) as (codes & Hcodes & _).
    destruct (build_graph_groups all_courses) as (_ & _ & Hget).
    rewrite (Hget _ _ Hcodes). now eexists.
  - apply List.Forall_forall. intros [dept G] Hin. cbn [fst].
    destruct (build_graph_keys _ _ _ Hin) as [codes Hcodes].
    pose proof (group_by_dept_not_empty _ _ _ Hcodes) as Hne.
    destruct codes as [|key codes]; [congruence|].
    pose proof (group_by_dept_spec _ _ _ key Hcodes (or_introl eq_refl)) as Hk.
    destruct (code_maps all_courses) as [cdm cpm] eqn:E. cbn [fst] in Hk.
    destruct (code_maps_spec _ _ _ E _ _ Hk) as (course & Hc & _ & Hd & _).
    now exists course.
Qed.

(** ** More on the graph endpoint *)

Section more_endpoint_facts.
Implicit Types (st : ServerState) (G : DiGraph).

Ltac finish_run :=
  unfold mbind, M_bind, mret, M_ret, read_graph; cbn [heap];
  rewrite list_lookup_middle by reflexivity; cbn;
  rewrite <- !app_assoc; reflexivity.

(** One request, in full: its answer and the state it leaves. *)
Lemma renderGraph_run st term_key department completed :
  stored_graphs_allocated st ->
  exists G,
    base_graph_of st term_key department = Some G
    /\ renderGraph term_key department completed st
       = Some (rendering_of G completed,
               {| heap := heap st ++ [empty_graph; empty_graph;
                                      with_taken G completed];
                  major_graph_map := major_graph_map st |}).
Proof.
  intros Hwf. destruct term_key as [y t].
  unfold renderGraph, generate_a_list, base_graph_of, stored_location, with_taken.
  cbn [selectedMajorServ selectedCoursesServ graph_year graph_term fst snd].
  unfold mbind at 1 2 3 4 5 6, M_bind, new_DiGraph at 1, get_major_graph_map.
  cbn [heap major_graph_map].
  unfold new_DiGraph. cbn [heap major_graph_map].
  destruct (major_graph_map st !! (y, t)) as [major_graphs|] eqn:Em; cbn.
  - destruct (major_graphs !! department) as [l|] eqn:El; cbn.
    + pose proof (Hwf _ _ _ _ Em El) as Hl.
      destruct (lookup_lt_is_Some_2 (heap st) l Hl) as [G HG].
      exists G. split; [exact HG|].
      unfold copy_graph. cbn [heap major_graph_map].
      rewrite !lookup_app_l by (rewrite ?length_app; cbn; lia). rewrite HG. cbn.
      rewrite for_each_add_node. finish_run.
    + exists empty_graph. split; [reflexivity|].
      unfold copy_graph. cbn [heap major_graph_map].
      rewrite list_lookup_middle by reflexivity. cbn.
      rewrite for_each_add_node. finish_run.
  - exists empty_graph. split; [reflexivity|].
    rewrite lookup_empty. cbn.
    unfold copy_graph. cbn [heap major_graph_map].
    rewrite list_lookup_middle by reflexivity. cbn.
    rewrite for_each_add_node. finish_run.
Qed.

Lemma with_taken_nodes G completed n :
  In n (nodes (with_taken G completed))
  <-> In n (nodes G) \/ In n (map course_fmt completed).
Proof.
  unfold with_taken. revert G.
  induction (map course_fmt completed) as [|c fmt IH]; intros G; cbn; [tauto|].
  rewrite IH, nodes_add_node_iff. intuition.
Qed.

Lemma add_node_prefix x G : exists more, nodes (add_node x G) = nodes G ++ more.
Proof.
  unfold add_node. destruct (has_node x G).
  - exists []. now rewrite app_nil_r.
  - exists [x]. unfold nodes. cbn. now rewrite map_app.
Qed.

Lemma with_taken_prefix G completed :
  exists more, nodes (with_taken G completed) = nodes G ++ more.
Proof.
  unfold with_taken. revert G.
  induction (map course_fmt completed) as [|c fmt IH]; intros G; cbn.
  - exists []. now rewrite app_nil_r.
  - destruct (IH (add_node c G)) as [more1 E1].
    destruct (add_node_prefix c G) as [more2 E2].
    exists (more2 ++ more1). now rewrite E1, E2, app_assoc.
Qed.

Lemma with_taken_edges G completed : edges (with_taken G completed) = edges G.
Proof.
  unfold with_taken. revert G.
  induction (map course_fmt completed) as [|c fmt IH]; intros G; cbn; [reflexivity|].
  now rewrite IH, edges_add_node.
Qed.

Lemma with_taken_adj_ok G completed :
  adj_ok (succ G) -> adj_ok (succ (with_taken G completed)).
Proof.
  unfold with_taken. revert G.
  induction (map course_fmt completed) as [|c fmt IH]; intros G HG; cbn; [exact HG|].
  now apply IH, adj_ok_add_node.
Qed.

Lemma rendering_of_ids G completed :
  map fst (out_nodes (rendering_of G completed)) = nodes (with_taken G completed).
Proof.
  unfold rendering_of. cbn [out_nodes]. rewrite map_map. cbn. apply map_id.
Qed.

Lemma rendering_of_class G completed n cls :
  In (n, cls) (out_nodes (rendering_of G completed)) <->
  In n (nodes (with_taken G completed))
  /\ cls = if existsb (String.eqb n) (map course_fmt completed)
           then "selected" else "not_selected".
Proof.
  unfold rendering_of. cbn [out_nodes]. rewrite in_map_iff. split.
  - intros (m & [= <- <-] & Hm). now split.
  - intros [Hn ->]. now exists n.
Qed.
End more_endpoint_facts.

(** X16: a request succeeds and answers from the graph it starts from (the
    stored one, or an empty one): the edges are those of that graph; the
    nodes are its nodes, in their order, followed by the formatted courses
    taken that are not among them; every formatted course taken is a node of
    class selected, and every other node is of class not_selected. *)
Theorem renderGraph_answer st term_key department completed :
  stored_graphs_allocated st ->
  exists G r st',
    base_graph_of st term_key department = Some G
    /\ renderGraph term_key department completed st = Some (r, st')
    /\ out_edges r = edges G
    /\ (exists more, map fst (out_nodes r) = nodes G ++ more)
    /\ (forall n, In n (map fst (out_nodes r))
                  <-> In n (nodes G) \/ In n (map course_fmt completed))
    /\ (forall n, In n (map course_fmt completed) ->
                  In (n, "selected") (out_nodes r))
    /\ (forall n, In n (nodes G) -> ~ In n (map course_fmt completed) ->
                  In (n, "not_selected") (out_nodes r)).
Proof.
  intros Hwf.
  destruct (renderGraph_run st term_key department completed Hwf)
    as (G & HG & Hrun).
  exists G. do 2 eexists. split; [exact HG|]. split; [exact Hrun|].
  split; [apply with_taken_edges|]. split; [|split; [|split]].
  - rewrite rendering_of_ids. apply with_taken_prefix.
  - intros n. rewrite rendering_of_ids. apply with_taken_nodes.
  - intros n Hn. apply rendering_of_class. split.
    + apply with_taken_nodes. now right.
    + apply existsb_eqb_In in Hn. now rewrite Hn.
  - intros n Hn Hnot. apply rendering_of_class. split.
    + apply with_taken_nodes. now left.
    + destruct (existsb (String.eqb n) (map course_fmt completed)) eqn:E;
        [|reflexivity].
      apply existsb_eqb_In in E. contradiction.
Qed.

(** X16 from the start-up state of the sample. *)
Lemma renderGraph_answer_sample :
  stored_graphs_allocated Sample.state
  /\ exists G r st',
       base_graph_of Sample.state ("25", "fall") "CISE" = Some G
       /\ renderGraph ("25", "fall") "CISE" ["XYZ1000"] Sample.state = Some (r, st')
       /\ out_edges r = edges G.
Proof.
  assert (H : stored_graphs_allocated Sample.state) by apply startup_allocated.
  refine (conj H _).
  destruct (renderGraph_answer Sample.state ("25", "fall") "CISE" ["XYZ1000"] H)
    as (G & r & st' & H1 & H2 & H3 & _).
  exact (ex_intro _ G (ex_intro _ r (ex_intro _ st' (conj H1 (conj H2 H3))))).
Defined.

(** X17: for a term or a department without a stored graph the request
    does not fail: it answers with no edge and with the formatted courses
    taken as its only nodes, each once and of class selected; with no
    course taken the answer is empty. *)
Theorem renderGraph_unknown_department st term_key department completed :
  stored_graphs_allocated st ->
  stored_location st term_key department = None ->
  exists r st',
    renderGraph term_key department completed st = Some (r, st')
    /\ out_edges r = []
    /\ NoDup (map fst (out_nodes r))
    /\ (forall n cls, In (n, cls) (out_nodes r)
                      <-> In n (map course_fmt completed) /\ cls = "selected")
    /\ (completed = [] -> r = {| out_nodes := []; out_edges := [] |}).
Proof.
  intros Hwf Hnone.
  destruct (renderGraph_run st term_key department completed Hwf)
    as (G & HG & Hrun).
  unfold base_graph_of in HG. rewrite Hnone in HG. injection HG as <-.
  do 2 eexists. split; [exact Hrun|].
  split; [apply with_taken_edges|]. split; [|split].
  - rewrite rendering_of_ids.
    apply (adj_ok_graph_ok (with_taken empty_graph completed)),
      with_taken_adj_ok. split; constructor.
  - intros n cls. rewrite rendering_of_class, with_taken_nodes. cbn [nodes succ map].
    split.
    + intros [[[]|Hn] ->]. split; [exact Hn|].
      apply existsb_eqb_In in Hn. now rewrite Hn.
    + intros [Hn ->]. split; [now right|].
      apply existsb_eqb_In in Hn. now rewrite Hn.
  - now intros ->.
Qed.

(** X17 for a department the sample does not have. *)
Lemma renderGraph_unknown_department_sample :
  stored_graphs_allocated Sample.state
  /\ stored_location Sample.state ("25", "fall") "PHY" = None
  /\ exists r st',
       renderGraph ("25", "fall") "PHY" ["PHY2048"; "PHY2048L"] Sample.state
       = Some (r, st')
       /\ out_edges r = [].
Proof.
  assert (H1 : stored_graphs_allocated Sample.state) by apply startup_allocated.
  assert (H2 : stored_location Sample.state ("25", "fall") "PHY" = None)
    by (vm_compute; reflexivity).
  refine (conj H1 (conj H2 _)).
  destruct (renderGraph_unknown_department Sample.state ("25", "fall") "PHY"
              ["PHY2048"; "PHY2048L"] H1 H2) as (r & st' & Hr & He & _).
  exact (ex_intro _ r (ex_intro _ st' (conj Hr He))).
Defined.

(** ** Start-up *)

Section startup_facts.
Implicit Types (st : ServerState) (h : list DiGraph) (m : gmap string nat).

Lemma store_graphs_go graphs : forall m h,
  NoDup (map fst graphs) ->
  let '(m', h') :=
    fold_left (fun '(m, h) '(dept, G) => (<[dept := length h]> m, h ++ [G]))
              graphs (m, h) in
  h' = h ++ map snd graphs
  /\ (forall dept, ~ In dept (map fst graphs) -> m' !! dept = m !! dept)
  /\ (forall dept G, In (dept, G) graphs ->
        exists l, m' !! dept = Some l /\ h' !! l = Some G).
Proof.
  induction graphs as [|[d0 G0] graphs IH]; intros m h Hnd.
  - cbn. split; [now rewrite app_nil_r|]. split; [reflexivity | intros ? ? []].
  - cbn [fold_left map fst] in *. apply NoDup_cons in Hnd as [Hd0 Hnd].
    specialize (IH (<[d0 := length h]> m) (h ++ [G0]) Hnd).
    destruct (fold_left _ graphs _) as [m' h']. destruct IH as (Hh & Hout & Hin).
    split; [rewrite Hh, <- app_assoc; reflexivity|]. split.
    + intros dept Hdept.
      assert (d0 <> dept /\ ~ In dept (map fst graphs)) as [Hne Hrest]
        by (split; intros ?; apply Hdept; [now left | now right]).
      rewrite (Hout _ Hrest). now apply lookup_insert_ne.
    + intros dept G [[= -> ->]|HG]; [|now apply Hin].
      exists (length h). split.
      * rewrite Hout by (rewrite <- list_elem_of_In; exact Hd0).
        apply lookup_insert_eq.
      * rewrite Hh, <- app_assoc. now apply list_lookup_middle.
Qed.

Lemma store_graphs_spec graphs h :
  NoDup (map fst graphs) ->
  let '(m', h') := store_graphs graphs h in
  h' = h ++ map snd graphs
  /\ (forall dept, ~ In dept (map fst graphs) -> m' !! dept = None)
  /\ (forall dept G, In (dept, G) graphs ->
        exists l, m' !! dept = Some l /\ h' !! l = Some G).
Proof.
  intros Hnd. unfold store_graphs.
  pose proof (store_graphs_go graphs ∅ h Hnd) as H.
  destruct (fold_left _ graphs _) as [m' h']. destruct H as (H1 & H2 & H3).
  split; [exact H1|]. split; [|exact H3].
  intros dept Hd. now rewrite H2, lookup_empty.
Qed.

End startup_facts.

Section startup_facts2.
Implicit Types (st : ServerState).

Lemma od_get_None {V} k (d : list (string * V)) :
  od_get k d = None -> ~ In k (map fst d).
Proof.
  induction d as [|[k0 v0] d IH]; cbn; [tauto|].
  destruct (String.eqb_spec k k0); [discriminate|]. intros H [E|Hin]; [congruence|].
  now apply IH.
Qed.

Lemma startup_stores year_term_course_list key all_courses :
  NoDup (map fst year_term_course_list) ->
  In (key, all_courses) year_term_course_list ->
  stores (startup year_term_course_list) key
         (build_graph_for_all_majors all_courses).
Proof.
  intros Hnd Hin. unfold startup.
  assert (Hstep : forall st,
            stores
              (let '(m, h) :=
                 store_graphs (build_graph_for_all_majors all_courses) (heap st) in
               {| heap := h; major_graph_map := <[key := m]> (major_graph_map st) |})
              key (build_graph_for_all_majors all_courses)).
  { intros st.
    pose proof (store_graphs_spec (build_graph_for_all_majors all_courses) (heap st)
                  (proj1 (build_graph_groups all_courses))) as Hs.
    destruct (store_graphs _ _) as [m h]. destruct Hs as (_ & H2 & H3).
    exists m. cbn [heap major_graph_map]. now rewrite lookup_insert_eq. }
  apply (fold_left_establish
           (fun st => stores st key (build_graph_for_all_majors all_courses))
           _ year_term_course_list (key, all_courses) Hin).
  - exact Hstep.
  - intros st [key' courses'] Hin' Hst.
    destruct (decide (key' = key)) as [->|Hne].
    + assert ((key, courses') = (key, all_courses)) as [= ->]
        by (eapply (NoDup_map_In_inj fst); [exact Hnd|..]; auto).
      apply Hstep.
    + pose proof (store_graphs_spec (build_graph_for_all_majors courses') (heap st)
                    (proj1 (build_graph_groups courses'))) as Hs.
      destruct (store_graphs _ _) as [m' h']. destruct Hs as (Hh & _).
      destruct Hst as (m & Hm & Hnone & Hsome).
      exists m. cbn [heap major_graph_map].
      split; [now rewrite lookup_insert_ne|]. split; [exact Hnone|].
      intros dept G HG. destruct (Hsome _ _ HG) as (l & Hl & Hheap).
      exists l. split; [exact Hl|]. rewrite Hh. now apply lookup_app_l_Some.
Qed.

Lemma stores_base_graph st key graphs department :
  NoDup (map fst graphs) -> stores st key graphs ->
  base_graph_of st key department
  = Some (default empty_graph (od_get department graphs)).
Proof.
  intros Hnd (m & Hm & Hnone & Hsome).
  unfold base_graph_of, stored_location. rewrite Hm. cbn.
  destruct (od_get department graphs) as [G|] eqn:E.
  - destruct (Hsome _ _ (od_get_In _ _ _ E)) as (l & -> & Hl). exact Hl.
  - rewrite (Hnone _ (od_get_None _ _ E)). reflexivity.
Qed.
End startup_facts2.

(** X18: after start-up from a list of terms with distinct keys, a request
    for one of these terms answers from the graph the builder makes of
    that term's course records for the department asked for, and from an
    empty graph when the builder has none for it. *)
Theorem renderGraph_after_startup year_term_course_list key all_courses
    department completed :
  NoDup (map fst year_term_course_list) ->
  In (key, all_courses) year_term_course_list ->
  exists st',
    renderGraph key department completed (startup year_term_course_list)
    = Some (rendering_of
              (default empty_graph
                 (od_get department (build_graph_for_all_majors all_courses)))
              completed,
            st').
Proof.
  intros Hnd Hin.
  destruct (renderGraph_run (startup year_term_course_list) key department
              completed (startup_allocated _)) as (G & HG & Hrun).
  rewrite (stores_base_graph _ _ _ _
             (proj1 (build_graph_groups all_courses))
             (startup_stores _ _ _ Hnd Hin)) in HG.
  injection HG as <-. eexists. exact Hrun.
Qed.

(** X18 for the sample: one term, the department CISE, no course taken. *)
Lemma renderGraph_after_startup_sample :
  NoDup (map fst [(("25", "fall"), Sample.catalog)])
  /\ In (("25", "fall"), Sample.catalog) [(("25", "fall"), Sample.catalog)]
  /\ exists st',
       renderGraph ("25", "fall") "CISE" []
         (startup [(("25", "fall"), Sample.catalog)])
       = Some (rendering_of
                 (default empty_graph
                    (od_get "CISE" (build_graph_for_all_majors Sample.catalog)))
                 [],
               st').
Proof.
  assert (H1 : NoDup (map fst [(("25", "fall"), Sample.catalog)]))
    by (repeat constructor; rewrite list_elem_of_In; intros []).
  assert (H2 : In (("25", "fall"), Sample.catalog)
                  [(("25", "fall"), Sample.catalog)]) by now left.
  refine (conj H1 (conj H2 _)).
  exact (renderGraph_after_startup _ ("25", "fall") Sample.catalog "CISE" []
           H1 H2).
Defined.

(** ** A serving server *)

Section serving_facts.
Variable year_term_course_list : list ((string * string) * list Course).
Implicit Types (st : ServerState).

Lemma store_graphs_heap_ok graphs h :
  Forall (fun G => adj_ok (succ G)) h ->
  Forall (fun entry => adj_ok (succ (snd entry))) graphs ->
  Forall (fun G => adj_ok (succ G)) (snd (store_graphs graphs h)).
Proof.
  intros Hh Hg. unfold store_graphs.
  apply (fold_left_invariant
           (fun acc : gmap string nat * list DiGraph =>
              Forall (fun G => adj_ok (succ G)) (snd acc))); [exact Hh|].
  intros [m h'] [dept G] Hin Hacc. cbn [snd] in *. apply Forall_app. split; [exact Hacc|].
  constructor; [|constructor]. rewrite List.Forall_forall in Hg. exact (Hg _ Hin).
Qed.

Lemma startup_heap_ok :
  Forall (fun G => adj_ok (succ G)) (heap (startup year_term_course_list)).
Proof.
  unfold startup. apply fold_left_invariant; [constructor|].
  intros st [key all_courses] _ Hst.
  pose proof (store_graphs_heap_ok (build_graph_for_all_majors all_courses)
                (heap st) Hst) as Hs.
  destruct (store_graphs _ _) as [m h]. cbn [heap snd] in *. apply Hs.
  apply List.Forall_forall. intros [dept G] Hin. cbn [snd].
  destruct (proj1 (proj2 (build_graph_groups all_courses)) _ _ Hin) as [codes ->].
  apply graph_of_codes_adj_ok.
Qed.

(** What stays true while the server serves. *)
Lemma serving_invariant st :
  serving year_term_course_list st ->
  stored_graphs_allocated st
  /\ Forall (fun G => adj_ok (succ G)) (heap st)
  /\ major_graph_map st = major_graph_map (startup year_term_course_list)
  /\ exists more, heap st = heap (startup year_term_course_list) ++ more.
Proof.
  induction 1 as [|st key dept completed r st' Hserv IH Hrun].
  - split; [apply startup_allocated|]. split; [apply startup_heap_ok|].
    split; [reflexivity|]. exists []. now rewrite app_nil_r.
  - destruct IH as (Hwf & Hok & Hmap & more & Hheap).
    destruct (renderGraph_run st key dept completed Hwf) as (G & HG & Hrun').
    rewrite Hrun in Hrun'. injection Hrun' as _ ->. cbn [heap major_graph_map].
    assert (HGok : adj_ok (succ G)).
    { unfold base_graph_of in HG.
      destruct (stored_location st key dept) as [l|]; cbn in HG.
      - rewrite List.Forall_forall in Hok. apply Hok, list_elem_of_In.
        eapply list_elem_of_lookup_2, HG.
      - injection HG as <-. split; constructor. }
    split; [|split; [|split]].
    + intros k m d l Hm Hl. cbn [heap major_graph_map] in *.
      specialize (Hwf _ _ _ _ Hm Hl). rewrite length_app. lia.
    + apply Forall_app. split; [exact Hok|].
      constructor; [split; constructor|]. constructor; [split; constructor|].
      constructor; [now apply with_taken_adj_ok | constructor].
    + exact Hmap.
    + eexists. rewrite Hheap, <- app_assoc. reflexivity.
Qed.

Lemma serving_base_graph st term_key department :
  serving year_term_course_list st ->
  base_graph_of st term_key department
  = base_graph_of (startup year_term_course_list) term_key department.
Proof.
  intros (_ & _ & Hmap & more & Hheap)%serving_invariant.
  unfold base_graph_of, stored_location. rewrite Hmap.
  destruct (major_graph_map (startup year_term_course_list) !! term_key)
    as [m|] eqn:Em; [|reflexivity]. cbn.
  destruct (m !! department) as [l|] eqn:El; [|reflexivity]. cbn.
  rewrite Hheap. apply lookup_app_l.
  exact (startup_allocated year_term_course_list _ _ _ _ Em El).
Qed.
End serving_facts.

(** X19: a graph request to a serving server never fails, whatever
    requests came before, and its answer is well formed: no node id twice,
    no edge twice, and both ends of every edge among the node ids. *)
Theorem serving_answers_well_formed year_term_course_list st term_key department
    completed :
  serving year_term_course_list st ->
  exists r st',
    renderGraph term_key department completed st = Some (r, st')
    /\ NoDup (map fst (out_nodes r))
    /\ NoDup (out_edges r)
    /\ forall u v, In (u, v) (out_edges r) ->
         In u (map fst (out_nodes r)) /\ In v (map fst (out_nodes r)).
Proof.
  intros Hserv.
  destruct (serving_invariant _ _ Hserv) as (Hwf & Hok & _).
  destruct (renderGraph_run st term_key department completed Hwf)
    as (G & HG & Hrun).
  do 2 eexists. split; [exact Hrun|].
  assert (HGok : adj_ok (succ G)).
  { unfold base_graph_of in HG.
    destruct (stored_location st term_key department) as [l|]; cbn in HG.
    - rewrite List.Forall_forall in Hok. apply Hok, list_elem_of_In.
      eapply list_elem_of_lookup_2, HG.
    - injection HG as <-. split; constructor. }
  pose proof (adj_ok_graph_ok _ (with_taken_adj_ok G completed HGok))
    as (H1 & H2 & H3).
  rewrite rendering_of_ids. exact (conj H1 (conj H2 H3)).
Qed.

(** X19 at the start-up state of the sample. *)
Lemma serving_answers_well_formed_sample :
  serving [(("25", "fall"), Sample.catalog)] Sample.state
  /\ exists r st',
       renderGraph ("25", "fall") "CISE" ["MAC2311"] Sample.state = Some (r, st')
       /\ NoDup (map fst (out_nodes r)).
Proof.
  assert (H : serving [(("25", "fall"), Sample.catalog)] Sample.state)
    by apply serving_start.
  refine (conj H _).
  destruct (serving_answers_well_formed _ Sample.state ("25", "fall") "CISE"
              ["MAC2311"] H) as (r & st' & H1 & H2 & _).
  exact (ex_intro _ r (ex_intro _ st' (conj H1 H2))).
Defined.

(** X20: the answer to a graph request does not depend on the requests the
    server has answered before: it is the answer the same request gets
    right after start-up; and the graph map of a serving server is the one
    start-up stored. *)
Theorem serving_answers_as_at_startup year_term_course_list st term_key
    department completed :
  serving year_term_course_list st ->
  fst <$> renderGraph term_key department completed st
  = fst <$> renderGraph term_key department completed
              (startup year_term_course_list)
  /\ major_graph_map st = major_graph_map (startup year_term_course_list).
Proof.
  intros Hserv.
  destruct (serving_invariant _ _ Hserv) as (Hwf & _ & Hmap & _).
  destruct (renderGraph_run st term_key department completed Hwf)
    as (G & HG & ->).
  destruct (renderGraph_run (startup year_term_course_list) term_key department
              completed (startup_allocated _)) as (G0 & HG0 & ->).
  rewrite (serving_base_graph _ _ _ _ Hserv) in HG.
  split; [|exact Hmap]. cbn. congruence.
Qed.

(** X20 after one request to the sample server. *)
Lemma serving_answers_as_at_startup_sample :
  (exists st, serving [(("25", "fall"), Sample.catalog)] st
              /\ fst <$> renderGraph ("25", "fall") "CISE" ["MAC2311"] st
                 = fst <$> renderGraph ("25", "fall") "CISE" ["MAC2311"]
                             (startup [(("25", "fall"), Sample.catalog)])).
Proof.
  destruct (renderGraph_run Sample.state ("25", "fall") "MATH" ["MAC2312"]
              (startup_allocated _)) as (G & _ & Hrun).
  eexists.
  assert (H : serving [(("25", "fall"), Sample.catalog)] _)
    by (eapply serving_request; [apply serving_start | exact Hrun]).
  refine (conj H _).
  exact (proj1 (serving_answers_as_at_startup _ _ ("25", "fall") "CISE"
                  ["MAC2311"] H)).
Defined.


(** ** Loading the course files *)

Section year_term_facts.
Implicit Types (key : string * string) (d : list ((string * string) * list Course)).

Lemma key_eqb_eq key key' :
  String.eqb (fst key) (fst key') && String.eqb (snd key) (snd key') = true
  <-> key = key'.
Proof.
  destruct key as [y t], key' as [y' t']. cbn.
  rewrite andb_true_iff, !String.eqb_eq. split; [intros [-> ->]|intros [= -> ->]]; auto.
Qed.

Lemma year_term_set_same key all_courses d :
  In (key, all_courses) (year_term_set key all_courses d).
Proof.
  induction d as [|[key' courses'] d IH]; cbn; [now left|].
  destruct (String.eqb (fst key) (fst key') && String.eqb (snd key) (snd key'))
    eqn:E.
  - apply key_eqb_eq in E as ->. now left.
  - right. exact IH.
Qed.

Lemma year_term_set_other key all_courses d key' courses' :
  key' <> key -> In (key', courses') d ->
  In (key', courses') (year_term_set key all_courses d).
Proof.
  intros Hne. induction d as [|[key0 courses0] d IH]; cbn; [tauto|].
  intros [E|Hin].
  - injection E as -> ->.
    destruct (String.eqb (fst key) (fst key') && String.eqb (snd key) (snd key'))
      eqn:E; [|now left].
    apply key_eqb_eq in E. congruence.
  - destruct (String.eqb (fst key) (fst key0) && String.eqb (snd key) (snd key0));
      right; auto.
Qed.

Lemma year_term_set_keys key all_courses d k :
  In k (map fst (year_term_set key all_courses d)) ->
  k = key \/ In k (map fst d).
Proof.
  induction d as [|[key0 courses0] d IH]; cbn.
  - intros [<-|[]]. now left.
  - destruct (String.eqb (fst key) (fst key0) && String.eqb (snd key) (snd key0));
      cbn; [tauto|]. intros [E|Hin]; [tauto|]. destruct (IH Hin); tauto.
Qed.

Lemma year_term_set_NoDup key all_courses d :
  NoDup (map fst d) -> NoDup (map fst (year_term_set key all_courses d)).
Proof.
  induction d as [|[key0 courses0] d IH]; cbn.
  - intros _. repeat constructor. rewrite list_elem_of_In. intros [].
  - intros [Hnotin Hnd]%NoDup_cons.
    destruct (String.eqb (fst key) (fst key0) && String.eqb (snd key) (snd key0))
      eqn:E; cbn; apply NoDup_cons; split; auto.
    rewrite list_elem_of_In in *. intros [->|Hin]%year_term_set_keys; [|tauto].
    rewrite (proj2 (key_eqb_eq key key) eq_refl) in E. discriminate.
Qed.
End year_term_facts.

Section load_facts.
Implicit Types (files : gmap string Database)
  (json_files : list (string * list Course)) (key : string * string).

Lemma load_files_app json_files more_files state :
  load_files (json_files ++ more_files) state
  = load_files json_files state ≫= load_files more_files.
Proof.
  revert state. induction json_files as [|[json_path all_courses] rest IH];
    intros state; cbn [load_files app]; [reflexivity|].
  destruct (init_db_for_path json_path all_courses state) as [state1|];
    cbn [mbind option_bind]; [apply IH|reflexivity].
Qed.

Lemma init_db_for_path_Some json_path all_courses state state' :
  init_db_for_path json_path all_courses state = Some state' ->
  exists key,
    parse_year_term_from_filename json_path = Some key
    /\ state' = (init_db_for_file (fst key) (snd key) all_courses (fst state),
                 year_term_set key all_courses (snd state)).
Proof.
  unfold init_db_for_path.
  destruct (parse_year_term_from_filename json_path) as [[y t]|]; cbn;
    [|discriminate].
  intros [= <-]. now exists (y, t).
Qed.


Lemma load_files_NoDup json_files state state' :
  load_files json_files state = Some state' ->
  NoDup (map fst (snd state)) -> NoDup (map fst (snd state')).
Proof.
  revert state. induction json_files as [|[json_path all_courses] rest IH];
    intros state; cbn [load_files In].
  - now intros [= <-].
  - destruct (init_db_for_path json_path all_courses state) as [state1|] eqn:E;
      cbn [mbind option_bind]; [|discriminate].
    apply init_db_for_path_Some in E as (key & _ & ->).
    intros Hl Hnd. apply (IH _ Hl). cbn. now apply year_term_set_NoDup.
Qed.

(** A file of another term leaves a term's index alone. *)
Lemma init_db_other_term files key key' json_path json_path' all_courses :
  parse_year_term_from_filename json_path = Some key ->
  parse_year_term_from_filename json_path' = Some key' ->
  key' <> key ->
  index_of (init_db_for_file (fst key') (snd key') all_courses files) key
  = index_of files key.
Proof.
  intros Hk Hk' Hne. destruct key as [y t], key' as [y' t'].
  unfold index_of. cbn [fst snd]. rewrite init_db_other; [reflexivity|].
  intros E. apply db_name_of_inj in E as [-> ->]; [congruence|..].
  - exact (proj1 (parse_year_term_chars _ _ _ "_"%char (or_introl eq_refl) Hk)).
  - exact (proj1 (parse_year_term_chars _ _ _ "_"%char (or_introl eq_refl) Hk')).
Qed.

Section one_term.
Variables (key : string * string) (term_path : string).
Hypothesis term_path_key : parse_year_term_from_filename term_path = Some key.

Lemma load_files_keeps_index json_files state state' :
  load_files json_files state = Some state' ->
  (forall file, In file json_files ->
     parse_year_term_from_filename (fst file) <> Some key) ->
  index_of (fst state') key = index_of (fst state) key.
Proof.
  revert state. induction json_files as [|[json_path all_courses] rest IH];
    intros state; cbn [load_files In].
  - now intros [= <-].
  - destruct (init_db_for_path json_path all_courses state) as [state1|] eqn:E;
      cbn [mbind option_bind]; [|discriminate].
    apply init_db_for_path_Some in E as (key' & Hk' & ->).
    intros Hl Hno. rewrite (IH _ Hl) by (intros file Hin; apply Hno; now right).
    cbn [fst]. eapply init_db_other_term; [exact term_path_key|exact Hk'|].
    intros ->. exact (Hno (json_path, all_courses) (or_introl eq_refl) Hk').
Qed.

Lemma load_files_keeps_entry json_files state state' all_courses :
  load_files json_files state = Some state' ->
  (forall file, In file json_files ->
     parse_year_term_from_filename (fst file) <> Some key) ->
  In (key, all_courses) (snd state) -> In (key, all_courses) (snd state').
Proof.
  revert state. induction json_files as [|[json_path courses] rest IH];
    intros state; cbn [load_files In].
  - now intros [= <-].
  - destruct (init_db_for_path json_path courses state) as [state1|] eqn:E;
      cbn [mbind option_bind]; [|discriminate].
    apply init_db_for_path_Some in E as (key' & Hk' & ->).
    intros Hl Hno Hin. apply (IH _ Hl); [intros file Hf; apply Hno; now right|].
    cbn [snd]. apply year_term_set_other; [|exact Hin].
    intros ->. exact (Hno (json_path, courses) (or_introl eq_refl) Hk').
Qed.

Lemma load_files_reuses_index json_files state state' row table :
  load_files json_files state = Some state' ->
  index_of (fst state) key = Some (row :: table) ->
  index_of (fst state') key = Some (row :: table).
Proof.
  revert state. induction json_files as [|[json_path courses] rest IH];
    intros state; cbn [load_files In].
  - now intros [= <-].
  - destruct (init_db_for_path json_path courses state) as [state1|] eqn:E;
      cbn [mbind option_bind]; [|discriminate].
    apply init_db_for_path_Some in E as (key' & Hk' & ->).
    intros Hl Hi. apply (IH _ Hl). cbn [fst].
    destruct (decide (key' = key)) as [->|Hne].
    + destruct key as [y t]. cbn [fst snd]. now rewrite init_db_index, Hi.
    + now rewrite (init_db_other_term _ _ _ _ _ _ term_path_key Hk' Hne).
Qed.

(** The term's files all hold [all_courses]. *)
Variable all_courses : list Course.

Local Abbreviation built := (term_built key all_courses).
Local Abbreviation buildable := (term_buildable key all_courses).

Lemma init_db_for_path_builds state :
  buildable state ->
  built (init_db_for_file (fst key) (snd key) all_courses (fst state),
         year_term_set key all_courses (snd state)).
Proof.
  intros Hb. split; cbn [fst snd]; [|apply year_term_set_same].
  destruct key as [y t]. cbn [fst snd]. rewrite init_db_index.
  destruct Hb as [-> | ->]; [reflexivity|]. cbn.
  now destruct (map row_of_course all_courses).
Qed.

Lemma load_files_keeps_built json_files state state' :
  load_files json_files state = Some state' ->
  (forall file, In file json_files ->
     parse_year_term_from_filename (fst file) = Some key ->
     snd file = all_courses) ->
  built state -> built state'.
Proof.
  revert state. induction json_files as [|[json_path courses] rest IH];
    intros state; cbn [load_files In].
  - now intros [= <-].
  - destruct (init_db_for_path json_path courses state) as [state1|] eqn:E;
      cbn [mbind option_bind]; [|discriminate].
    apply init_db_for_path_Some in E as (key' & Hk' & ->).
    intros Hl Hsame Hb. apply (IH _ Hl); [intros file Hf; apply Hsame; now right|].
    destruct (decide (key' = key)) as [->|Hne].
    + pose proof (Hsame (json_path, courses) (or_introl eq_refl) Hk') as Hc.
      cbn [snd] in Hc. subst courses.
      apply init_db_for_path_builds. right. exact (proj1 Hb).
    + destruct Hb as [Hi Hin]. split; cbn [fst snd].
      * now rewrite (init_db_other_term _ _ _ _ _ _ term_path_key Hk' Hne).
      * now apply year_term_set_other.
Qed.

Lemma load_files_builds json_files state state' :
  load_files json_files state = Some state' ->
  (forall file, In file json_files ->
     parse_year_term_from_filename (fst file) = Some key ->
     snd file = all_courses) ->
  (exists file, In file json_files
                /\ parse_year_term_from_filename (fst file) = Some key) ->
  buildable state -> built state'.
Proof.
  revert state. induction json_files as [|[json_path courses] rest IH];
    intros state; cbn [load_files In].
  - now intros _ _ (? & [] & _).
  - destruct (init_db_for_path json_path courses state) as [state1|] eqn:E;
      cbn [mbind option_bind]; [|discriminate].
    apply init_db_for_path_Some in E as (key' & Hk' & ->).
    intros Hl Hsame (file & Hin & Hf) Hb.
    assert (Hrest : forall file, In file rest ->
              parse_year_term_from_filename (fst file) = Some key ->
              snd file = all_courses)
      by (intros file' Hf'; apply Hsame; now right).
    destruct (decide (key' = key)) as [->|Hne].
    + apply (load_files_keeps_built _ _ _ Hl Hrest).
      pose proof (Hsame (json_path, courses) (or_introl eq_refl) Hk') as Hc.
      cbn [snd] in Hc. subst courses. now apply init_db_for_path_builds.
    + apply (IH _ Hl Hrest).
      * destruct Hin as [<-|Hin]; [cbn [fst] in Hf; congruence|]. now exists file.
      * unfold term_buildable. cbn [fst].
        now rewrite (init_db_other_term _ _ _ _ _ _ term_path_key Hk' Hne).
Qed.
End one_term.

(** A server booted from the files answers graph requests of a term from
    the courses kept under the term's key. *)
Lemma boot_answers json_files files files' year_term_course_list key
    all_courses department completed :
  load_files json_files (files, []) = Some (files', year_term_course_list) ->
  In (key, all_courses) year_term_course_list ->
  exists st',
    renderGraph key department completed (startup year_term_course_list)
    = Some (rendering_of
              (default empty_graph
                 (od_get department (build_graph_for_all_majors all_courses)))
              completed,
            st').
Proof.
  intros Hl Hin.
  assert (Hnd : NoDup (map fst year_term_course_list)).
  { apply (load_files_NoDup _ _ _ Hl). constructor. }
  destruct (renderGraph_run (startup year_term_course_list) key department
              completed (startup_allocated _)) as (G & HG & Hrun).
  rewrite (stores_base_graph _ _ _ _
             (proj1 (build_graph_groups all_courses))
             (startup_stores _ _ _ Hnd Hin)) in HG.
  injection HG as <-. eexists. exact Hrun.
Qed.
End load_facts.

Section load_order_facts.
Variables (key : string * string).

Lemma load_files_first_builds before first_path first_courses rest state state' :
  parse_year_term_from_filename first_path = Some key ->
  load_files (before ++ (first_path, first_courses) :: rest) state = Some state' ->
  (forall file, In file before ->
     parse_year_term_from_filename (fst file) <> Some key) ->
  default [] (index_of (fst state) key) = [] ->
  first_courses <> [] ->
  index_of (fst state') key = Some (map row_of_course first_courses).
Proof.
  intros Hk Hl Hno Hfresh Hne. rewrite load_files_app in Hl.
  destruct (load_files before state) as [state1|] eqn:E1;
    cbn [mbind option_bind load_files] in Hl; [|discriminate].
  destruct (init_db_for_path first_path first_courses state1) as [state2|] eqn:E2;
    cbn [mbind option_bind] in Hl; [|discriminate].
  apply init_db_for_path_Some in E2 as (key' & Hk' & ->).
  assert (key' = key) as -> by congruence.
  assert (Hi : index_of
                 (init_db_for_file (fst key) (snd key) first_courses (fst state1))
                 key
               = Some (map row_of_course first_courses)).
  { destruct key as [y t]. cbn [fst snd]. rewrite init_db_index.
    rewrite (load_files_keeps_index _ _ Hk _ _ _ E1 Hno), Hfresh. reflexivity. }
  destruct first_courses as [|course courses]; [congruence|].
  exact (load_files_reuses_index _ _ Hk _ _ _ _ _ Hl Hi).
Qed.

Lemma load_files_last_kept front last_path last_courses after state state' :
  parse_year_term_from_filename last_path = Some key ->
  load_files (front ++ (last_path, last_courses) :: after) state = Some state' ->
  (forall file, In file after ->
     parse_year_term_from_filename (fst file) <> Some key) ->
  In (key, last_courses) (snd state').
Proof.
  intros Hk Hl Hno. rewrite load_files_app in Hl.
  destruct (load_files front state) as [state1|] eqn:E1;
    cbn [mbind option_bind load_files] in Hl; [|discriminate].
  destruct (init_db_for_path last_path last_courses state1) as [state2|] eqn:E2;
    cbn [mbind option_bind] in Hl; [|discriminate].
  apply init_db_for_path_Some in E2 as (key' & Hk' & ->).
  assert (key' = key) as -> by congruence.
  apply (load_files_keeps_entry _ _ Hk _ _ _ _ Hl Hno).
  apply year_term_set_same.
Qed.
End load_order_facts.


(** X22: after a successful start from course files, for a term whose
    files all hold the same course records (in particular a term with one
    file) and whose database had no rows before: the term's search index
    holds one row per record of the file, in order, and every graph request
    for the term is answered from the graph the builder makes of these
    records. *)
Theorem boot_serves_term json_files files files' st json_path all_courses key :
  boot json_files files = Some (files', st) ->
  In (json_path, all_courses) json_files ->
  parse_year_term_from_filename json_path = Some key ->
  (forall path courses, In (path, courses) json_files ->
     parse_year_term_from_filename path = Some key -> courses = all_courses) ->
  default [] (index_of files key) = [] ->
  index_of files' key = Some (map row_of_course all_courses)
  /\ forall department completed,
       exists st',
         renderGraph key department completed st
         = Some (rendering_of
                   (default empty_graph
                      (od_get department
                         (build_graph_for_all_majors all_courses)))
                   completed,
                 st').
Proof.
  intros Hboot Hin Hk Hsame Hfresh. unfold boot in Hboot.
  destruct (load_files json_files (files, [])) as [[files1 d]|] eqn:El;
    cbn [mbind option_bind] in Hboot; [|discriminate].
  injection Hboot as <- <-.
  destruct (load_files_builds key json_path Hk all_courses json_files _ _ El)
    as [Hi Hd].
  - intros [path courses] Hf Hp. exact (Hsame _ _ Hf Hp).
  - now exists (json_path, all_courses).
  - now left.
  - split; [exact Hi|]. intros department completed.
    exact (boot_answers _ _ _ _ _ _ department completed El Hd).
Qed.

(** X22 for one file that holds the sample catalog, and no database. *)
Lemma boot_serves_term_sample :
  exists files' st,
    boot [("courses/UF_Feb-21-2025_25_fall_final.json", Sample.catalog)] ∅
    = Some (files', st)
    /\ index_of files' ("25", "fall") = Some (map row_of_course Sample.catalog).
Proof.
  exists (init_db_for_file "25" "fall" Sample.catalog ∅),
         (startup [(("25", "fall"), Sample.catalog)]).
  assert (H : boot [("courses/UF_Feb-21-2025_25_fall_final.json", Sample.catalog)] ∅
              = Some (init_db_for_file "25" "fall" Sample.catalog ∅,
                      startup [(("25", "fall"), Sample.catalog)]))
    by reflexivity.
  refine (conj H _).
  refine (proj1 (boot_serves_term _ _ _ _
                   "courses/UF_Feb-21-2025_25_fall_final.json" Sample.catalog
                   ("25", "fall") H _ eq_refl _ eq_refl)).
  - now left.
  - intros path courses [[= <- <-]|[]] _. reflexivity.
Defined.

(** X23: when a term has several course files, its search index and its
    graphs can come from different files: after a successful start with a
    database that had no rows, the index holds the records of the first
    file of the term in loading order (when that file is not empty), while
    graph requests are answered from the records of the last one. *)
Theorem boot_term_loaded_twice json_files files files' st key
    before first_path first_courses rest
    front last_path last_courses after :
  boot json_files files = Some (files', st) ->
  json_files = before ++ (first_path, first_courses) :: rest ->
  (forall file, In file before ->
     parse_year_term_from_filename (fst file) <> Some key) ->
  parse_year_term_from_filename first_path = Some key ->
  first_courses <> [] ->
  json_files = front ++ (last_path, last_courses) :: after ->
  (forall file, In file after ->
     parse_year_term_from_filename (fst file) <> Some key) ->
  parse_year_term_from_filename last_path = Some key ->
  default [] (index_of files key) = [] ->
  index_of files' key = Some (map row_of_course first_courses)
  /\ forall department completed,
       exists st',
         renderGraph key department completed st
         = Some (rendering_of
                   (default empty_graph
                      (od_get department
                         (build_graph_for_all_majors last_courses)))
                   completed,
                 st').
Proof.
  intros Hboot Hfirst Hbefore Hk1 Hne Hlast Hafter Hk2 Hfresh.
  unfold boot in Hboot.
  destruct (load_files json_files (files, [])) as [[files1 d]|] eqn:El;
    cbn [mbind option_bind] in Hboot; [|discriminate].
  injection Hboot as <- <-. split.
  - rewrite Hfirst in El.
    exact (load_files_first_builds key _ _ _ _ _ _ Hk1 El Hbefore Hfresh Hne).
  - intros department completed.
    apply (boot_answers _ _ _ _ _ _ department completed El).
    rewrite Hlast in El.
    exact (load_files_last_kept key _ _ _ _ _ _ Hk2 El Hafter).
Qed.

(** X23 for two files of fall 2025, one course record each. *)
Lemma boot_term_loaded_twice_sample :
  exists files' st,
    boot [("courses/UF_Feb-21-2025_25_fall_final.json", [Sample.cop3503]);
          ("courses/UF_Mar-01-2025_25_fall_final.json", [Sample.mac2312])] ∅
    = Some (files', st)
    /\ index_of files' ("25", "fall") = Some (map row_of_course [Sample.cop3503])
    /\ exists st',
         renderGraph ("25", "fall") "MATH" [] st
         = Some (rendering_of
                   (default empty_graph
                      (od_get "MATH"
                         (build_graph_for_all_majors [Sample.mac2312])))
                   [],
                 st').
Proof.
  exists (init_db_for_file "25" "fall" [Sample.mac2312]
            (init_db_for_file "25" "fall" [Sample.cop3503] ∅)),
         (startup [(("25", "fall"), [Sample.mac2312])]).
  assert (H : boot [("courses/UF_Feb-21-2025_25_fall_final.json", [Sample.cop3503]);
                    ("courses/UF_Mar-01-2025_25_fall_final.json", [Sample.mac2312])] ∅
              = Some (init_db_for_file "25" "fall" [Sample.mac2312]
                        (init_db_for_file "25" "fall" [Sample.cop3503] ∅),
                      startup [(("25", "fall"), [Sample.mac2312])]))
    by reflexivity.
  refine (conj H _).
  pose proof (boot_term_loaded_twice _ _ _ _ ("25", "fall")
                [] "courses/UF_Feb-21-2025_25_fall_final.json" [Sample.cop3503]
                [("courses/UF_Mar-01-2025_25_fall_final.json", [Sample.mac2312])]
                [("courses/UF_Feb-21-2025_25_fall_final.json", [Sample.cop3503])]
                "courses/UF_Mar-01-2025_25_fall_final.json" [Sample.mac2312] []
                H eq_refl) as T.
  destruct T as [Hi Hg]; try reflexivity; try discriminate;
    try (now intros file []).
  exact (conj Hi (Hg "MATH" [])).
Defined.

(** ** The database names of the course files *)

Section glob_name_facts.
Implicit Types (s t : string) (l : list string).

Lemma fsencode_length_app s t :
  Py.fsencode_length (s +:+ t) = Py.fsencode_length s + Py.fsencode_length t.
Proof.
  induction s as [|c s IH]; [reflexivity|].
  rewrite app_String. cbn [Py.fsencode_length]. rewrite IH. lia.
Qed.

Lemma join_cons sep w l :
  l <> [] -> Py.join sep (w :: l) = w +:+ sep +:+ Py.join sep l.
Proof. now destruct l. Qed.

Lemma join_split_on sep s :
  Py.join (String sep "") (Py.split_on sep s) = s.
Proof.
  induction s as [|c s IH]; [reflexivity|]. cbn [Py.split_on].
  pose proof (split_on_not_nil sep s) as Hne.
  destruct (Ascii.eqb_spec c sep) as [->|Hc].
  - rewrite join_cons by exact Hne. now rewrite IH.
  - destruct (Py.split_on sep s) as [|w ws]; [congruence|].
    destruct ws as [|w' ws].
    + cbn [Py.join] in *. now rewrite IH.
    + rewrite join_cons in * by discriminate. rewrite app_String. now rewrite IH.
Qed.

Lemma fsencode_length_join l a b :
  Py.fsencode_length a + Py.fsencode_length b + 1
  <= Py.fsencode_length (Py.join "_" (l ++ [a; b])).
Proof.
  induction l as [|w l IH].
  - cbn [app Py.join]. rewrite !fsencode_length_app.
    change (Py.fsencode_length "_") with 1. lia.
  - cbn [app]. rewrite join_cons by (destruct l; discriminate).
    rewrite !fsencode_length_app. lia.
Qed.

Lemma replace_from_shorter k old s :
  Py.fsencode_length (Py.replace_from k old "" s) <= Py.fsencode_length s.
Proof.
  revert k. induction s as [|c s IH]; intros k; [reflexivity|].
  cbn [Py.replace_from Py.fsencode_length]. destruct k as [|k].
  - destruct (String.prefix old (String c s)).
    + change ("" +:+ ?x) with x. specialize (IH (String.length old - 1)). lia.
    + cbn [Py.fsencode_length]. specialize (IH 0). lia.
  - specialize (IH k). lia.
Qed.

Lemma basename_keeps_absent c p :
  Py.str_mem c p = false -> Py.str_mem c (Py.basename p) = false.
Proof.
  intros Hc. unfold Py.basename.
  destruct (last (Py.split_on "/" p)) as [w|] eqn:E; [|reflexivity].
  apply last_Some in E as [l E].
  assert (Hin : In w (Py.split_on "/" p)).
  { rewrite E. apply in_app_iff. right. now left. }
  exact (proj2 (split_on_fields "/" p w Hin) c Hc).
Qed.

(** The database name of a course file that exists and that the pattern
    [courses/*_final.json] of start-up matches: [sqlite3.connect] does not
    refuse it.  The name has no slash and no NUL, as the year and the term
    are fields of the file's base name, and it is no longer than that base
    name, whose last field is [final.json]. *)
Lemma glob_name_connects json_path stem y t :
  Py.basename json_path = stem +:+ "_final.json" ->
  Py.fsencode_length (Py.basename json_path) <= 255 ->
  Py.str_mem Py.NUL json_path = false ->
  parse_year_term_from_filename json_path = Some (y, t) ->
  connect_error (db_name_of y t) = None
  /\ forall files,
       get_connection (db_name_of y t) files
       = inr (open_or_create (db_name_of y t) files).
Proof.
  intros Hglob Hlen Hnul Hparse.
  assert (Hc : connect_error (db_name_of y t) = None).
  2: { split; [exact Hc|]. intros files. unfold get_connection. rewrite Hc.
       now destruct (files !! db_name_of y t). }
  pose proof (parse_year_term_chars _ _ _ "/"%char (or_intror eq_refl) Hparse)
    as [Hys Hts].
  apply basename_keeps_absent in Hnul.
  unfold parse_year_term_from_filename in Hparse.
  set (parts := Py.split_on "_" (Py.basename json_path)) in *.
  destruct (Py.neg_index parts 3) as [y0|] eqn:E3; [|discriminate].
  destruct (Py.neg_index parts 2) as [raw|] eqn:E2; [|discriminate].
  cbn in Hparse. injection Hparse as -> Ht.
  assert (Hparts : parts = Py.split_on "_" stem ++ ["final.json"]).
  { unfold parts. rewrite Hglob.
    change (stem +:+ "_final.json") with (stem +:+ String "_" "final.json").
    now rewrite split_on_app. }
  assert (Hfields : exists l, Py.split_on "_" stem = l ++ [y; raw]).
  { rewrite Hparts in E3, E2. unfold Py.neg_index in E3, E2.
    rewrite rev_app_distr in E3, E2. cbn [rev app lookup list_lookup] in E3, E2.
    destruct (rev (Py.split_on "_" stem)) as [|r0 [|r1 rest]] eqn:Er;
      try discriminate.
    cbn in E3, E2. injection E2 as ->. injection E3 as ->.
    exists (rev rest). rewrite <- (rev_involutive (Py.split_on "_" stem)), Er.
    cbn [rev]. now rewrite <- app_assoc. }
  destruct Hfields as [l Hl].
  assert (Hstem : Py.fsencode_length y + Py.fsencode_length raw + 1
                  <= Py.fsencode_length stem).
  { rewrite <- (join_split_on "_" stem), Hl. apply fsencode_length_join. }
  assert (Hyn : Py.str_mem Py.NUL y = false /\ Py.str_mem Py.NUL raw = false).
  { split; refine (proj2 (split_on_fields "_" (Py.basename json_path) _ _) _ Hnul);
      fold parts; eapply neg_index_In; eassumption. }
  destruct Hyn as [Hyn Hrn].
  assert (Htl : Py.fsencode_length t <= Py.fsencode_length raw
                /\ Py.str_mem Py.NUL t = false).
  { subst t. destruct (Py.contains "final.json" raw); [|split; [lia|exact Hrn]].
    split; [apply replace_from_shorter | now apply replace_from_keeps_absent]. }
  destruct Htl as [Htl Htn].
  rewrite Hglob, fsencode_length_app in Hlen.
  change (Py.fsencode_length "_final.json") with 11 in Hlen.
  unfold connect_error, db_name_of. rewrite !str_mem_app, Hyn, Htn, Hys, Hts.
  change (Py.str_mem Py.NUL "courses_") with false.
  change (Py.str_mem Py.NUL "_") with false.
  change (Py.str_mem Py.NUL ".db") with false.
  change (Py.str_mem "/" "courses_") with false.
  change (Py.str_mem "/" "_") with false.
  change (Py.str_mem "/" ".db") with false.
  cbn [orb]. rewrite !fsencode_length_app.
  change (Py.fsencode_length "courses_") with 8.
  change (Py.fsencode_length "_") with 1.
  change (Py.fsencode_length ".db") with 3.
  destruct (Nat.ltb_spec 255
              (8 + (Py.fsencode_length y + (1 + (Py.fsencode_length t + 3)))));
    [lia | reflexivity].
Qed.
End glob_name_facts.
